(** * Maji water platform: order, alert and report handlers

    A shallow embedding of the business logic of the Maji backend
    (backend/src/routes/{orders,alerts,reports}.routes.ts,
    backend/src/services/auth.service.ts, backend/src/utils/helpers.ts,
    backend/src/utils/errors.ts and the [config] object) together with the
    properties its specification states and further properties of the code.

    Conventions of the embedding.
    - Amounts, counters and reputation are Prisma [Int] columns and are
      modelled as [Z]; JavaScript arithmetic on such integers is exact in the
      safe-integer range.
    - [Date.now()] / [new Date()] is an explicit argument [now], a number of
      milliseconds; optional [DateTime?] columns are [option Z].
    - [Float] columns that hold a quotient of integers (the feedback score)
      and the fee percentage are exact rationals [Q]; module [Binary64]
      repeats the two computations on IEEE doubles and the exact models are
      compared with it on concrete inputs. Where the double can differ from
      the exact value (a mean that is 0.7 exactly), nothing is stated.
    - Coordinates and distances are real numbers [R]; the haversine formula is
      transcribed over [R], and used only where the double computation
      agrees with it.
    - A handler takes the user that [authenticate] attached to the request
      and a body of the schema's type; the [authorize] and [validate]
      pre-handlers are part of the handler where the route has them and
      they can reject.
    - The relational store is a record of tables, each table a list of rows;
      handlers are computations in a state-and-error monad over that store.
      [findUnique] returns the first row with the given id, [update] rewrites
      the rows with that id and fails when there is none. *)

From Stdlib Require Import PrimFloat.
From Stdlib Require Uint63.
From Stdlib Require Import ZArith QArith Qround Qfield List String Ascii Bool.
From Stdlib Require Import Lia Lqa.
From Stdlib Require Import Reals Lra.
Import ListNotations.

Close Scope Q_scope.
Close Scope R_scope.
Open Scope Z_scope.
Open Scope string_scope.

(* ================================================================== *)
(** * Part I: definitions *)
(* ================================================================== *)

Definition Id := string.

(** ** Enumerations (backend/src/types/index.ts) *)

Inductive UserRole := CITIZEN | SCOUT | VENDOR | BUSINESS | ADMIN.

Module OrderStatus.
Inductive t :=
| PENDING | ACCEPTED | PAYMENT_PENDING | PAID | PREPARING
| OUT_FOR_DELIVERY | DELIVERED | COMPLETED | CANCELLED | REFUNDED.

Definition eqb (a b : t) : bool :=
  match a, b with
  | PENDING, PENDING | ACCEPTED, ACCEPTED
  | PAYMENT_PENDING, PAYMENT_PENDING | PAID, PAID
  | PREPARING, PREPARING | OUT_FOR_DELIVERY, OUT_FOR_DELIVERY
  | DELIVERED, DELIVERED | COMPLETED, COMPLETED
  | CANCELLED, CANCELLED | REFUNDED, REFUNDED => true
  | _, _ => false
  end.

(** [Array.prototype.includes] on a list of statuses. *)
Definition includes (l : list t) (s : t) : bool := existsb (eqb s) l.

(** The string value of the enum member, used in error messages. *)
Definition name (s : t) : string :=
  match s with
  | PENDING => "PENDING" | ACCEPTED => "ACCEPTED"
  | PAYMENT_PENDING => "PAYMENT_PENDING" | PAID => "PAID"
  | PREPARING => "PREPARING" | OUT_FOR_DELIVERY => "OUT_FOR_DELIVERY"
  | DELIVERED => "DELIVERED" | COMPLETED => "COMPLETED"
  | CANCELLED => "CANCELLED" | REFUNDED => "REFUNDED"
  end.
End OrderStatus.

Module TransactionStatus.
Inductive t := PENDING | PROCESSING | COMPLETED | FAILED | REFUNDED.
End TransactionStatus.

Module EscrowStatus.
Inductive t := NONE | HELD | RELEASED | REFUNDED.
End EscrowStatus.

Module AlertStatus.
Inductive t := ACTIVE | EXPIRED | CANCELLED | VERIFIED.
End AlertStatus.

Module ReportType.
Inductive t :=
| LEAK | BURST_PIPE | CONTAMINATION | BLOCKED_DRAIN | FLOOD | BROKEN_TAP
| OTHER.

Definition eqb (a b : t) : bool :=
  match a, b with
  | LEAK, LEAK | BURST_PIPE, BURST_PIPE | CONTAMINATION, CONTAMINATION
  | BLOCKED_DRAIN, BLOCKED_DRAIN | FLOOD, FLOOD | BROKEN_TAP, BROKEN_TAP
  | OTHER, OTHER => true
  | _, _ => false
  end.

(** The string value of the enum member. *)
Definition name (s : t) : string :=
  match s with
  | LEAK => "LEAK" | BURST_PIPE => "BURST_PIPE"
  | CONTAMINATION => "CONTAMINATION" | BLOCKED_DRAIN => "BLOCKED_DRAIN"
  | FLOOD => "FLOOD" | BROKEN_TAP => "BROKEN_TAP" | OTHER => "OTHER"
  end.
End ReportType.

Module ReportStatus.
Inductive t :=
| PENDING | VERIFIED | FORWARDED | IN_PROGRESS | RESOLVED | REJECTED.

Definition eqb (a b : t) : bool :=
  match a, b with
  | PENDING, PENDING | VERIFIED, VERIFIED | FORWARDED, FORWARDED
  | IN_PROGRESS, IN_PROGRESS | RESOLVED, RESOLVED | REJECTED, REJECTED =>
      true
  | _, _ => false
  end.

Definition includes (l : list t) (s : t) : bool := existsb (eqb s) l.
End ReportStatus.

Definition UserRole_eqb (a b : UserRole) : bool :=
  match a, b with
  | CITIZEN, CITIZEN | SCOUT, SCOUT | VENDOR, VENDOR | BUSINESS, BUSINESS
  | ADMIN, ADMIN => true
  | _, _ => false
  end.

(** ** Errors (backend/src/utils/errors.ts)

    One constructor per error factory of [Errors] that the modelled handlers
    use, carrying the factory's arguments; [unexpected] stands for an
    exception that is not an [AppError], which [sendError] answers with
    status 500. *)

Inductive ErrorCode :=
| E_FORBIDDEN | E_VENDOR_NOT_FOUND | E_VENDOR_NOT_ACTIVE
| E_PRODUCT_NOT_FOUND | E_PRODUCT_UNAVAILABLE | E_ORDER_NOT_FOUND
| E_ORDER_INVALID_STATUS | E_MIN_ORDER_NOT_MET | E_ALERT_NOT_FOUND
| E_REPORT_NOT_FOUND | E_VALIDATION_ERROR | E_INTERNAL_ERROR.

Inductive AppError :=
| forbidden (message : string)
| vendorNotFound
| vendorNotActive
| productNotFound
| productUnavailable
| orderNotFound
| orderInvalidStatus (current expected : string)
| minOrderNotMet (minOrder : Z)
| alertNotFound
| reportNotFound
| validation (details : list (string * string))
| unexpected.

Definition code (e : AppError) : ErrorCode :=
  match e with
  | forbidden _ => E_FORBIDDEN
  | vendorNotFound => E_VENDOR_NOT_FOUND
  | vendorNotActive => E_VENDOR_NOT_ACTIVE
  | productNotFound => E_PRODUCT_NOT_FOUND
  | productUnavailable => E_PRODUCT_UNAVAILABLE
  | orderNotFound => E_ORDER_NOT_FOUND
  | orderInvalidStatus _ _ => E_ORDER_INVALID_STATUS
  | minOrderNotMet _ => E_MIN_ORDER_NOT_MET
  | alertNotFound => E_ALERT_NOT_FOUND
  | reportNotFound => E_REPORT_NOT_FOUND
  | validation _ => E_VALIDATION_ERROR
  | unexpected => E_INTERNAL_ERROR
  end.

Definition statusCode (e : AppError) : Z :=
  match e with
  | forbidden _ => 403
  | vendorNotFound | productNotFound | orderNotFound | alertNotFound
  | reportNotFound => 404
  | unexpected => 500
  | _ => 400
  end.

(** ** Rows of the store (the Prisma models the handlers read and write) *)

Module User.
Record t := mk { id : Id; role : UserRole; reputation : Z }.

(** [data: { reputation: { increment: n } }] *)
Definition incrementReputation (n : Z) (u : t) : t :=
  mk (id u) (role u) (reputation u + n).
End User.

Module Vendor.
Record t := mk {
  id : Id; userId : Id; isActive : bool; isVerified : bool;
  minOrder : Z; deliveryFee : Z }.
End Vendor.

Module Product.
Record t := mk { id : Id; vendorId : Id; price : Z; isAvailable : bool }.
End Product.

Module OrderItem.
Record t := mk {
  productId : Id; quantity : Z; unitPrice : Z; totalPrice : Z }.
End OrderItem.

Module Order.
Record t := mk {
  id : Id; customerId : Id; vendorId : Id; status : OrderStatus.t;
  deliveryAddress : string;
  subtotal : Z; deliveryFee : Z; platformFee : Z; totalAmount : Z;
  items : list OrderItem.t;
  acceptedAt : option Z; deliveredAt : option Z; completedAt : option Z }.

(** The [data] object of [prisma.order.update]: the fields that are present
    overwrite the row, the others are kept. *)
Record Data := mkData {
  d_status : option OrderStatus.t;
  d_acceptedAt : option Z;
  d_deliveredAt : option Z;
  d_completedAt : option Z }.

Definition noData : Data := mkData None None None None.

Definition orElse {A} (new : option A) (old : A) : A :=
  match new with Some a => a | None => old end.

Definition orKeep {A} (new old : option A) : option A :=
  match new with Some a => Some a | None => old end.

Definition apply (d : Data) (o : t) : t :=
  mk (id o) (customerId o) (vendorId o) (orElse (d_status d) (status o))
     (deliveryAddress o)
     (subtotal o) (deliveryFee o) (platformFee o) (totalAmount o) (items o)
     (orKeep (d_acceptedAt d) (acceptedAt o))
     (orKeep (d_deliveredAt d) (deliveredAt o))
     (orKeep (d_completedAt d) (completedAt o)).
End Order.

Module Transaction.
Record t := mk {
  id : Id; orderId : Id; status : TransactionStatus.t;
  escrowStatus : EscrowStatus.t; escrowReleasedAt : option Z }.

(** [data: { escrowStatus: 'RELEASED', escrowReleasedAt: new Date() }] *)
Definition release (now : Z) (x : t) : t :=
  mk (id x) (orderId x) (status x) EscrowStatus.RELEASED (Some now).
End Transaction.

Module Alert.
Record t := mk {
  id : Id; scoutId : Id; status : AlertStatus.t; isVerified : bool;
  feedbackScore : option Q; feedbackCount : Z }.

(** [data: { feedbackScore, feedbackCount, isVerified }] *)
Definition setFeedback (score : Q) (count : Z) (verified : bool) (a : t)
  : t :=
  mk (id a) (scoutId a) (status a) verified (Some score) count.

(** [data: { status }] *)
Definition setStatus (s : AlertStatus.t) (a : t) : t :=
  mk (id a) (scoutId a) s (isVerified a) (feedbackScore a)
     (feedbackCount a).
End Alert.

(** [GeoJSONPoint]: [coordinates] is [[longitude, latitude]]. *)
Record GeoJSONPoint := mkPoint { coordinates : R * R }.

Record LatLng := mkLatLng { lng : R; lat : R }.

Module Report.
Record t := mk {
  id : Id; userId : Id; type : ReportType.t; location : GeoJSONPoint;
  status : ReportStatus.t; verifiedCount : Z;
  bountyAmount : option Z; bountyPaid : bool; bountyPaidAt : option Z;
  resolvedAt : option Z; resolvedBy : option Id;
  resolution : option string; createdAt : Z }.

(** The [updateData] object of the status route. [d_resolution] is present
    whenever the branch for RESOLVED ran, and then holds the request's
    optional resolution text. *)
Record Data := mkData {
  d_status : option ReportStatus.t;
  d_verifiedCount : option Z;
  d_resolvedAt : option Z;
  d_resolvedBy : option Id;
  d_resolution : option (option string);
  d_bountyPaid : option bool;
  d_bountyPaidAt : option Z }.

Definition noData : Data := mkData None None None None None None None.

Definition apply (d : Data) (r : t) : t :=
  mk (id r) (userId r) (type r) (location r)
     (Order.orElse (d_status d) (status r))
     (Order.orElse (d_verifiedCount d) (verifiedCount r))
     (bountyAmount r)
     (Order.orElse (d_bountyPaid d) (bountyPaid r))
     (Order.orKeep (d_bountyPaidAt d) (bountyPaidAt r))
     (Order.orKeep (d_resolvedAt d) (resolvedAt r))
     (Order.orKeep (d_resolvedBy d) (resolvedBy r))
     (match d_resolution d with
      | Some (Some s) => Some s
      | _ => resolution r
      end)
     (createdAt r).
End Report.

(** ** The store *)

Record Db := mkDb {
  users : list User.t;
  vendors : list Vendor.t;
  products : list Product.t;
  orders : list Order.t;
  transactions : list Transaction.t;
  alerts : list Alert.t;
  reports : list Report.t }.

Definition emptyDb : Db := mkDb [] [] [] [] [] [] [].

Definition set_users (f : list User.t -> list User.t) (db : Db) : Db :=
  mkDb (f (users db)) (vendors db) (products db) (orders db)
       (transactions db) (alerts db) (reports db).
Definition set_orders (f : list Order.t -> list Order.t) (db : Db) : Db :=
  mkDb (users db) (vendors db) (products db) (f (orders db))
       (transactions db) (alerts db) (reports db).
Definition set_transactions
  (f : list Transaction.t -> list Transaction.t) (db : Db) : Db :=
  mkDb (users db) (vendors db) (products db) (orders db)
       (f (transactions db)) (alerts db) (reports db).
Definition set_alerts (f : list Alert.t -> list Alert.t) (db : Db) : Db :=
  mkDb (users db) (vendors db) (products db) (orders db)
       (transactions db) (f (alerts db)) (reports db).
Definition set_reports (f : list Report.t -> list Report.t) (db : Db) : Db :=
  mkDb (users db) (vendors db) (products db) (orders db)
       (transactions db) (alerts db) (f (reports db)).

Section Table.
Context {Row : Type} (key : Row -> Id).

(** [findUnique({ where: { id } })] *)
Definition findUnique (id : Id) (t : list Row) : option Row :=
  find (fun r => String.eqb (key r) id) t.

(** The rows after [update({ where: { id }, data })]. *)
Definition updateRows (id : Id) (f : Row -> Row) (t : list Row)
  : list Row :=
  map (fun r => if String.eqb (key r) id then f r else r) t.
End Table.

(** ** Handlers as computations over the store

    A handler either answers with a value or throws an [AppError] that the
    enclosing [catch] hands to [sendError]; writes made before a throw stay
    in the store, as no handler wraps its queries in one transaction. *)

Inductive Result (A : Type) :=
| Ok (a : A)
| Err (e : AppError).
Arguments Ok {A} a.
Arguments Err {A} e.

Definition M (A : Type) : Type := Db -> Result A * Db.

Definition ret {A} (a : A) : M A := fun db => (Ok a, db).
Definition throw {A} (e : AppError) : M A := fun db => (Err e, db).
Definition bind {A B} (m : M A) (k : A -> M B) : M B :=
  fun db =>
    match m db with
    | (Ok a, db') => k a db'
    | (Err e, db') => (Err e, db')
    end.
Definition gets {A} (f : Db -> A) : M A := fun db => (Ok (f db), db).
Definition modify (f : Db -> Db) : M unit := fun db => (Ok tt, f db).

Notation "x <- m ;; k" := (bind m (fun x => k))
  (at level 61, m at next level, right associativity).
Notation "m ;;; k" := (bind m (fun _ => k))
  (at level 61, right associativity).

(** [if (c) throw e] *)
Definition throwIf (c : bool) (e : AppError) : M unit :=
  if c then throw e else ret tt.

(** [prisma.<model>.update]: rejects when no row has the id. *)
Definition updateIn {Row} (key : Row -> Id) (get : Db -> list Row)
  (set : (list Row -> list Row) -> Db -> Db) (id : Id) (f : Row -> Row)
  : M Row :=
  row <- gets (fun db => findUnique key id (get db)) ;;
  match row with
  | None => throw unexpected
  | Some r => modify (set (updateRows key id f)) ;;; ret (f r)
  end.

(** The user attached to the request by [authenticate]. *)
Record AuthUser := mkAuth { auth_id : Id; auth_role : UserRole }.

Definition UserRole_name (r : UserRole) : string :=
  match r with
  | CITIZEN => "CITIZEN" | SCOUT => "SCOUT" | VENDOR => "VENDOR"
  | BUSINESS => "BUSINESS" | ADMIN => "ADMIN"
  end.

(** [allowedRoles.includes(role)] *)
Definition rolesInclude (allowedRoles : list UserRole) (role : UserRole)
  : bool :=
  existsb (UserRole_eqb role) allowedRoles.

(** The [authorize(...allowedRoles)] pre-handler. *)
Definition authorize (allowedRoles : list UserRole) (user : AuthUser)
  : M unit :=
  throwIf (negb (rolesInclude allowedRoles (auth_role user)))
    (forbidden
       ("This action requires one of these roles: "
        ++ String.concat ", " (map UserRole_name allowedRoles))).

(** The [validate(schema, source)] pre-handler: a body the schema rejects is
    answered with [Errors.validation]; the issue list is Zod's and is not
    modelled. *)
Definition validate (accepted : bool) : M unit :=
  throwIf (negb accepted) (validation []).

(** ** The [config] object: reputation points and bounty amounts *)

Module config.
Definition reputation_reportPoints : Z := 5.
Definition reputation_verifiedReportBonus : Z := 15.

(** [config.bounty], an object literal: property names and values in
    source order. *)
Definition bounty : list (string * Z) :=
  [ ("leak", 20000); ("burstPipe", 30000); ("contamination", 25000);
    ("blockedDrain", 15000); ("flood", 20000); ("brokenTap", 10000);
    ("other", 5000) ].
End config.

(** Property access [obj[key]] on an object literal; [None] is
    [undefined]. *)
Fixpoint prop (obj : list (string * Z)) (key : string) : option Z :=
  match obj with
  | [] => None
  | (k, v) :: rest => if String.eqb k key then Some v else prop rest key
  end.

(** [a || b] where [a] is a possibly undefined number: [undefined] and [0]
    are falsy. *)
Definition orNumber (a : option Z) (b : Z) : Z :=
  match a with
  | Some v => if Z.eqb v 0 then b else v
  | None => b
  end.

(** [String.prototype.toLowerCase] on ASCII text. *)
Definition lowerAscii (c : ascii) : ascii :=
  let n := nat_of_ascii c in
  if ((65 <=? n)%nat && (n <=? 90)%nat)%bool then ascii_of_nat (n + 32)%nat
  else c.

Fixpoint toLowerCase (s : string) : string :=
  match s with
  | EmptyString => EmptyString
  | String c rest => String (lowerAscii c) (toLowerCase rest)
  end.

(** ** backend/src/utils/helpers.ts *)

(** [Math.round] on an exact rational: the nearest integer, halves upwards. *)
Definition Math_round (q : Q) : Z := Qfloor (q + (1 # 2))%Q.

(** [calculatePlatformFee(subtotal, feePercentage, minFee, maxFee)] *)
Definition calculatePlatformFee_with
  (subtotal : Z) (feePercentage : Q) (minFee maxFee : Z) : Z :=
  let calculatedFee := Math_round (inject_Z subtotal * feePercentage)%Q in
  Z.max minFee (Z.min maxFee calculatedFee).

(** The call with the default arguments [0.05], [500], [50000]. *)
Definition calculatePlatformFee (subtotal : Z) : Z :=
  calculatePlatformFee_with subtotal (5 # 100) 500 50000.

(** *** The arithmetic helpers on IEEE binary64 numbers

    [calculatePlatformFee] and the running mean of the feedback route as
    JavaScript evaluates them, on doubles; used to cross-check the exact
    models on concrete inputs. *)

Module Binary64.

(** An integer in the safe range, as a double. *)
Definition ofInt (z : Z) : float := PrimFloat.of_uint63 (Uint63.of_Z z).

(** [Math.ceil] for [0 <= x < 2^52]: adding and subtracting [2^52] rounds
    [x] to an integer, which is then moved up if it fell below [x]. *)
Definition Math_ceil (x : float) : float :=
  let r := (x + 4503599627370496 - 4503599627370496)%float in
  if PrimFloat.ltb r x then (r + 1)%float else r.

(** [Math.round] for [0 <= x < 2^52]: the nearest integer, halves upwards. *)
Definition Math_round (x : float) : float :=
  let c := Math_ceil x in
  if PrimFloat.ltb x (c - 0.5)%float then (c - 1)%float else c.

Definition Math_max (a b : float) : float :=
  if PrimFloat.ltb a b then b else a.

Definition Math_min (a b : float) : float :=
  if PrimFloat.ltb b a then b else a.

(** The doubles that the literals [0.05] and [0.7] denote. *)
Definition lit_0_05 : float := 0x1.999999999999ap-5%float.
Definition lit_0_7 : float := 0x1.6666666666666p-1%float.

(** [calculatePlatformFee(subtotal)] with the default arguments. *)
Definition calculatePlatformFee (subtotal : float) : float :=
  let calculatedFee := Math_round (subtotal * lit_0_05)%float in
  Math_max 500 (Math_min 50000 calculatedFee).

(** The feedback columns of an alert: score, count, verified flag. *)
Definition Feedback : Type := option float * Z * bool.

(** The three columns after one feedback request. *)
Definition submitFeedback (a : Feedback) (accurate : bool) : Feedback :=
  let '(feedbackScore, feedbackCount, _) := a in
  let newFeedbackCount := feedbackCount + 1 in
  let currentScore :=
    match feedbackScore with Some s => s | None => 0%float end in
  let feedbackValue := if accurate then 1%float else 0%float in
  let newScore :=
    ((currentScore * ofInt feedbackCount + feedbackValue)
     / ofInt newFeedbackCount)%float in
  (Some newScore, newFeedbackCount,
   PrimFloat.leb lit_0_7 newScore && Z.leb 3 newFeedbackCount).

(** The integers [from], [from + 1], ..., [from + count - 1]. *)
Fixpoint integersFrom (count : nat) (from : Z) : list Z :=
  match count with
  | O => []
  | S count' => from :: integersFrom count' (from + 1)
  end.

End Binary64.

(** [extractCoordinates(point)] *)
Definition extractCoordinates (point : GeoJSONPoint) : LatLng :=
  mkLatLng (fst (coordinates point)) (snd (coordinates point)).

(** [Math.atan2(y, x)] *)
Definition Math_atan2 (y x : R) : R :=
  (if Rlt_dec 0 x then atan (y / x)
   else if Rlt_dec x 0 then
     (if Rle_dec 0 y then atan (y / x) + PI else atan (y / x) - PI)
   else if Rlt_dec 0 y then PI / 2
   else if Rlt_dec y 0 then - PI / 2
   else 0)%R.

(** [calculateDistance(point1, point2)]: haversine distance in meters, over
    the reals. On doubles [a] can round above 1 for points that are almost
    antipodal, and the function then answers [NaN]; the properties below use
    the distance only where both agree: in the test [distance < 100], which
    [NaN] fails like every large distance, and in its symmetry. *)
Definition calculateDistance (point1 point2 : LatLng) : R :=
  let R_earth := 6371000%R in
  let phi1 := (lat point1 * PI / 180)%R in
  let phi2 := (lat point2 * PI / 180)%R in
  let dphi := ((lat point2 - lat point1) * PI / 180)%R in
  let dlambda := ((lng point2 - lng point1) * PI / 180)%R in
  let a :=
    (sin (dphi / 2) * sin (dphi / 2) +
     cos phi1 * cos phi2 * sin (dlambda / 2) * sin (dlambda / 2))%R in
  let c := (2 * Math_atan2 (sqrt a) (sqrt (1 - a)))%R in
  (R_earth * c)%R.

(** ** backend/src/routes/orders.routes.ts *)

Module Orders.

Record CreateOrderItem := mkItem { productId : Id; quantity : Z }.

Record CreateOrderBody := mkBody {
  vendorId : Id;
  items : list CreateOrderItem;
  deliveryAddress : string }.

(** [createOrderSchema] (the two optional delivery fields are left out). *)
Definition createOrderSchema (body : CreateOrderBody) : bool :=
  Nat.leb 1 (String.length (vendorId body))
  && forallb (fun i => Nat.leb 1 (String.length (productId i))
                       && Z.leb 1 (quantity i)) (items body)
  && Nat.leb 1 (List.length (items body))
  && Nat.leb 1 (String.length (deliveryAddress body))
  && Nat.leb (String.length (deliveryAddress body)) 500.

(** [updateStatusSchema]: [z.enum(['ACCEPTED', 'PREPARING',
    'OUT_FOR_DELIVERY', 'DELIVERED'])]. *)
Definition updateStatusSchema (status : OrderStatus.t) : bool :=
  OrderStatus.includes
    [OrderStatus.ACCEPTED; OrderStatus.PREPARING;
     OrderStatus.OUT_FOR_DELIVERY; OrderStatus.DELIVERED] status.

(** [prisma.product.findMany({ where: { id: { in: productIds }, vendorId } })] *)
Definition findProducts (productIds : list Id) (vendorId : Id) (db : Db)
  : list Product.t :=
  filter (fun p => existsb (String.eqb (Product.id p)) productIds
                   && String.eqb (Product.vendorId p) vendorId)
         (products db).

(** The [items.map] callback run over the items, threading [subtotal];
    [None] when [products.find] yields [undefined] and the access to
    [product.price] throws. *)
Fixpoint priceItems (products : list Product.t)
  (items : list CreateOrderItem) (subtotal : Z)
  : option (list OrderItem.t * Z) :=
  match items with
  | [] => Some ([], subtotal)
  | item :: rest =>
      match find (fun p => String.eqb (Product.id p) (productId item))
                 products with
      | None => None
      | Some product =>
          let totalPrice := Product.price product * quantity item in
          match priceItems products rest (subtotal + totalPrice) with
          | None => None
          | Some (orderItems, subtotal') =>
              Some (OrderItem.mk (productId item) (quantity item)
                      (Product.price product) totalPrice :: orderItems,
                    subtotal')
          end
      end
  end.

(** POST /orders *)
Definition createOrder (user : AuthUser) (body : CreateOrderBody)
  (newId : Id) : M Order.t :=
  validate (createOrderSchema body) ;;;
  let userId := auth_id user in
  vendor <- gets (fun db => findUnique Vendor.id (vendorId body) (vendors db)) ;;
  match vendor with
  | None => throw vendorNotFound
  | Some vendor =>
      throwIf (negb (Vendor.isActive vendor) || negb (Vendor.isVerified vendor))
        vendorNotActive ;;;
      let productIds := map productId (items body) in
      products <- gets (findProducts productIds (vendorId body)) ;;
      throwIf (negb (Nat.eqb (List.length products) (List.length productIds)))
        productNotFound ;;;
      throwIf (existsb (fun p => negb (Product.isAvailable p)) products)
        productUnavailable ;;;
      match priceItems products (items body) 0 with
      | None => throw unexpected
      | Some (orderItems, subtotal) =>
          throwIf (Z.ltb subtotal (Vendor.minOrder vendor))
            (minOrderNotMet (Vendor.minOrder vendor)) ;;;
          let deliveryFee := Vendor.deliveryFee vendor in
          let platformFee := calculatePlatformFee subtotal in
          let totalAmount := subtotal + deliveryFee + platformFee in
          let order :=
            Order.mk newId userId (vendorId body) OrderStatus.PENDING
              (deliveryAddress body) subtotal deliveryFee platformFee
              totalAmount orderItems None None None in
          modify (set_orders (fun t => (t ++ [order])%list)) ;;;
          ret order
      end
  end.

(** The [validTransitions] table of the status route. *)
Definition validTransitions (s : OrderStatus.t) : list OrderStatus.t :=
  match s with
  | OrderStatus.PENDING => [OrderStatus.ACCEPTED; OrderStatus.CANCELLED]
  | OrderStatus.ACCEPTED => [OrderStatus.PREPARING; OrderStatus.CANCELLED]
  | OrderStatus.PAYMENT_PENDING => [OrderStatus.PAID; OrderStatus.CANCELLED]
  | OrderStatus.PAID => [OrderStatus.PREPARING]
  | OrderStatus.PREPARING => [OrderStatus.OUT_FOR_DELIVERY]
  | OrderStatus.OUT_FOR_DELIVERY => [OrderStatus.DELIVERED]
  | OrderStatus.DELIVERED => [OrderStatus.COMPLETED]
  | OrderStatus.COMPLETED => []
  | OrderStatus.CANCELLED => []
  | OrderStatus.REFUNDED => []
  end.

(** The [updateData] object built from the requested status. *)
Definition updateData (status : OrderStatus.t) (now : Z) : Order.Data :=
  if OrderStatus.eqb status OrderStatus.ACCEPTED then
    Order.mkData (Some OrderStatus.PAYMENT_PENDING) (Some now) None None
  else if OrderStatus.eqb status OrderStatus.DELIVERED then
    Order.mkData (Some status) None (Some now) None
  else Order.mkData (Some status) None None None.

(** PATCH /orders/:id/status *)
Definition updateStatus (user : AuthUser) (id : Id) (status : OrderStatus.t)
  (now : Z) : M Order.t :=
  authorize [VENDOR; ADMIN] user ;;;
  validate (updateStatusSchema status) ;;;
  let userId := auth_id user in
  order <- gets (fun db => findUnique Order.id id (orders db)) ;;
  match order with
  | None => throw orderNotFound
  | Some order =>
      (* include: { vendor: true } *)
      vendor <- gets (fun db =>
                  findUnique Vendor.id (Order.vendorId order) (vendors db)) ;;
      match vendor with
      | None => throw unexpected
      | Some vendor =>
          throwIf (negb (String.eqb (Vendor.userId vendor) userId)
                   && negb (UserRole_eqb (auth_role user) ADMIN))
            (forbidden "Only the vendor can update order status") ;;;
          throwIf (negb (OrderStatus.includes
                           (validTransitions (Order.status order)) status))
            (orderInvalidStatus (OrderStatus.name (Order.status order))
                                (OrderStatus.name status)) ;;;
          updateIn Order.id orders set_orders id
            (Order.apply (updateData status now))
      end
  end.

(** The join of [include: { transaction: true }]. *)
Definition ofOrder (order : Order.t) (x : Transaction.t) : bool :=
  String.eqb (Transaction.orderId x) (Order.id order).

(** [data: { status: 'COMPLETED', completedAt: new Date() }] *)
Definition completedData (now : Z) : Order.Data :=
  Order.mkData (Some OrderStatus.COMPLETED) None None (Some now).

(** POST /orders/:id/confirm-delivery *)
Definition confirmDelivery (user : AuthUser) (id : Id) (now : Z) : M unit :=
  let userId := auth_id user in
  order <- gets (fun db => findUnique Order.id id (orders db)) ;;
  match order with
  | None => throw orderNotFound
  | Some order =>
      (* include: { transaction: true } *)
      transaction <- gets (fun db =>
        find (ofOrder order) (transactions db)) ;;
      throwIf (negb (String.eqb (Order.customerId order) userId))
        (forbidden "Only the customer can confirm delivery") ;;;
      throwIf (negb (OrderStatus.eqb (Order.status order)
                                     OrderStatus.DELIVERED))
        (orderInvalidStatus (OrderStatus.name (Order.status order))
                            "DELIVERED") ;;;
      (* prisma.$transaction([...]) *)
      updateIn Order.id orders set_orders id
        (Order.apply (completedData now)) ;;;
      match transaction with
      | Some x =>
          updateIn Transaction.id transactions set_transactions
            (Transaction.id x) (Transaction.release now) ;;; ret tt
      | None => ret tt
      end
  end.

End Orders.

(** ** backend/src/routes/alerts.routes.ts *)

Module Alerts.

(** [alert.feedbackScore || 0] *)
Definition scoreOrZero (s : option Q) : Q :=
  match s with
  | Some q => q
  | None => 0%Q
  end.

(** [newFeedbackCount] *)
Definition newFeedbackCount (alert : Alert.t) : Z :=
  Alert.feedbackCount alert + 1.

(** [newScore]: the running mean after one more answer, as an exact
    rational. The column is a double: the stored mean can differ from the
    exact one in the last place, and then, when the exact mean is 0.7
    itself, in the comparison with 0.7 (21 accurate answers of 30, in some
    orders). The properties below state of the score only what holds of the
    doubles too; see [Binary64.submitFeedback]. *)
Definition newScore (alert : Alert.t) (accurate : bool) : Q :=
  let currentScore := scoreOrZero (Alert.feedbackScore alert) in
  let feedbackValue := if accurate then 1%Q else 0%Q in
  ((currentScore * inject_Z (Alert.feedbackCount alert) + feedbackValue)
   / inject_Z (newFeedbackCount alert))%Q.

(** [newScore >= 0.7 && newFeedbackCount >= 3] *)
Definition newVerified (alert : Alert.t) (accurate : bool) : bool :=
  Qle_bool (7 # 10) (newScore alert accurate)
  && Z.leb 3 (newFeedbackCount alert).

(** The alert row as the feedback route rewrites it. *)
Definition rowAfterFeedback (alert : Alert.t) (accurate : bool) : Alert.t :=
  Alert.setFeedback (newScore alert accurate) (newFeedbackCount alert)
    (newVerified alert accurate) alert.

(** POST /alerts/:id/feedback; answers with the new score and count. *)
Definition submitFeedback (id : Id) (accurate : bool) : M (Q * Z) :=
  alert <- gets (fun db => findUnique Alert.id id (alerts db)) ;;
  match alert with
  | None => throw alertNotFound
  | Some alert =>
      updateIn Alert.id alerts set_alerts id
        (Alert.setFeedback (newScore alert accurate) (newFeedbackCount alert)
           (newVerified alert accurate)) ;;;
      (if accurate then
         updateIn User.id users set_users (Alert.scoutId alert)
           (User.incrementReputation 2) ;;; ret tt
       else ret tt) ;;;
      ret (newScore alert accurate, newFeedbackCount alert)
  end.

(** The store after a sequence of feedback requests on one alert, each
    request running on the store the previous one left. *)
Definition afterFeedback (id : Id) (answers : list bool) (db : Db) : Db :=
  fold_left (fun db accurate => snd (submitFeedback id accurate db))
            answers db.

(** The stored flag of an alert, if the alert exists. *)
Definition verifiedFlag (id : Id) (db : Db) : option bool :=
  option_map Alert.isVerified (findUnique Alert.id id (alerts db)).

(** A verified flag backed by the stored score and count. *)
Definition flagBacked (alert : Alert.t) : Prop :=
  Alert.isVerified alert = true ->
  (7 # 10 <= scoreOrZero (Alert.feedbackScore alert))%Q
  /\ 3 <= Alert.feedbackCount alert.

(** PATCH /alerts/:id/cancel *)
Definition cancel (user : AuthUser) (id : Id) : M unit :=
  let userId := auth_id user in
  let userRole := auth_role user in
  alert <- gets (fun db => findUnique Alert.id id (alerts db)) ;;
  match alert with
  | None => throw alertNotFound
  | Some alert =>
      throwIf (negb (String.eqb (Alert.scoutId alert) userId)
               && negb (UserRole_eqb userRole ADMIN))
        (forbidden "You can only cancel your own alerts") ;;;
      updateIn Alert.id alerts set_alerts id
        (Alert.setStatus AlertStatus.CANCELLED) ;;;
      ret tt
  end.

End Alerts.

(** ** backend/src/middleware/validation.ts: [geoPointSchema] *)

(** [z.number().min(lo).max(hi)] *)
Definition inRangeR (lo hi x : R) : bool :=
  (if Rle_dec lo x then true else false)
  && (if Rle_dec x hi then true else false).

(** [coordinates: z.tuple([z.number().min(-180).max(180),
    z.number().min(-90).max(90)])]: longitude, then latitude. *)
Definition geoPointSchema (point : GeoJSONPoint) : bool :=
  inRangeR (-180)%R 180%R (fst (coordinates point))
  && inRangeR (-90)%R 90%R (snd (coordinates point)).

(** ** backend/src/routes/reports.routes.ts *)

Module Reports.

Record CreateReportBody := mkBody {
  type : ReportType.t;
  location : GeoJSONPoint }.

(** [createReportSchema]: every [ReportType.t] is in the schema's enum, and
    the location is checked by [geoPointSchema] (the optional description,
    address and photo URLs are left out). *)
Definition createReportSchema (body : CreateReportBody) : bool :=
  geoPointSchema (location body).

(** The [where] clause of the duplicate check: same type, a live status,
    created within the last 24 hours. *)
Definition isRecent (type : ReportType.t) (now : Z) (r : Report.t) : bool :=
  ReportType.eqb (Report.type r) type
  && ReportStatus.includes
       [ReportStatus.PENDING; ReportStatus.VERIFIED; ReportStatus.FORWARDED;
        ReportStatus.IN_PROGRESS] (Report.status r)
  && Z.leb (now - 24 * 60 * 60 * 1000) (Report.createdAt r).

Definition findRecentReports (type : ReportType.t) (now : Z) (db : Db)
  : list Report.t :=
  filter (isRecent type now) (reports db).

(** [calculateDistance(locationCoords, reportCoords) < 100] *)
Definition isNearby (locationCoords : LatLng) (report : Report.t) : bool :=
  let reportCoords := extractCoordinates (Report.location report) in
  let distance := calculateDistance locationCoords reportCoords in
  if Rlt_dec distance 100 then true else false.

(** The first loop over [recentReports], threading [nearbyReportCount] and
    [isDuplicate]. *)
Fixpoint scanNearby (userId : Id) (locationCoords : LatLng)
  (recentReports : list Report.t) (nearbyReportCount : Z)
  (isDuplicate : bool) : Z * bool :=
  match recentReports with
  | [] => (nearbyReportCount, isDuplicate)
  | report :: rest =>
      if isNearby locationCoords report then
        scanNearby userId locationCoords rest (nearbyReportCount + 1)
          (if String.eqb (Report.userId report) userId then true
           else isDuplicate)
      else scanNearby userId locationCoords rest nearbyReportCount isDuplicate
  end.

(** A report that counts towards [nearbyReportCount]: matched by the
    query and closer than 100 meters. *)
Definition corroborates (type : ReportType.t) (now : Z)
  (locationCoords : LatLng) (r : Report.t) : bool :=
  isRecent type now r && isNearby locationCoords r.


(** The error thrown for a duplicate. *)
Definition DuplicateReport : AppError :=
  validation
    [("location",
      "You have already submitted a similar report for this location")].

(** [config.bounty[type.toLowerCase()] || config.bounty.other] *)
Definition bountyFor (type : ReportType.t) : Z :=
  orNumber (prop config.bounty (toLowerCase (ReportType.name type)))
           (orNumber (prop config.bounty "other") 0).

(** [data: { status: 'VERIFIED' }] *)
Definition statusVerified : Report.Data :=
  Report.mkData (Some ReportStatus.VERIFIED) None None None None None None.

(** [data: { status: 'VERIFIED', verifiedCount: nearbyReportCount + 1 }] *)
Definition verifiedData (nearbyReportCount : Z) : Report.Data :=
  Report.mkData (Some ReportStatus.VERIFIED) (Some (nearbyReportCount + 1))
                None None None None None.

(** [distance < 100 && r.status === 'PENDING'] *)
Definition nearbyPending (locationCoords : LatLng) (r : Report.t) : bool :=
  isNearby locationCoords r
  && ReportStatus.eqb (Report.status r) ReportStatus.PENDING.

(** The second loop over [recentReports]: upgrade the nearby pending ones. *)
Fixpoint upgradeNearby (locationCoords : LatLng) (nearbyReportCount : Z)
  (recentReports : list Report.t) : M unit :=
  match recentReports with
  | [] => ret tt
  | r :: rest =>
      (if nearbyPending locationCoords r
       then
         updateIn Report.id reports set_reports (Report.id r)
           (Report.apply (verifiedData nearbyReportCount)) ;;; ret tt
       else ret tt) ;;;
      upgradeNearby locationCoords nearbyReportCount rest
  end.

(** A row after the second loop: rewritten when some nearby pending report
    of [recentReports] carries its id. *)
Definition upgradedRow (locationCoords : LatLng) (nearbyReportCount : Z)
  (recentReports : list Report.t) (row : Report.t) : Report.t :=
  if existsb (fun r => nearbyPending locationCoords r
                       && String.eqb (Report.id r) (Report.id row))
             recentReports
  then Report.apply (verifiedData nearbyReportCount) row
  else row.

(** POST /reports; answers with the created row and the potential bounty. *)
Definition createReport (user : AuthUser) (body : CreateReportBody)
  (newId : Id) (now : Z) : M (Report.t * Z) :=
  validate (createReportSchema body) ;;;
  let userId := auth_id user in
  recentReports <- gets (findRecentReports (type body) now) ;;
  let locationCoords := extractCoordinates (location body) in
  let '(nearbyReportCount, isDuplicate) :=
    scanNearby userId locationCoords recentReports 0 false in
  throwIf isDuplicate DuplicateReport ;;;
  let bountyAmount := bountyFor (type body) in
  let report :=
    Report.mk newId userId (type body) (location body) ReportStatus.PENDING
      (nearbyReportCount + 1) (Some bountyAmount) false None None None None
      now in
  modify (set_reports (fun t => (t ++ [report])%list)) ;;;
  (if Z.leb 2 nearbyReportCount then
     updateIn Report.id reports set_reports newId
       (Report.apply statusVerified) ;;;
     upgradeNearby locationCoords nearbyReportCount recentReports
   else ret tt) ;;;
  updateIn User.id users set_users userId
    (User.incrementReputation config.reputation_reportPoints) ;;;
  ret (report, bountyAmount).

(** [report.bountyAmount] used as a condition: [null] and [0] are falsy. *)
Definition truthy (n : option Z) : bool :=
  match n with
  | Some v => negb (Z.eqb v 0)
  | None => false
  end.

(** [updateReportStatusSchema] on the optional resolution text. *)
Definition resolutionSchema (resolution : option string) : bool :=
  match resolution with
  | Some s => Nat.leb (String.length s) 500
  | None => true
  end.

(** The [updateData] object for RESOLVED, with and without the bounty. *)
Definition resolvedData (adminId : Id) (resolution : option string)
  (now : Z) (payBounty : bool) : Report.Data :=
  if payBounty then
    Report.mkData (Some ReportStatus.RESOLVED) None (Some now) (Some adminId)
      (Some resolution) (Some true) (Some now)
  else
    Report.mkData (Some ReportStatus.RESOLVED) None (Some now) (Some adminId)
      (Some resolution) None None.

(** [!report.bountyPaid && report.bountyAmount] *)
Definition bountyDue (report : Report.t) : bool :=
  negb (Report.bountyPaid report) && truthy (Report.bountyAmount report).

(** PATCH /reports/:id/status *)
Definition updateReportStatus (user : AuthUser) (id : Id)
  (status : ReportStatus.t) (resolution : option string) (now : Z)
  : M Report.t :=
  authorize [ADMIN] user ;;;
  validate (resolutionSchema resolution) ;;;
  let adminId := auth_id user in
  report <- gets (fun db => findUnique Report.id id (reports db)) ;;
  match report with
  | None => throw reportNotFound
  | Some report =>
      updateData <-
        (if ReportStatus.eqb status ReportStatus.RESOLVED then
           if bountyDue report then
             updateIn User.id users set_users (Report.userId report)
               (User.incrementReputation
                  config.reputation_verifiedReportBonus) ;;;
             ret (resolvedData adminId resolution now true)
           else
             ret (resolvedData adminId resolution now false)
         else
           ret (Report.mkData (Some status) None None None None None None)) ;;
      updateIn Report.id reports set_reports id (Report.apply updateData)
  end.

End Reports.



(** ** The specification's own tables, for comparison with the code *)

Module Spec.

(** The transition table of the specification, section 4.3. *)
Definition transitionTable (s : OrderStatus.t) : list OrderStatus.t :=
  match s with
  | OrderStatus.PENDING => [OrderStatus.ACCEPTED; OrderStatus.CANCELLED]
  | OrderStatus.ACCEPTED =>
      [OrderStatus.PAYMENT_PENDING; OrderStatus.CANCELLED]
  | OrderStatus.PAYMENT_PENDING => [OrderStatus.PAID; OrderStatus.CANCELLED]
  | OrderStatus.PAID => [OrderStatus.PREPARING]
  | OrderStatus.PREPARING =>
      [OrderStatus.OUT_FOR_DELIVERY; OrderStatus.CANCELLED]
  | OrderStatus.OUT_FOR_DELIVERY => [OrderStatus.DELIVERED]
  | OrderStatus.DELIVERED => [OrderStatus.COMPLETED]
  | OrderStatus.COMPLETED => []
  | OrderStatus.CANCELLED => []
  | OrderStatus.REFUNDED => []
  end.

(** The per-type bounty table the specification's claim lists. *)
Definition bountyTable (t : ReportType.t) : Z :=
  match t with
  | ReportType.LEAK => 20000
  | ReportType.BURST_PIPE => 30000
  | ReportType.CONTAMINATION => 25000
  | ReportType.BLOCKED_DRAIN => 15000
  | ReportType.FLOOD => 20000
  | ReportType.BROKEN_TAP => 10000
  | ReportType.OTHER => 5000
  end.

(** [clamp(v, min, max)] *)
Definition clamp (v lo hi : Z) : Z :=
  if Z.ltb v lo then lo else if Z.ltb hi v then hi else v.

End Spec.

(** The sum of quantity times current product price over requested items;
    a product is looked up by id in the store. *)
Definition lineTotal (db : Db) (item : Orders.CreateOrderItem) : Z :=
  match findUnique Product.id (Orders.productId item) (products db) with
  | Some p => Product.price p * Orders.quantity item
  | None => 0
  end.

Definition itemsTotal (db : Db) (items : list Orders.CreateOrderItem) : Z :=
  fold_right (fun item acc => lineTotal db item + acc) 0 items.

(** The sum of quantity times unit price over the lines of an order. *)
Definition linesTotal (lines : list OrderItem.t) : Z :=
  fold_right
    (fun l acc => OrderItem.quantity l * OrderItem.unitPrice l + acc) 0 lines.

(** Whether a handler answered or threw. *)
Definition succeeds {A} (r : Result A * Db) : Prop :=
  exists a, fst r = Ok a.

Definition failsWith {A} (e : AppError) (r : Result A * Db) : Prop :=
  fst r = Err e.

(** ** Concrete stores used by the examples *)

Module Example.

Definition admin : AuthUser := mkAuth "u-admin" ADMIN.
Definition seller : AuthUser := mkAuth "u-seller" VENDOR.
Definition customer : AuthUser := mkAuth "u-customer" CITIZEN.

Definition vendor1 : Vendor.t :=
  Vendor.mk "v1" "u-seller" true true 10000 2000.

Definition product1 : Product.t := Product.mk "p1" "v1" 5000 true.

Definition order1 (s : OrderStatus.t) : Order.t :=
  Order.mk "o1" "u-customer" "v1" s "12 Wilkinson Road" 20000 2000 1000
    23000 [OrderItem.mk "p1" 4 5000 20000] None None None.

Definition payment1 : Transaction.t :=
  Transaction.mk "t1" "o1" TransactionStatus.COMPLETED EscrowStatus.HELD
    None.

Definition people : list User.t :=
  [User.mk "u-admin" ADMIN 0; User.mk "u-seller" VENDOR 0;
   User.mk "u-customer" CITIZEN 0; User.mk "u-scout" SCOUT 100].

Definition alert1 (s : AlertStatus.t) : Alert.t :=
  Alert.mk "a1" "u-scout" s false None 0.

(** A store with one alert in status [s] and no feedback yet. *)
Definition board (s : AlertStatus.t) : Db :=
  mkDb people [] [] [] [] [alert1 s] [].

Definition pipe : GeoJSONPoint := mkPoint ((-13.2343)%R, 8.4657%R).

Definition leakBy (id userId : Id) (createdAt : Z) : Report.t :=
  Report.mk id userId ReportType.LEAK pipe ReportStatus.PENDING 1
    (Some 20000) false None None None None createdAt.

(** A leak report that was resolved, and its bounty paid, at [resolvedAt]. *)
Definition resolvedLeak (id userId : Id) (resolvedAt : Z) : Report.t :=
  Report.mk id userId ReportType.LEAK pipe ReportStatus.RESOLVED 1
    (Some 20000) true (Some resolvedAt) (Some resolvedAt) (Some "u-admin")
    (Some "pipe replaced") 1000.

(** A store whose only reports are [rows]. *)
Definition street (rows : list Report.t) : Db :=
  mkDb people [] [] [] [] [] rows.

(** A shop with one order in status [s] and its held payment. *)
Definition shop (s : OrderStatus.t) : Db :=
  mkDb people [vendor1] [product1] [order1 s] [payment1] [] [].

End Example.

(* ================================================================== *)
(** * Part I, continued: further handlers and helpers *)
(* ================================================================== *)

(** ** backend/src/utils/helpers.ts: confidence, pagination, phones *)

(** [Math.min] on exact rationals. *)
Definition Math_min_Q (a b : Q) : Q := if Qle_bool a b then a else b.

(** [calculateConfidence(scoutReputation)] *)
Definition calculateConfidence (scoutReputation : Z) : Q :=
  let baseConfidence := (5 # 10)%Q in
  let maxBonus := (45 # 100)%Q in
  let maxReputation := inject_Z 1000 in
  let bonus :=
    (Math_min_Q (inject_Z scoutReputation / maxReputation) 1 * maxBonus)%Q in
  (inject_Z (Math_round ((baseConfidence + bonus) * inject_Z 100))
   / inject_Z 100)%Q.

(** [calculateConfidence] on doubles, as JavaScript evaluates it. *)
Module Binary64Confidence.

Definition lit_0_45 : float := 0x1.ccccccccccccdp-2%float.

Definition calculateConfidence (scoutReputation : float) : float :=
  let baseConfidence := 0.5%float in
  let maxBonus := lit_0_45 in
  let maxReputation := 1000%float in
  let bonus :=
    (Binary64.Math_min (scoutReputation / maxReputation) 1 * maxBonus)%float in
  (Binary64.Math_round ((baseConfidence + bonus) * 100) / 100)%float.

End Binary64Confidence.

(** [createGeoPoint(lng, lat)] *)
Definition createGeoPoint (lng lat : R) : GeoJSONPoint := mkPoint (lng, lat).

(** A JavaScript number that is an integer, an infinity or NaN. *)
Inductive JsNumber :=
| Finite (z : Z)
| PlusInfinity
| NotANumber.

(** [Math.ceil(n / d)] for an array length [n] and an integer [d]. *)
Definition ceilQuotient (n d : Z) : JsNumber :=
  if Z.eqb d 0 then (if Z.eqb n 0 then NotANumber else PlusInfinity)
  else Finite (- ((- n) / d)).

(** [Array.prototype.slice(start, end)] with integer arguments. *)
Definition slice {A} (items : list A) (start finish : Z) : list A :=
  let len := Z.of_nat (List.length items) in
  let k := if Z.ltb start 0 then Z.max (len + start) 0 else Z.min start len in
  let final :=
    if Z.ltb finish 0 then Z.max (len + finish) 0 else Z.min finish len in
  firstn (Z.to_nat (final - k)) (skipn (Z.to_nat k) items).

Module Paginated.
Record t (A : Type) := mk {
  data : list A; total : Z; page : Z; limit : Z; totalPages : JsNumber }.
Arguments mk {A}.
Arguments data {A}.
Arguments total {A}.
Arguments page {A}.
Arguments limit {A}.
Arguments totalPages {A}.
End Paginated.

(** [paginate(items, page, limit)] *)
Definition paginate {A} (items : list A) (page limit : Z) : Paginated.t A :=
  let start := (page - 1) * limit in
  let finish := start + limit in
  let data := slice items start finish in
  let totalPages := ceilQuotient (Z.of_nat (List.length items)) limit in
  Paginated.mk data (Z.of_nat (List.length items)) page limit totalPages.

(** The pages [1 .. n] of a list, one after the other. *)
Definition allPages {A} (items : list A) (limit : Z) (n : nat) : list A :=
  flat_map (fun p => Paginated.data (paginate items (Z.of_nat p) limit))
           (seq 1 n).

(** [\d] *)
Definition isDigit (c : ascii) : bool :=
  let n := nat_of_ascii c in ((48 <=? n)%nat && (n <=? 57)%nat)%bool.

(** [s.replace(/[^...]/g, '')]: the characters of [s] that [keep] admits. *)
Fixpoint keepChars (keep : ascii -> bool) (s : string) : string :=
  match s with
  | EmptyString => EmptyString
  | String c rest =>
      if keep c then String c (keepChars keep rest) else keepChars keep rest
  end.

(** [s.replace(/^0+/, '')] *)
Fixpoint dropLeadingZeros (s : string) : string :=
  match s with
  | String "0"%char rest => dropLeadingZeros rest
  | _ => s
  end.

(** [/^[0-9]*$/.test(s)] *)
Fixpoint allDigits (s : string) : bool :=
  match s with
  | EmptyString => true
  | String c rest => isDigit c && allDigits rest
  end.

(** [/^[0-9]{8}$/.test(s)] *)
Definition eightDigits (s : string) : bool :=
  Nat.eqb (String.length s) 8 && allDigits s.

(** [s] is [lead] followed by exactly eight digits. *)
Fixpoint eightDigitsAfter (lead s : string) : bool :=
  match lead, s with
  | EmptyString, _ => eightDigits s
  | String a lead', String b s' => Ascii.eqb a b && eightDigitsAfter lead' s'
  | String _ _, EmptyString => false
  end.

(** [normalizePhone(phone)] *)
Definition normalizePhone (phone : string) : string :=
  let cleaned := keepChars isDigit phone in
  let cleaned := dropLeadingZeros cleaned in
  let cleaned :=
    if String.prefix "232" cleaned then cleaned else "232" ++ cleaned in
  "+" ++ cleaned.

(** [validatePhone(phone)]: the four patterns, tried on the cleaned text. *)
Definition validatePhone (phone : string) : bool :=
  let cleaned :=
    keepChars (fun c => isDigit c || Ascii.eqb c "+"%char) phone in
  existsb (fun lead => eightDigitsAfter lead cleaned) ["+232"; "232"; "0"; ""].

(** [phoneSchema] of middleware/validation.ts:
    [/^(\+232|232|0)?[0-9]{8}$/] on the text as sent. *)
Definition phoneSchema (phone : string) : bool :=
  existsb (fun lead => eightDigitsAfter lead phone) ["+232"; "232"; "0"; ""].

(** Every character of [s] satisfies [f]. *)
Fixpoint allChars (f : ascii -> bool) (s : string) : bool :=
  match s with
  | EmptyString => true
  | String c rest => f c && allChars f rest
  end.

(** The characters [validatePhone] keeps: digits and the plus sign. *)
Definition isDigitOrPlus (c : ascii) : bool :=
  isDigit c || Ascii.eqb c "+"%char.

(** ** backend/src/routes/orders.routes.ts: cancellation and payment

    [cancelledAt], [cancelReason] and the transaction's [amount] and
    [provider] are columns outside the modelled rows; the handlers below
    write the modelled columns and answer with what the route answers. *)

Inductive PaymentProvider := ORANGE_MONEY | AFRICELL_MONEY | CASH.

Module Lifecycle.

(** [cancellableStatuses] *)
Definition cancellableStatuses : list OrderStatus.t :=
  [OrderStatus.PENDING; OrderStatus.ACCEPTED; OrderStatus.PAYMENT_PENDING;
   OrderStatus.PAID; OrderStatus.PREPARING].

(** [data: { status: 'CANCELLED', cancelledAt, cancelReason }] *)
Definition cancelledData : Order.Data :=
  Order.mkData (Some OrderStatus.CANCELLED) None None None.

(** [data: { escrowStatus: 'REFUNDED', status: 'REFUNDED' }] *)
Definition refunded (x : Transaction.t) : Transaction.t :=
  Transaction.mk (Transaction.id x) (Transaction.orderId x)
    TransactionStatus.REFUNDED EscrowStatus.REFUNDED
    (Transaction.escrowReleasedAt x).

(** [order.transaction?.status === 'COMPLETED'] *)
Definition paymentCompleted (transaction : option Transaction.t) : bool :=
  match transaction with
  | Some x =>
      match Transaction.status x with
      | TransactionStatus.COMPLETED => true
      | _ => false
      end
  | None => false
  end.

(** [!isCustomer && !isVendor && role !== 'ADMIN'] *)
Definition mayNotCancel (user : AuthUser) (order : Order.t)
  (vendor : Vendor.t) : bool :=
  let isCustomer := String.eqb (Order.customerId order) (auth_id user) in
  let isVendor := String.eqb (Vendor.userId vendor) (auth_id user) in
  negb isCustomer && negb isVendor && negb (UserRole_eqb (auth_role user) ADMIN).

(** POST /orders/:id/cancel. [body] is [None] for a request without a body,
    on which [const { reason } = request.body] throws, and otherwise holds
    the optional reason. *)
Definition cancel (user : AuthUser) (id : Id) (body : option (option string))
  : M unit :=
  match body with
  | None => throw unexpected
  | Some reason =>
      order <- gets (fun db => findUnique Order.id id (orders db)) ;;
      match order with
      | None => throw orderNotFound
      | Some order =>
          (* include: { vendor: true, transaction: true } *)
          vendor <- gets (fun db =>
                      findUnique Vendor.id (Order.vendorId order) (vendors db)) ;;
          transaction <- gets (fun db =>
                           find (Orders.ofOrder order) (transactions db)) ;;
          match vendor with
          | None => throw unexpected
          | Some vendor =>
              throwIf (mayNotCancel user order vendor)
                (forbidden "Access denied") ;;;
              throwIf (negb (OrderStatus.includes cancellableStatuses
                               (Order.status order)))
                (orderInvalidStatus (OrderStatus.name (Order.status order))
                                    "cancellable") ;;;
              updateIn Order.id orders set_orders id
                (Order.apply cancelledData) ;;;
              match transaction with
              | Some x =>
                  if paymentCompleted transaction then
                    updateIn Transaction.id transactions set_transactions
                      (Transaction.id x) refunded ;;; ret tt
                  else ret tt
              | None => ret tt
              end
          end
      end
  end.

(** The [data] of the answer of POST /payments/initiate. *)
Record PaymentStarted := mkStarted {
  transactionId : Id;
  provider : PaymentProvider;
  amount : Z;
  instructions : string;
  expiresAt : Z }.

Definition instructionsFor (provider : PaymentProvider) : string :=
  match provider with
  | ORANGE_MONEY => "Dial *144*4*6# to approve payment"
  | AFRICELL_MONEY => "Dial *134# to approve payment"
  | CASH => "Pay cash on delivery"
  end.

(** POST /payments/initiate *)
Definition initiatePayment (user : AuthUser) (orderId : Id)
  (provider : PaymentProvider) (newId : Id) (now : Z) : M PaymentStarted :=
  let userId := auth_id user in
  order <- gets (fun db => findUnique Order.id orderId (orders db)) ;;
  match order with
  | None => throw orderNotFound
  | Some order =>
      (* include: { transaction: true } *)
      transaction <- gets (fun db =>
                       find (Orders.ofOrder order) (transactions db)) ;;
      throwIf (negb (String.eqb (Order.customerId order) userId))
        (forbidden "Only the customer can pay for the order") ;;;
      throwIf (negb (OrderStatus.eqb (Order.status order)
                                     OrderStatus.PAYMENT_PENDING))
        (orderInvalidStatus (OrderStatus.name (Order.status order))
                            "PAYMENT_PENDING") ;;;
      throwIf (match transaction with Some _ => true | None => false end)
        (validation [("orderId", "Payment already initiated")]) ;;;
      let created :=
        Transaction.mk newId orderId TransactionStatus.PENDING
          EscrowStatus.NONE None in
      modify (set_transactions (fun t => (t ++ [created])%list)) ;;;
      ret (mkStarted (Transaction.id created) provider
             (Order.totalAmount order) (instructionsFor provider)
             (now + 15 * 60 * 1000))
  end.

(** The answers of the webhook: 200 [{ status: 'received' }], 404 and 500. *)
Inductive WebhookReply := Received | TransactionNotFound | InternalError.

(** [data: { status: 'PAID' }] *)
Definition paidData : Order.Data :=
  Order.mkData (Some OrderStatus.PAID) None None None.

(** [data: { status: 'COMPLETED', providerRef: txnid, escrowStatus: 'HELD' }] *)
Definition held (x : Transaction.t) : Transaction.t :=
  Transaction.mk (Transaction.id x) (Transaction.orderId x)
    TransactionStatus.COMPLETED EscrowStatus.HELD
    (Transaction.escrowReleasedAt x).

(** [data: { status: 'FAILED' }] *)
Definition failed (x : Transaction.t) : Transaction.t :=
  Transaction.mk (Transaction.id x) (Transaction.orderId x)
    TransactionStatus.FAILED (Transaction.escrowStatus x)
    (Transaction.escrowReleasedAt x).

(** POST /payments/webhook/orange. [body] is [None] for a request without a
    body, on which the destructuring throws, and otherwise tells whether
    [status === 'SUCCESS']. [matches] is the [where] clause of
    [transaction.findFirst] (the order number of the body and the provider
    ORANGE_MONEY), a test on columns outside the modelled rows. The two
    updates run in one [prisma.$transaction]: both or none. *)
Definition webhookOrange (matches : Transaction.t -> bool)
  (body : option bool) (db : Db) : WebhookReply * Db :=
  match body with
  | None => (InternalError, db)
  | Some success =>
      match find matches (transactions db) with
      | None => (TransactionNotFound, db)
      | Some transaction =>
          if success then
            match findUnique Order.id (Transaction.orderId transaction)
                    (orders db) with
            | None => (InternalError, db)
            | Some _ =>
                (Received,
                 set_orders
                   (updateRows Order.id (Transaction.orderId transaction)
                      (Order.apply paidData))
                   (set_transactions
                      (updateRows Transaction.id (Transaction.id transaction)
                         held) db))
            end
          else
            (Received,
             set_transactions
               (updateRows Transaction.id (Transaction.id transaction)
                  failed) db)
      end
  end.

(** The requests of the order and payment routes modelled here. *)
Inductive Request :=
| CreateOrder (user : AuthUser) (body : Orders.CreateOrderBody) (newId : Id)
| UpdateStatus (user : AuthUser) (id : Id) (status : OrderStatus.t) (now : Z)
| ConfirmDelivery (user : AuthUser) (id : Id) (now : Z)
| Cancel (user : AuthUser) (id : Id) (body : option (option string))
| InitiatePayment (user : AuthUser) (orderId : Id)
    (provider : PaymentProvider) (newId : Id) (now : Z).

(** The store after a request, whether it was answered or refused. *)
Definition handle (r : Request) (db : Db) : Db :=
  match r with
  | CreateOrder user body newId => snd (Orders.createOrder user body newId db)
  | UpdateStatus user id status now =>
      snd (Orders.updateStatus user id status now db)
  | ConfirmDelivery user id now => snd (Orders.confirmDelivery user id now db)
  | Cancel user id body => snd (cancel user id body db)
  | InitiatePayment user orderId provider newId now =>
      snd (initiatePayment user orderId provider newId now db)
  end.

Definition handleAll (rs : list Request) (db : Db) : Db :=
  fold_left (fun db r => handle r db) rs db.

(** One change of an order row by a request. *)
Inductive orderStep (o : Order.t) : Order.t -> Prop :=
| step_status (status : OrderStatus.t) (now : Z) :
    Orders.updateStatusSchema status = true ->
    OrderStatus.includes (Orders.validTransitions (Order.status o)) status
    = true ->
    orderStep o (Order.apply (Orders.updateData status now) o)
| step_confirm (now : Z) :
    Order.status o = OrderStatus.DELIVERED ->
    orderStep o (Order.apply (Orders.completedData now) o)
| step_cancel :
    OrderStatus.includes cancellableStatuses (Order.status o) = true ->
    orderStep o (Order.apply cancelledData o).

(** Any number of such changes, one after the other. *)
Inductive evolves : Order.t -> Order.t -> Prop :=
| evolves_refl (o : Order.t) : evolves o o
| evolves_step (o o' o'' : Order.t) :
    orderStep o o' -> evolves o' o'' -> evolves o o''.

(** The columns of an order that no request rewrites. *)
Definition core (o : Order.t)
  : Id * Id * Id * string * (Z * Z * Z * Z) * list OrderItem.t :=
  (Order.id o, Order.customerId o, Order.vendorId o, Order.deliveryAddress o,
   (Order.subtotal o, Order.deliveryFee o, Order.platformFee o,
    Order.totalAmount o),
   Order.items o).

(** Timestamps that agree with the status. *)
Definition stamped (o : Order.t) : Prop :=
  (Order.acceptedAt o <> None -> Order.status o <> OrderStatus.PENDING)
  /\ (Order.deliveredAt o <> None ->
      Order.status o = OrderStatus.DELIVERED
      \/ Order.status o = OrderStatus.COMPLETED)
  /\ (Order.completedAt o <> None -> Order.status o = OrderStatus.COMPLETED).

(** A timestamp that is set stays as it is. *)
Definition keepsStamps (o o' : Order.t) : Prop :=
  (forall t, Order.acceptedAt o = Some t -> Order.acceptedAt o' = Some t)
  /\ (forall t, Order.deliveredAt o = Some t -> Order.deliveredAt o' = Some t)
  /\ (forall t, Order.completedAt o = Some t -> Order.completedAt o' = Some t).

(** The status changes that some request can make. *)
Definition edge (from to : OrderStatus.t) : bool :=
  match from, to with
  | OrderStatus.PENDING, OrderStatus.PAYMENT_PENDING
  | OrderStatus.PENDING, OrderStatus.CANCELLED
  | OrderStatus.ACCEPTED, OrderStatus.PREPARING
  | OrderStatus.ACCEPTED, OrderStatus.CANCELLED
  | OrderStatus.PAYMENT_PENDING, OrderStatus.CANCELLED
  | OrderStatus.PAID, OrderStatus.PREPARING
  | OrderStatus.PAID, OrderStatus.CANCELLED
  | OrderStatus.PREPARING, OrderStatus.OUT_FOR_DELIVERY
  | OrderStatus.PREPARING, OrderStatus.CANCELLED
  | OrderStatus.OUT_FOR_DELIVERY, OrderStatus.DELIVERED
  | OrderStatus.DELIVERED, OrderStatus.COMPLETED => true
  | _, _ => false
  end.

(** A sample of requests on the order [o1] of the example shop. *)
Definition sampleRequests : list Request :=
  [ UpdateStatus Example.seller "o1" OrderStatus.ACCEPTED 1000;
    InitiatePayment Example.customer "o1" ORANGE_MONEY "t2" 1500;
    UpdateStatus Example.seller "o1" OrderStatus.PREPARING 2000;
    ConfirmDelivery Example.customer "o1" 2500;
    Cancel Example.customer "o1" (Some (Some "changed my mind"));
    Cancel Example.customer "o1" (Some None) ].

End Lifecycle.

(** ** backend/src/routes/alerts.routes.ts: what feedback adds up to *)

(** The number of answers that said the alert was accurate. *)
Definition accurateCount (answers : list bool) : Z :=
  Z.of_nat (List.length (filter (fun accurate : bool => accurate) answers)).

(** The stored score times the stored count: the sum of the answers the
    running mean stands for. *)
Definition feedbackTotal (alert : Alert.t) : Q :=
  (Alerts.scoreOrZero (Alert.feedbackScore alert)
   * inject_Z (Alert.feedbackCount alert))%Q.

(** A sample of answers. *)
Definition sampleAnswers : list bool := [true; false; true; true].

(** [k] equal answers on the columns as doubles: whether after each of them
    the score is exactly 1 (accurate answers) or 0 (inaccurate ones) and
    the flag is set exactly for accurate answers from the third on. *)
Fixpoint unanimousOnDoubles (accurate : bool) (k : nat)
  (a : Binary64.Feedback) : bool :=
  match k with
  | O => true
  | S k' =>
      let a' := Binary64.submitFeedback a accurate in
      let '(score, count, verified) := a' in
      match score with
      | Some s => PrimFloat.eqb s (if accurate then 1 else 0)%float
      | None => false
      end
      && Bool.eqb verified (accurate && Z.leb 3 count)
      && unanimousOnDoubles accurate k' a'
  end.

(** ** backend/src/routes/reports.routes.ts: sequences of status requests *)

(** One request to PATCH /reports/:id/status. *)
Record StatusRequest := mkStatusRequest {
  sr_user : AuthUser;
  sr_id : Id;
  sr_status : ReportStatus.t;
  sr_resolution : option string;
  sr_now : Z }.

(** The store after a status request, whether it was answered or refused. *)
Definition handleStatus (q : StatusRequest) (db : Db) : Db :=
  snd (Reports.updateReportStatus (sr_user q) (sr_id q) (sr_status q)
         (sr_resolution q) (sr_now q) db).

Definition handleStatusAll (qs : list StatusRequest) (db : Db) : Db :=
  fold_left (fun db q => handleStatus q db) qs db.

(** The bounty columns of a report. *)
Definition bountyColumns (r : Report.t) : Id * option Z * bool * option Z :=
  (Report.id r, Report.bountyAmount r, Report.bountyPaid r,
   Report.bountyPaidAt r).

(** [data: { status }], the update for a status other than RESOLVED. *)
Definition statusOnly (status : ReportStatus.t) : Report.Data :=
  Report.mkData (Some status) None None None None None None.

(** A sample of status requests on the report [r1]. *)
Definition sampleStatusRequests : list StatusRequest :=
  [ mkStatusRequest Example.admin "r1" ReportStatus.PENDING None 7000;
    mkStatusRequest Example.customer "r1" ReportStatus.RESOLVED None 7500;
    mkStatusRequest Example.admin "r1" ReportStatus.RESOLVED
      (Some "fixed again") 8000;
    mkStatusRequest Example.admin "r2" ReportStatus.RESOLVED None 9000 ].

(** ** backend/src/services/auth.service.ts

    The one-time codes, the accounts as the service reads them and the
    stored refresh tokens. The code drawn by [generateOtp], the ids given by
    the database and the strings signed by [app.jwt.sign] are arguments of
    the calls. *)

Module OtpCode.
Record t := mk {
  id : Id; phone : string; code : string; expiresAt : Z;
  verified : bool; attempts : Z }.

(** [data: { attempts: { increment: 1 } }] *)
Definition incrementAttempts (o : t) : t :=
  mk (id o) (phone o) (code o) (expiresAt o) (verified o) (attempts o + 1).
End OtpCode.

Module Account.
Record t := mk {
  id : Id; phone : string; name : option string; role : UserRole;
  isActive : bool }.
End Account.

Module RefreshToken.
Record t := mk { id : Id; userId : Id; token : string; expiresAt : Z }.
End RefreshToken.

Record AuthDb := mkAuthDb {
  otpCodes : list OtpCode.t;
  accounts : list Account.t;
  refreshTokens : list RefreshToken.t }.

Definition set_otpCodes (f : list OtpCode.t -> list OtpCode.t) (s : AuthDb)
  : AuthDb :=
  mkAuthDb (f (otpCodes s)) (accounts s) (refreshTokens s).

Definition set_accounts (f : list Account.t -> list Account.t) (s : AuthDb)
  : AuthDb :=
  mkAuthDb (otpCodes s) (f (accounts s)) (refreshTokens s).

Definition set_refreshTokens
  (f : list RefreshToken.t -> list RefreshToken.t) (s : AuthDb) : AuthDb :=
  mkAuthDb (otpCodes s) (accounts s) (f (refreshTokens s)).

(** The errors the service throws. *)
Inductive AuthError :=
| invalidOtp | otpExpired | otpMaxAttempts
| invalidToken | tokenExpired | userNotFound.

Record TokenPair := mkTokenPair {
  accessToken : string; refreshToken : string; expiresIn : Z }.

Record AuthResult := mkAuthResult {
  tokens : TokenPair;
  user_id : Id;
  user_phone : string;
  user_name : option string;
  user_role : UserRole;
  isNewUser : bool }.

Module AuthService.

Section Config.
(** [config.otp.expiresIn], in seconds (300 unless the environment says
    otherwise). *)
Variable otp_expiresIn : Z.

(** [config.otp.maxAttempts] *)
Definition otp_maxAttempts : Z := 3.

(** [where: { phone: normalizedPhone }] *)
Definition ofPhone (normalizedPhone : string) (o : OtpCode.t) : bool :=
  String.eqb (OtpCode.phone o) normalizedPhone.

(** [requestOtp(phone)]; a new row has [verified = false] and
    [attempts = 0], the defaults of the table. *)
Definition requestOtp (phone code : string) (newId : Id) (now : Z)
  (s : AuthDb) : Z * AuthDb :=
  let normalizedPhone := normalizePhone phone in
  let expiresAt := now + otp_expiresIn * 1000 in
  (* prisma.otpCode.deleteMany *)
  let s1 :=
    set_otpCodes (filter (fun o => negb (ofPhone normalizedPhone o))) s in
  (* prisma.otpCode.create *)
  let s2 :=
    set_otpCodes
      (fun t => (t ++ [OtpCode.mk newId normalizedPhone code expiresAt
                         false 0])%list) s1 in
  (otp_expiresIn, s2).

(** [where: { phone: normalizedPhone, code, verified: false }] *)
Definition otpMatches (normalizedPhone code : string) (o : OtpCode.t)
  : bool :=
  String.eqb (OtpCode.phone o) normalizedPhone
  && String.eqb (OtpCode.code o) code
  && negb (OtpCode.verified o).

(** [prisma.otpCode.delete({ where: { id } })] *)
Definition deleteOtp (id : Id) : AuthDb -> AuthDb :=
  set_otpCodes (filter (fun o => negb (String.eqb (OtpCode.id o) id))).

(** [generateTokens(user)]: [signed] holds the access and the refresh token
    as signed; [setDate(getDate() + 30)] is taken as 30 days of 24 hours. *)
Definition generateTokens (user : Account.t) (signed : string * string)
  (newTokenId : Id) (now : Z) (s : AuthDb) : TokenPair * AuthDb :=
  let expiresAt := now + 30 * 24 * 60 * 60 * 1000 in
  (mkTokenPair (fst signed) (snd signed) 86400,
   set_refreshTokens
     (fun t => (t ++ [RefreshToken.mk newTokenId (Account.id user)
                        (snd signed) expiresAt])%list) s).

(** [where: { phone: normalizedPhone }] on users. *)
Definition hasPhone (normalizedPhone : string) (u : Account.t) : bool :=
  String.eqb (Account.phone u) normalizedPhone.

(** [verifyOtp(phone, code)] *)
Definition verifyOtp (phone code : string) (now : Z)
  (newUserId newTokenId : Id) (signed : string * string) (s : AuthDb)
  : (AuthError + AuthResult) * AuthDb :=
  let normalizedPhone := normalizePhone phone in
  match find (otpMatches normalizedPhone code) (otpCodes s) with
  | None => (inl invalidOtp, s)
  | Some otpRecord =>
      if Z.ltb (OtpCode.expiresAt otpRecord) now then
        (inl otpExpired, deleteOtp (OtpCode.id otpRecord) s)
      else if Z.leb otp_maxAttempts (OtpCode.attempts otpRecord) then
        (inl otpMaxAttempts, deleteOtp (OtpCode.id otpRecord) s)
      else
        let s1 :=
          set_otpCodes
            (updateRows OtpCode.id (OtpCode.id otpRecord)
               OtpCode.incrementAttempts) s in
        if negb (String.eqb (OtpCode.code otpRecord) code) then
          (inl invalidOtp, s1)
        else
          let s2 := deleteOtp (OtpCode.id otpRecord) s1 in
          let found := find (hasPhone normalizedPhone) (accounts s2) in
          let isNewUser :=
            match found with Some _ => false | None => true end in
          let created :=
            Account.mk newUserId normalizedPhone None CITIZEN true in
          let user := match found with Some u => u | None => created end in
          let s3 :=
            match found with
            | Some _ => s2
            | None => set_accounts (fun t => (t ++ [created])%list) s2
            end in
          let '(tokens, s4) := generateTokens user signed newTokenId now s3 in
          (inr (mkAuthResult tokens (Account.id user) (Account.phone user)
                  (Account.name user) (Account.role user) isNewUser),
           s4)
  end.

(** [where: { token: refreshToken }] *)
Definition hasToken (token : string) (t : RefreshToken.t) : bool :=
  String.eqb (RefreshToken.token t) token.

(** [prisma.refreshToken.delete({ where: { id } })] *)
Definition deleteToken (id : Id) : AuthDb -> AuthDb :=
  set_refreshTokens
    (filter (fun t => negb (String.eqb (RefreshToken.id t) id))).

(** [refreshToken(refreshToken)]; [signed] is the new access token. *)
Definition refreshToken (token : string) (now : Z) (signed : string)
  (s : AuthDb) : (AuthError + string * Z) * AuthDb :=
  match find (hasToken token) (refreshTokens s) with
  | None => (inl invalidToken, s)
  | Some tokenRecord =>
      if Z.ltb (RefreshToken.expiresAt tokenRecord) now then
        (inl tokenExpired, deleteToken (RefreshToken.id tokenRecord) s)
      else
        match findUnique Account.id (RefreshToken.userId tokenRecord)
                (accounts s) with
        | Some user =>
            if Account.isActive user then (inr (signed, 86400), s)
            else
              (inl userNotFound,
               deleteToken (RefreshToken.id tokenRecord) s)
        | None =>
            (inl userNotFound, deleteToken (RefreshToken.id tokenRecord) s)
        end
  end.

(** [logout(refreshToken)] *)
Definition logout (token : string) (s : AuthDb) : AuthDb :=
  set_refreshTokens (filter (fun t => negb (hasToken token t))) s.

(** The calls of the one-time-code flow. *)
Inductive Request :=
| RequestOtp (phone code : string) (newId : Id) (now : Z)
| VerifyOtp (phone code : string) (now : Z) (newUserId newTokenId : Id)
    (signed : string * string).

(** The error a call is refused with, if any, and the store it leaves. *)
Definition handle (r : Request) (s : AuthDb) : option AuthError * AuthDb :=
  match r with
  | RequestOtp phone code newId now =>
      (None, snd (requestOtp phone code newId now s))
  | VerifyOtp phone code now newUserId newTokenId signed =>
      match verifyOtp phone code now newUserId newTokenId signed s with
      | (inl e, s') => (Some e, s')
      | (inr _, s') => (None, s')
      end
  end.

Fixpoint handleAll (rs : list Request) (s : AuthDb)
  : list (option AuthError) * AuthDb :=
  match rs with
  | [] => ([], s)
  | r :: rest =>
      let '(e, s1) := handle r s in
      let '(es, s2) := handleAll rest s1 in
      (e :: es, s2)
  end.

(** A wrong guess: a verification for the phone with another code. *)
Definition wrongGuess (normalizedPhone code : string) (r : Request) : bool :=
  match r with
  | RequestOtp _ _ _ _ => false
  | VerifyOtp phone' code' _ _ _ _ =>
      String.eqb (normalizePhone phone') normalizedPhone
      && negb (String.eqb code' code)
  end.

End Config.

End AuthService.

(** A store with one account and no codes. *)
Definition authStore : AuthDb :=
  mkAuthDb [] [Account.mk "u1" "+23276123456" (Some "Aminata") CITIZEN false]
    [].

(** A sample of calls: a code is requested, guessed wrongly, requested
    again, and then verified. *)
Definition sampleAuthRequests : list AuthService.Request :=
  [ AuthService.RequestOtp "076123456" "111111" "c1" 1000;
    AuthService.VerifyOtp "+23276123456" "000000" 2000 "u2" "k1" ("a", "b");
    AuthService.VerifyOtp "76123456" "999999" 3000 "u2" "k1" ("a", "b");
    AuthService.RequestOtp "23276123456" "222222" "c2" 4000;
    AuthService.VerifyOtp "076123456" "111111" 5000 "u2" "k1" ("a", "b");
    AuthService.VerifyOtp "076123456" "222222" 6000 "u2" "k1" ("a", "b") ].

(** ** backend/src/routes/orders.routes.ts: what an accepted order holds *)

(** What a line says of the item it was made from. *)
Definition lineOf (l : OrderItem.t) : Id * Z :=
  (OrderItem.productId l, OrderItem.quantity l).

Definition itemOf (i : Orders.CreateOrderItem) : Id * Z :=
  (Orders.productId i, Orders.quantity i).

(** A line priced from an available product of the vendor. *)
Definition pricedFrom (db : Db) (vendorId : Id) (l : OrderItem.t) : Prop :=
  OrderItem.totalPrice l = OrderItem.unitPrice l * OrderItem.quantity l
  /\ exists p,
       In p (products db)
       /\ Product.id p = OrderItem.productId l
       /\ Product.vendorId p = vendorId
       /\ Product.isAvailable p = true
       /\ Product.price p = OrderItem.unitPrice l.

(** The error a request is refused with, if it is refused. *)
Definition errorOf {A} (r : Result A * Db) : option AppError :=
  match fst r with
  | Ok _ => None
  | Err e => Some e
  end.

Definition refusal (r : Lifecycle.Request) (db : Db) : option AppError :=
  match r with
  | Lifecycle.CreateOrder user body newId =>
      errorOf (Orders.createOrder user body newId db)
  | Lifecycle.UpdateStatus user id status now =>
      errorOf (Orders.updateStatus user id status now db)
  | Lifecycle.ConfirmDelivery user id now =>
      errorOf (Orders.confirmDelivery user id now db)
  | Lifecycle.Cancel user id body => errorOf (Lifecycle.cancel user id body db)
  | Lifecycle.InitiatePayment user orderId provider newId now =>
      errorOf (Lifecycle.initiatePayment user orderId provider newId now db)
  end.

(** ** backend/src/utils/helpers.ts: slugs

    Texts are taken as ASCII, one byte for one character: [\w] is
    [[A-Za-z0-9_]] and the ASCII part of [\s] is tab, line feed, vertical
    tab, form feed, carriage return and space. *)

Definition inRange (lo hi : nat) (c : ascii) : bool :=
  (Nat.leb lo (nat_of_ascii c) && Nat.leb (nat_of_ascii c) hi)%bool.

Definition isAscii (c : ascii) : bool := Nat.ltb (nat_of_ascii c) 128.

Definition isLowerAlnum (c : ascii) : bool :=
  inRange 48 57 c || inRange 97 122 c.

(** [\w] *)
Definition isWordChar (c : ascii) : bool :=
  inRange 48 57 c || inRange 65 90 c || inRange 97 122 c
  || Ascii.eqb c "_".

(** [\s] *)
Definition isSpaceChar (c : ascii) : bool :=
  inRange 9 13 c || Ascii.eqb c " ".

Definition isHyphen (c : ascii) : bool := Ascii.eqb c "-".

(** [[\w\s-]], the characters the first replacement keeps. *)
Definition isSlugSource (c : ascii) : bool :=
  isWordChar c || isSpaceChar c || isHyphen c.

(** [[\s_-]] *)
Definition isSeparator (c : ascii) : bool :=
  isSpaceChar c || Ascii.eqb c "_" || isHyphen c.

(** [.replace(/[\s_-]+/g, '-')]: every maximal run of separators becomes one
    hyphen; [inRun] tells that the run being read has given its hyphen. *)
Fixpoint replaceRuns (inRun : bool) (s : string) : string :=
  match s with
  | EmptyString => EmptyString
  | String c rest =>
      if isSeparator c then
        if inRun then replaceRuns true rest
        else String "-" (replaceRuns true rest)
      else String c (replaceRuns false rest)
  end.

(** [.replace(/^-+/, '')] *)
Fixpoint dropLeadingHyphens (s : string) : string :=
  match s with
  | EmptyString => EmptyString
  | String c rest => if isHyphen c then dropLeadingHyphens rest else s
  end.

(** [.replace(/-+$/, '')] *)
Fixpoint dropTrailingHyphens (s : string) : string :=
  match s with
  | EmptyString => EmptyString
  | String c rest =>
      match dropTrailingHyphens rest with
      | EmptyString => if isHyphen c then EmptyString else String c EmptyString
      | r => String c r
      end
  end.

(** [slugify(text)] *)
Definition slugify (text : string) : string :=
  dropTrailingHyphens
    (dropLeadingHyphens
       (replaceRuns false (keepChars isSlugSource (toLowerCase text)))).

(** Lower-case letters, digits and hyphens, no hyphen after [afterHyphen]
    being true or after another hyphen. *)
Fixpoint hyphensApart (afterHyphen : bool) (s : string) : bool :=
  match s with
  | EmptyString => true
  | String c rest =>
      if isHyphen c then negb afterHyphen && hyphensApart true rest
      else isLowerAlnum c && hyphensApart false rest
  end.

Fixpoint endsWithHyphen (s : string) : bool :=
  match s with
  | EmptyString => false
  | String c EmptyString => isHyphen c
  | String _ rest => endsWithHyphen rest
  end.

(** A slug: words of lower-case letters and digits joined by single
    hyphens. *)
Definition isSlug (s : string) : bool :=
  hyphensApart true s && negb (endsWithHyphen s).

(* ================================================================== *)
(** * Part II: properties *)
(* ================================================================== *)

(** ** Tables *)

Section TableFacts.
Context {Row : Type} (key : Row -> Id).

Lemma findUnique_key (id : Id) (t : list Row) (r : Row) :
  findUnique key id t = Some r -> key r = id.
Proof.
  unfold findUnique. intros H. apply find_some in H.
  destruct H as [_ H]. now apply String.eqb_eq in H.
Qed.

Lemma findUnique_In (id : Id) (t : list Row) (r : Row) :
  findUnique key id t = Some r -> In r t.
Proof.
  unfold findUnique. intros H. now apply find_some in H.
Qed.

Lemma findUnique_updateRows_same (id : Id) (f : Row -> Row) (t : list Row) :
  (forall r, key (f r) = key r) ->
  findUnique key id (updateRows key id f t)
  = option_map f (findUnique key id t).
Proof.
  intros Hk. unfold findUnique, updateRows.
  induction t as [|r t IH]; simpl; [reflexivity|].
  destruct (String.eqb (key r) id) eqn:E.
  - rewrite Hk, E. reflexivity.
  - rewrite E. exact IH.
Qed.

Lemma findUnique_updateRows_other (id id' : Id) (f : Row -> Row)
  (t : list Row) :
  (forall r, key (f r) = key r) -> id' <> id ->
  findUnique key id (updateRows key id' f t) = findUnique key id t.
Proof.
  intros Hk Hne. unfold findUnique, updateRows.
  induction t as [|r t IH]; simpl; [reflexivity|].
  destruct (String.eqb (key r) id') eqn:E'.
  - rewrite Hk. apply String.eqb_eq in E'.
    destruct (String.eqb (key r) id) eqn:E.
    + apply String.eqb_eq in E. congruence.
    + exact IH.
  - destruct (String.eqb (key r) id); [reflexivity | exact IH].
Qed.

Lemma findUnique_app_fresh (id : Id) (t : list Row) (r : Row) :
  findUnique key id t = None -> key r = id ->
  findUnique key id (t ++ [r]) = Some r.
Proof.
  unfold findUnique. intros Hn Hk.
  induction t as [|x t IH]; simpl in *.
  - subst. now rewrite String.eqb_refl.
  - destruct (String.eqb (key x) id); [discriminate | auto].
Qed.

Lemma updateRows_length (id : Id) (f : Row -> Row) (t : list Row) :
  List.length (updateRows key id f t) = List.length t.
Proof. unfold updateRows. apply length_map. Qed.

End TableFacts.

(** ** Projections of an updated store *)

Lemma orders_set_orders f db : orders (set_orders f db) = f (orders db).
Proof. reflexivity. Qed.
Lemma transactions_set_orders f db :
  transactions (set_orders f db) = transactions db.
Proof. reflexivity. Qed.
Lemma orders_set_transactions f db :
  orders (set_transactions f db) = orders db.
Proof. reflexivity. Qed.
Lemma transactions_set_transactions f db :
  transactions (set_transactions f db) = f (transactions db).
Proof. reflexivity. Qed.
Lemma alerts_set_alerts f db : alerts (set_alerts f db) = f (alerts db).
Proof. reflexivity. Qed.
Lemma alerts_set_users f db : alerts (set_users f db) = alerts db.
Proof. reflexivity. Qed.
Lemma users_set_alerts f db : users (set_alerts f db) = users db.
Proof. reflexivity. Qed.
Lemma users_set_users f db : users (set_users f db) = f (users db).
Proof. reflexivity. Qed.
Lemma reports_set_reports f db : reports (set_reports f db) = f (reports db).
Proof. reflexivity. Qed.
Lemma reports_set_users f db : reports (set_users f db) = reports db.
Proof. reflexivity. Qed.
Lemma users_set_reports f db : users (set_reports f db) = users db.
Proof. reflexivity. Qed.

Create Rewrite HintDb store.
#[local] Hint Rewrite orders_set_orders transactions_set_orders
  orders_set_transactions transactions_set_transactions alerts_set_alerts
  alerts_set_users users_set_alerts users_set_users reports_set_reports
  reports_set_users users_set_reports : store.

Arguments rolesInclude : simpl never.
Arguments calculateDistance : simpl never.
Arguments Reports.isNearby : simpl never.
Arguments Reports.isRecent : simpl never.
Arguments linesTotal : simpl never.
Arguments itemsTotal : simpl never.
Arguments calculatePlatformFee : simpl never.
Arguments Reports.resolutionSchema : simpl never.
Arguments Reports.resolvedData : simpl never.
Arguments Reports.bountyDue : simpl never.
Arguments Reports.nearbyPending : simpl never.
Arguments Reports.bountyFor : simpl never.
Arguments Orders.updateStatusSchema : simpl never.
Arguments Orders.createOrderSchema : simpl never.
Arguments Orders.validTransitions : simpl never.
Arguments Orders.updateData : simpl never.
Arguments OrderStatus.includes : simpl never.
Arguments OrderStatus.name : simpl never.
Arguments Order.apply : simpl never.
Arguments Report.apply : simpl never.
Arguments findUnique : simpl never.
Arguments updateRows : simpl never.
Arguments geoPointSchema : simpl never.
Arguments Reports.createReportSchema : simpl never.

(** Unfolds the monadic plumbing of a handler. *)
Ltac run :=
  unfold succeeds, failsWith, bind, gets, throwIf, ret, throw, modify,
    validate, authorize, updateIn in *; cbn in *.

Lemma enum_includes_In (l : list OrderStatus.t) (s : OrderStatus.t) :
  OrderStatus.includes l s = true <-> In s l.
Proof.
  unfold OrderStatus.includes. rewrite existsb_exists. split.
  - intros [x [Hin Hx]]. destruct s, x; simpl in Hx; try discriminate; exact Hin.
  - intros H. exists s. split; [exact H | destruct s; reflexivity].
Qed.

(** ** Platform fee *)

Lemma Math_round_twentieth (x : Z) :
  Math_round (inject_Z x * (5 # 100))%Q = (x + 10) / 20.
Proof.
  unfold Math_round, Qfloor, Qplus, Qmult, inject_Z. cbn.
  replace (x * 5 * 2 + 100) with ((x + 10) * 10) by ring.
  change 200 with (20 * 10).
  apply Z.div_mul_cancel_r; lia.
Qed.

Lemma calculatePlatformFee_closed_form (x : Z) :
  calculatePlatformFee x = Z.max 500 (Z.min 50000 ((x + 10) / 20)).
Proof.
  unfold calculatePlatformFee, calculatePlatformFee_with.
  now rewrite Math_round_twentieth.
Qed.

(** C10. For every non-negative subtotal [x] the fee is the clamp to
    [500, 50000] of the integer nearest to [x * 0.05] (halves upwards);
    the fee is monotonically non-decreasing in [x] and lies in
    [500, 50000]. *)
Theorem platformFee_clamp_monotone_bounded (x : Z) (Hx : 0 <= x) :
  (exists r : Z,
      (inject_Z r - (1 # 2) <= inject_Z x * (5 # 100))%Q
      /\ (inject_Z x * (5 # 100) < inject_Z r + (1 # 2))%Q
      /\ calculatePlatformFee x = Spec.clamp r 500 50000)
  /\ (forall y, x <= y -> calculatePlatformFee x <= calculatePlatformFee y)
  /\ 500 <= calculatePlatformFee x <= 50000.
Proof.
  split; [|split].
  - exists ((x + 10) / 20).
    pose proof (Z.div_mod (x + 10) 20 ltac:(lia)) as Hdm.
    pose proof (Z.mod_pos_bound (x + 10) 20 ltac:(lia)) as Hmod.
    repeat split.
    + unfold Qle, Qminus, Qplus, Qopp, Qmult, inject_Z. cbn. lia.
    + unfold Qlt, Qplus, Qmult, inject_Z. cbn. lia.
    + rewrite calculatePlatformFee_closed_form. unfold Spec.clamp.
      destruct (Z.ltb_spec ((x + 10) / 20) 500);
        destruct (Z.ltb_spec 50000 ((x + 10) / 20)); lia.
  - intros y Hxy. rewrite !calculatePlatformFee_closed_form.
    assert ((x + 10) / 20 <= (y + 10) / 20)
      by (apply Z.div_le_mono; lia).
    lia.
  - rewrite calculatePlatformFee_closed_form. lia.
Qed.

Lemma platformFee_clamp_monotone_bounded_witness :
  0 <= 20000
  /\ calculatePlatformFee 20000 = 1000
  /\ calculatePlatformFee 20000 <= calculatePlatformFee 2000000.
Proof.
  split; [lia|].
  split; [reflexivity|].
  apply (platformFee_clamp_monotone_bounded 20000); lia.
Defined.

(** ** Order status route *)

Lemma updateStatus_run (db : Db) (user : AuthUser) (id : Id)
  (status : OrderStatus.t) (now : Z) (order : Order.t) (vendor : Vendor.t) :
  findUnique Order.id id (orders db) = Some order ->
  findUnique Vendor.id (Order.vendorId order) (vendors db) = Some vendor ->
  auth_role user = ADMIN
  \/ (auth_role user = VENDOR /\ Vendor.userId vendor = auth_id user) ->
  Orders.updateStatus user id status now db =
    if negb (Orders.updateStatusSchema status) then (Err (validation []), db)
    else if negb (OrderStatus.includes
                    (Orders.validTransitions (Order.status order)) status)
    then (Err (orderInvalidStatus (OrderStatus.name (Order.status order))
                                  (OrderStatus.name status)), db)
    else (Ok (Order.apply (Orders.updateData status now) order),
          set_orders
            (updateRows Order.id id
               (Order.apply (Orders.updateData status now))) db).
Proof.
  intros Ho Hv Hauth. destruct user as [uid role]. cbn in Hauth.
  unfold Orders.updateStatus. run.
  assert (Hrole : rolesInclude [VENDOR; ADMIN] role = true).
  { destruct Hauth as [-> | [-> _]]; reflexivity. }
  rewrite Hrole. cbn.
  destruct (Orders.updateStatusSchema status); cbn; [|reflexivity].
  rewrite Ho. cbn. rewrite Hv. cbn.
  assert (Hown : negb (String.eqb (Vendor.userId vendor) uid)
                 && negb (UserRole_eqb role ADMIN) = false).
  { destruct Hauth as [-> | [_ ->]].
    - cbn. apply andb_false_r.
    - rewrite String.eqb_refl. reflexivity. }
  rewrite Hown. cbn.
  destruct (OrderStatus.includes _ status); cbn; [|reflexivity].
  rewrite Ho. reflexivity.
Qed.

(** C1 (as the code has it). For an order of the store and a caller who is
    the order's vendor or an administrator, [updateStatus] succeeds if and
    only if the requested status passes the request schema (ACCEPTED,
    PREPARING, OUT_FOR_DELIVERY or DELIVERED) and is in the row of the
    route's own table for the order's status; on success the order is
    rewritten by [updateData]; a schema-valid request outside the row fails
    with the invalid-status error naming both statuses; and every failure
    leaves the store unchanged. *)
Theorem updateStatus_succeeds_iff_code_table
  (db : Db) (user : AuthUser) (id : Id) (status : OrderStatus.t) (now : Z)
  (order : Order.t) (vendor : Vendor.t)
  (Horder : findUnique Order.id id (orders db) = Some order)
  (Hvendor : findUnique Vendor.id (Order.vendorId order) (vendors db)
             = Some vendor)
  (Hauth : auth_role user = ADMIN
           \/ (auth_role user = VENDOR
               /\ Vendor.userId vendor = auth_id user)) :
  let r := Orders.updateStatus user id status now db in
  (succeeds r <->
     Orders.updateStatusSchema status = true
     /\ In status (Orders.validTransitions (Order.status order)))
  /\ (succeeds r ->
      findUnique Order.id id (orders (snd r))
      = Some (Order.apply (Orders.updateData status now) order))
  /\ (Orders.updateStatusSchema status = true ->
      ~ In status (Orders.validTransitions (Order.status order)) ->
      failsWith (orderInvalidStatus (OrderStatus.name (Order.status order))
                                    (OrderStatus.name status)) r)
  /\ (~ succeeds r -> snd r = db).
Proof.
  cbv zeta. rewrite (updateStatus_run db user id status now order vendor)
    by assumption.
  rewrite <- enum_includes_In. unfold succeeds, failsWith.
  destruct (Orders.updateStatusSchema status);
    destruct (OrderStatus.includes
                (Orders.validTransitions (Order.status order)) status);
    cbn.
  - split; [split; [intros _; split; reflexivity
                   | intros _; eexists; reflexivity] |].
    split.
    { intros _. rewrite findUnique_updateRows_same by reflexivity.
      now rewrite Horder. }
    split.
    { intros _ H. exfalso. apply H. reflexivity. }
    intros H. exfalso. apply H. eexists; reflexivity.
  - split; [split; [intros [a Ha]; discriminate
                   | intros [_ H]; discriminate] |].
    split; [intros [a Ha]; discriminate |].
    split; [reflexivity | reflexivity].
  - split; [split; [intros [a Ha]; discriminate
                   | intros [H _]; discriminate] |].
    split; [intros [a Ha]; discriminate |].
    split; [intros H; discriminate | reflexivity].
  - split; [split; [intros [a Ha]; discriminate
                   | intros [H _]; discriminate] |].
    split; [intros [a Ha]; discriminate |].
    split; [intros H; discriminate | reflexivity].
Qed.

Lemma updateStatus_succeeds_iff_code_table_witness :
  findUnique Order.id "o1" (orders (Example.shop OrderStatus.PENDING))
  = Some (Example.order1 OrderStatus.PENDING)
  /\ succeeds (Orders.updateStatus Example.seller "o1" OrderStatus.ACCEPTED
                 1000 (Example.shop OrderStatus.PENDING)).
Proof.
  split; [reflexivity|].
  destruct (updateStatus_succeeds_iff_code_table
              (Example.shop OrderStatus.PENDING) Example.seller "o1"
              OrderStatus.ACCEPTED 1000
              (Example.order1 OrderStatus.PENDING) Example.vendor1)
    as [Hiff _].
  - reflexivity.
  - reflexivity.
  - right. split; reflexivity.
  - apply Hiff. split; [reflexivity | left; reflexivity].
Defined.

(** C1 as stated fails on the code: an order in ACCEPTED may be moved to
    PREPARING, which the specification's row for ACCEPTED does not list,
    and CANCELLED, which the specification's row for PENDING lists, is
    refused by the request schema. *)
Lemma updateStatus_spec_table_counterexample :
  (succeeds (Orders.updateStatus Example.admin "o1" OrderStatus.PREPARING
               1000 (Example.shop OrderStatus.ACCEPTED))
   /\ ~ In OrderStatus.PREPARING
          (Spec.transitionTable OrderStatus.ACCEPTED))
  /\ (In OrderStatus.CANCELLED (Spec.transitionTable OrderStatus.PENDING)
      /\ failsWith (validation [])
           (Orders.updateStatus Example.seller "o1" OrderStatus.CANCELLED
              1000 (Example.shop OrderStatus.PENDING))).
Proof.
  split; split.
  - eexists. vm_compute. reflexivity.
  - cbn. intros [H | [H | []]]; discriminate.
  - cbn. right. left. reflexivity.
  - vm_compute. reflexivity.
Qed.

(** Accepting a pending order stores PAYMENT_PENDING with [acceptedAt]. *)
Example updateStatus_accept_double_hop :
  option_map (fun o => (Order.status o, Order.acceptedAt o))
    (findUnique Order.id "o1"
       (orders (snd (Orders.updateStatus Example.seller "o1"
                       OrderStatus.ACCEPTED 1000
                       (Example.shop OrderStatus.PENDING)))))
  = Some (OrderStatus.PAYMENT_PENDING, Some 1000).
Proof. vm_compute. reflexivity. Qed.

(** ** Delivery confirmation *)

Lemma In_findUnique {Row} (key : Row -> Id) (t : list Row) (x : Row) :
  In x t -> exists r, findUnique key (key x) t = Some r.
Proof.
  unfold findUnique. intros Hin.
  destruct (find (fun r => String.eqb (key r) (key x)) t) eqn:E.
  - eauto.
  - exfalso. apply (find_none _ _ E) in Hin.
    now rewrite String.eqb_refl in Hin.
Qed.

Lemma confirmDelivery_run (db : Db) (user : AuthUser) (id : Id) (now : Z)
  (order : Order.t) :
  findUnique Order.id id (orders db) = Some order ->
  Orders.confirmDelivery user id now db =
    if negb (String.eqb (Order.customerId order) (auth_id user)) then
      (Err (forbidden "Only the customer can confirm delivery"), db)
    else if negb (OrderStatus.eqb (Order.status order) OrderStatus.DELIVERED)
    then (Err (orderInvalidStatus (OrderStatus.name (Order.status order))
                                  "DELIVERED"), db)
    else
      (Ok tt,
       let db1 :=
         set_orders (updateRows Order.id id
                       (Order.apply (Orders.completedData now))) db in
       match find (Orders.ofOrder order) (transactions db) with
       | Some x =>
           set_transactions
             (updateRows Transaction.id (Transaction.id x)
                (Transaction.release now)) db1
       | None => db1
       end).
Proof.
  intros Ho. unfold Orders.confirmDelivery. run. rewrite Ho. cbn.
  destruct (negb (String.eqb (Order.customerId order) (auth_id user)));
    cbn; [reflexivity|].
  destruct (negb (OrderStatus.eqb (Order.status order)
                                  OrderStatus.DELIVERED));
    cbn; [reflexivity|].
  rewrite Ho. cbn. fold (Orders.ofOrder order).
  destruct (find (Orders.ofOrder order) (transactions db)) as [x|] eqn:Ex;
    [|reflexivity].
  apply find_some in Ex. destruct Ex as [Hin _].
  destruct (In_findUnique Transaction.id _ _ Hin) as [x' Hx'].
  autorewrite with store. rewrite Hx'. reflexivity.
Qed.

Lemma find_ofOrder_release (order : Order.t) (now : Z) (x : Transaction.t)
  (t : list Transaction.t) :
  find (Orders.ofOrder order) t = Some x ->
  find (Orders.ofOrder order)
       (updateRows Transaction.id (Transaction.id x)
          (Transaction.release now) t)
  = Some (Transaction.release now x).
Proof.
  unfold updateRows. induction t as [|y t IH]; simpl; [discriminate|].
  destruct (Orders.ofOrder order y) eqn:Ey.
  - intros [= ->]. rewrite String.eqb_refl. simpl.
    unfold Orders.ofOrder in *. simpl. now rewrite Ey.
  - intros H.
    destruct (String.eqb (Transaction.id y) (Transaction.id x)).
    + simpl. unfold Orders.ofOrder in *. simpl. rewrite Ey. auto.
    + simpl. rewrite Ey. auto.
Qed.

Lemma OrderStatus_eqb_eq (a b : OrderStatus.t) :
  OrderStatus.eqb a b = true <-> a = b.
Proof.
  split; [destruct a, b; simpl; congruence | intros ->; destruct b; reflexivity].
Qed.

Lemma confirmDelivery_completed_fails (db : Db) (user : AuthUser) (id : Id)
  (now : Z) (order : Order.t) :
  findUnique Order.id id (orders db) = Some order ->
  Order.status order = OrderStatus.COMPLETED ->
  ~ succeeds (Orders.confirmDelivery user id now db)
  /\ (Order.customerId order = auth_id user ->
      failsWith (orderInvalidStatus "COMPLETED" "DELIVERED")
        (Orders.confirmDelivery user id now db)).
Proof.
  intros Ho Hs. rewrite (confirmDelivery_run db user id now order Ho).
  rewrite Hs. unfold succeeds, failsWith. split.
  - destruct (negb (String.eqb (Order.customerId order) (auth_id user)));
      cbn; intros [a Ha]; discriminate.
  - intros ->. rewrite String.eqb_refl. reflexivity.
Qed.

(** C2. For an order of the store, [confirmDelivery] succeeds exactly when
    the caller is the order's customer and the status is DELIVERED. On
    success the order is COMPLETED with [completedAt] stamped; the order's
    transaction, if there is one, has escrow status RELEASED (so a held
    escrow has moved to released) with [escrowReleasedAt] stamped; and a
    second confirmation of the same order fails, for the customer with the
    invalid-status error. A failed call leaves the store unchanged. *)
Theorem confirmDelivery_customer_delivered
  (db : Db) (user : AuthUser) (id : Id) (now : Z) (order : Order.t)
  (Horder : findUnique Order.id id (orders db) = Some order) :
  let r := Orders.confirmDelivery user id now db in
  (succeeds r <->
     auth_id user = Order.customerId order
     /\ Order.status order = OrderStatus.DELIVERED)
  /\ (succeeds r ->
      (exists o',
          findUnique Order.id id (orders (snd r)) = Some o'
          /\ Order.status o' = OrderStatus.COMPLETED
          /\ Order.completedAt o' = Some now)
      /\ (forall x,
             find (Orders.ofOrder order) (transactions db) = Some x ->
             exists x',
               find (Orders.ofOrder order) (transactions (snd r)) = Some x'
               /\ Transaction.id x' = Transaction.id x
               /\ Transaction.escrowStatus x' = EscrowStatus.RELEASED
               /\ Transaction.escrowReleasedAt x' = Some now)
      /\ (forall user' now',
             ~ succeeds (Orders.confirmDelivery user' id now' (snd r)))
      /\ (forall now',
             failsWith (orderInvalidStatus "COMPLETED" "DELIVERED")
               (Orders.confirmDelivery user id now' (snd r))))
  /\ (~ succeeds r -> snd r = db).
Proof.
  cbv zeta. rewrite (confirmDelivery_run db user id now order Horder).
  unfold succeeds.
  destruct (String.eqb (Order.customerId order) (auth_id user)) eqn:Ec; cbn.
  2: { apply String.eqb_neq in Ec.
       split; [split; [intros [a Ha]; discriminate
                      | intros [H _]; congruence] |].
       split; [intros [a Ha]; discriminate | reflexivity]. }
  apply String.eqb_eq in Ec.
  destruct (OrderStatus.eqb (Order.status order) OrderStatus.DELIVERED)
    eqn:Es; cbn.
  2: { split; [split; [intros [a Ha]; discriminate
                      | intros [_ H]; apply OrderStatus_eqb_eq in H;
                        congruence] |].
       split; [intros [a Ha]; discriminate | reflexivity]. }
  apply OrderStatus_eqb_eq in Es.
  split; [split; [intros _; split; congruence | intros _; eexists; reflexivity] |].
  split; [| intros H; exfalso; apply H; eexists; reflexivity].
  intros _.
  set (o' := Order.apply (Orders.completedData now) order).
  assert (Ho' : forall db2,
             orders db2
             = updateRows Order.id id
                 (Order.apply (Orders.completedData now)) (orders db) ->
             findUnique Order.id id (orders db2) = Some o').
  { intros db2 ->. rewrite findUnique_updateRows_same by reflexivity.
    now rewrite Horder. }
  assert (Hfinal :
    findUnique Order.id id
      (orders
         match find (Orders.ofOrder order) (transactions db) with
         | Some x =>
             set_transactions
               (updateRows Transaction.id (Transaction.id x)
                  (Transaction.release now))
               (set_orders
                  (updateRows Order.id id
                     (Order.apply (Orders.completedData now))) db)
         | None =>
             set_orders
               (updateRows Order.id id
                  (Order.apply (Orders.completedData now))) db
         end) = Some o').
  { apply Ho'. destruct (find (Orders.ofOrder order) (transactions db));
      reflexivity. }
  split; [exists o'; repeat split; exact Hfinal |].
  split.
  { intros x Hx. rewrite Hx. autorewrite with store.
    exists (Transaction.release now x).
    rewrite (find_ofOrder_release order now x _ Hx). repeat split. }
  split.
  - intros user' now'.
    apply (confirmDelivery_completed_fails _ user' id now' o' Hfinal).
    reflexivity.
  - intros now'.
    apply (confirmDelivery_completed_fails _ user id now' o' Hfinal).
    + reflexivity.
    + exact Ec.
Qed.

Lemma confirmDelivery_customer_delivered_witness :
  findUnique Order.id "o1" (orders (Example.shop OrderStatus.DELIVERED))
  = Some (Example.order1 OrderStatus.DELIVERED)
  /\ succeeds (Orders.confirmDelivery Example.customer "o1" 2000
                 (Example.shop OrderStatus.DELIVERED)).
Proof.
  split; [reflexivity|].
  destruct (confirmDelivery_customer_delivered
              (Example.shop OrderStatus.DELIVERED) Example.customer "o1"
              2000 (Example.order1 OrderStatus.DELIVERED))
    as [Hiff _].
  - reflexivity.
  - apply Hiff. split; reflexivity.
Defined.

(** The held payment of the example shop is released by the confirmation,
    and confirming again is refused. *)
Example confirmDelivery_releases_escrow :
  let db' := snd (Orders.confirmDelivery Example.customer "o1" 2000
                    (Example.shop OrderStatus.DELIVERED)) in
  transactions db'
  = [Transaction.mk "t1" "o1" TransactionStatus.COMPLETED
       EscrowStatus.RELEASED (Some 2000)]
  /\ fst (Orders.confirmDelivery Example.customer "o1" 3000 db')
     = Err (orderInvalidStatus "COMPLETED" "DELIVERED").
Proof. vm_compute. split; reflexivity. Qed.

(** ** Alert cancellation *)

Lemma cancel_run (db : Db) (user : AuthUser) (id : Id) (alert : Alert.t) :
  findUnique Alert.id id (alerts db) = Some alert ->
  Alerts.cancel user id db =
    if negb (String.eqb (Alert.scoutId alert) (auth_id user))
       && negb (UserRole_eqb (auth_role user) ADMIN)
    then (Err (forbidden "You can only cancel your own alerts"), db)
    else (Ok tt,
          set_alerts
            (updateRows Alert.id id (Alert.setStatus AlertStatus.CANCELLED))
            db).
Proof.
  intros Ha. unfold Alerts.cancel. run. rewrite Ha. cbn.
  destruct (negb (String.eqb (Alert.scoutId alert) (auth_id user))
            && negb (UserRole_eqb (auth_role user) ADMIN));
    cbn; [reflexivity|].
  rewrite Ha. reflexivity.
Qed.

Lemma UserRole_eqb_eq (a b : UserRole) : UserRole_eqb a b = true <-> a = b.
Proof.
  split; [destruct a, b; simpl; congruence | intros ->; destruct b; reflexivity].
Qed.

(** C8 (as the code has it). For an alert of the store, [cancel] succeeds
    if and only if the caller is the scout who created the alert or an
    administrator, whatever the alert's status; on success the alert's
    status is CANCELLED and its other fields are kept; otherwise the call
    fails with the forbidden error and the store is unchanged. *)
Theorem cancel_alert_scout_or_admin
  (db : Db) (user : AuthUser) (id : Id) (alert : Alert.t)
  (Halert : findUnique Alert.id id (alerts db) = Some alert) :
  let r := Alerts.cancel user id db in
  (succeeds r <->
     Alert.scoutId alert = auth_id user \/ auth_role user = ADMIN)
  /\ (succeeds r ->
      findUnique Alert.id id (alerts (snd r))
      = Some (Alert.setStatus AlertStatus.CANCELLED alert))
  /\ (~ succeeds r ->
      failsWith (forbidden "You can only cancel your own alerts") r
      /\ snd r = db).
Proof.
  cbv zeta. rewrite (cancel_run db user id alert Halert).
  unfold succeeds, failsWith.
  destruct (String.eqb (Alert.scoutId alert) (auth_id user)) eqn:Es;
    [apply String.eqb_eq in Es | apply String.eqb_neq in Es];
    (destruct (UserRole_eqb (auth_role user) ADMIN) eqn:Er;
     [apply UserRole_eqb_eq in Er |]); cbn.
  - split; [split; [intros _; tauto | intros _; eexists; reflexivity] |].
    split; [intros _; autorewrite with store;
            rewrite findUnique_updateRows_same by reflexivity;
            now rewrite Halert
           | intros H; exfalso; apply H; eexists; reflexivity].
  - split; [split; [intros _; tauto | intros _; eexists; reflexivity] |].
    split; [intros _; autorewrite with store;
            rewrite findUnique_updateRows_same by reflexivity;
            now rewrite Halert
           | intros H; exfalso; apply H; eexists; reflexivity].
  - split; [split; [intros _; tauto | intros _; eexists; reflexivity] |].
    split; [intros _; autorewrite with store;
            rewrite findUnique_updateRows_same by reflexivity;
            now rewrite Halert
           | intros H; exfalso; apply H; eexists; reflexivity].
  - split; [split; [intros [a Ha]; discriminate |] |].
    + intros [H | H]; [congruence |].
      apply UserRole_eqb_eq in H. congruence.
    + split; [intros [a Ha]; discriminate | intros _; split; reflexivity].
Qed.

Lemma cancel_alert_scout_or_admin_witness :
  findUnique Alert.id "a1" (alerts (Example.board AlertStatus.ACTIVE))
  = Some (Example.alert1 AlertStatus.ACTIVE)
  /\ succeeds (Alerts.cancel Example.admin "a1"
                 (Example.board AlertStatus.ACTIVE)).
Proof.
  split; [reflexivity|].
  destruct (cancel_alert_scout_or_admin (Example.board AlertStatus.ACTIVE)
              Example.admin "a1" (Example.alert1 AlertStatus.ACTIVE))
    as [Hiff _].
  - reflexivity.
  - apply Hiff. right. reflexivity.
Defined.

(** C8 as stated fails on the code: the scout cancels an alert that has
    already expired, and the call succeeds and rewrites the status. *)
Lemma cancel_alert_not_active_counterexample :
  let db := Example.board AlertStatus.EXPIRED in
  let scout := mkAuth "u-scout" SCOUT in
  option_map Alert.status (findUnique Alert.id "a1" (alerts db))
  = Some AlertStatus.EXPIRED
  /\ fst (Alerts.cancel scout "a1" db) = Ok tt
  /\ option_map Alert.status
       (findUnique Alert.id "a1" (alerts (snd (Alerts.cancel scout "a1" db))))
     = Some AlertStatus.CANCELLED.
Proof. vm_compute. repeat split. Qed.

(** ** Alert feedback *)

Lemma submitFeedback_alerts (db : Db) (id : Id) (accurate : bool)
  (alert : Alert.t) :
  findUnique Alert.id id (alerts db) = Some alert ->
  alerts (snd (Alerts.submitFeedback id accurate db))
  = updateRows Alert.id id
      (Alert.setFeedback (Alerts.newScore alert accurate)
         (Alerts.newFeedbackCount alert) (Alerts.newVerified alert accurate))
      (alerts db).
Proof.
  intros Ha. unfold Alerts.submitFeedback. run. rewrite Ha. cbn.
  rewrite Ha. cbn.
  destruct accurate; cbn; [|reflexivity].
  destruct (findUnique User.id (Alert.scoutId alert) _); reflexivity.
Qed.

Lemma submitFeedback_row (db : Db) (id : Id) (accurate : bool)
  (alert : Alert.t) :
  findUnique Alert.id id (alerts db) = Some alert ->
  findUnique Alert.id id (alerts (snd (Alerts.submitFeedback id accurate db)))
  = Some (Alerts.rowAfterFeedback alert accurate).
Proof.
  intros Ha. rewrite (submitFeedback_alerts db id accurate alert Ha).
  rewrite findUnique_updateRows_same by reflexivity. now rewrite Ha.
Qed.

Lemma afterFeedback_row (id : Id) (answers : list bool) :
  forall (db : Db) (alert : Alert.t),
    findUnique Alert.id id (alerts db) = Some alert ->
    findUnique Alert.id id (alerts (Alerts.afterFeedback id answers db))
    = Some (fold_left Alerts.rowAfterFeedback answers alert).
Proof.
  unfold Alerts.afterFeedback.
  induction answers as [|b answers IH]; intros db alert Ha; simpl.
  - exact Ha.
  - apply IH. now apply submitFeedback_row.
Qed.

Lemma rowAfterFeedback_backed (alert : Alert.t) (accurate : bool) :
  Alerts.flagBacked (Alerts.rowAfterFeedback alert accurate).
Proof.
  unfold Alerts.flagBacked, Alerts.rowAfterFeedback. cbn.
  unfold Alerts.newVerified. intros H.
  apply andb_true_iff in H. destruct H as [Hs Hc].
  split; [now apply Qle_bool_iff | now apply Z.leb_le].
Qed.

Lemma fold_rowAfterFeedback_backed (answers : list bool) :
  forall alert, Alerts.flagBacked alert ->
    Alerts.flagBacked (fold_left Alerts.rowAfterFeedback answers alert).
Proof.
  induction answers as [|b answers IH]; intros alert Hb; simpl.
  - exact Hb.
  - apply IH. apply rowAfterFeedback_backed.
Qed.

(** One accurate answer on a verified, backed alert leaves it verified. *)
Lemma accurate_keeps_verified (alert : Alert.t) :
  Alert.isVerified alert = true -> Alerts.flagBacked alert ->
  Alert.isVerified (Alerts.rowAfterFeedback alert true) = true.
Proof.
  intros Hv Hb. destruct (Hb Hv) as [Hs Hc].
  unfold Alerts.rowAfterFeedback. cbn. unfold Alerts.newVerified.
  apply andb_true_iff. split.
  - apply Qle_bool_iff. unfold Alerts.newScore, Alerts.newFeedbackCount.
    set (s := Alerts.scoreOrZero (Alert.feedbackScore alert)) in *.
    set (n := Alert.feedbackCount alert) in *.
    assert (Hn : (0 < inject_Z (n + 1))%Q).
    { change 0%Q with (inject_Z 0). rewrite <- Zlt_Qlt. lia. }
    apply Qle_shift_div_l; [exact Hn|].
    rewrite inject_Z_plus.
    assert (Hn0 : (0 <= inject_Z n)%Q).
    { change 0%Q with (inject_Z 0). rewrite <- Zle_Qle. lia. }
    assert (Hmul : ((7 # 10) * inject_Z n <= s * inject_Z n)%Q)
      by (apply Qmult_le_compat_r; assumption).
    change (inject_Z 1) with 1%Q. clear Hn Hb Hv.
    set (p := (s * inject_Z n)%Q) in *. set (m := inject_Z n) in *.
    clearbody p m. Lqa.lra.
  - apply Z.leb_le. unfold Alerts.newFeedbackCount. lia.
Qed.

Lemma accurate_answers_keep_verified (more : list bool) :
  forallb (fun b => b) more = true ->
  forall alert,
    Alert.isVerified alert = true -> Alerts.flagBacked alert ->
    Alert.isVerified (fold_left Alerts.rowAfterFeedback more alert) = true.
Proof.
  induction more as [|b more IH]; intros Hall alert Hv Hb; simpl.
  - exact Hv.
  - simpl in Hall. apply andb_true_iff in Hall. destruct Hall as [-> Hall].
    apply IH; [exact Hall | | apply rowAfterFeedback_backed].
    now apply accurate_keeps_verified.
Qed.

(** C4 (as the code has it). The flag is recomputed by every feedback
    call; once it is true, later calls whose answer is accurate keep it
    true. (An inaccurate answer can unset it, see the counterexample.) *)
Theorem isVerified_kept_by_accurate_feedback
  (db : Db) (id : Id) (alert : Alert.t) (answers more : list bool)
  (Halert : findUnique Alert.id id (alerts db) = Some alert)
  (Hbacked : Alerts.flagBacked alert)
  (Hverified :
     Alerts.verifiedFlag id (Alerts.afterFeedback id answers db) = Some true)
  (Haccurate : forallb (fun b => b) more = true) :
  Alerts.verifiedFlag id (Alerts.afterFeedback id (answers ++ more) db)
  = Some true.
Proof.
  unfold Alerts.verifiedFlag in *.
  rewrite (afterFeedback_row id answers db alert Halert) in Hverified.
  rewrite (afterFeedback_row id (answers ++ more) db alert Halert).
  rewrite fold_left_app. cbn in *. f_equal.
  apply accurate_answers_keep_verified.
  - exact Haccurate.
  - congruence.
  - now apply fold_rowAfterFeedback_backed.
Qed.

Lemma isVerified_kept_by_accurate_feedback_witness :
  Alerts.verifiedFlag "a1"
    (Alerts.afterFeedback "a1" [true; true; true]
       (Example.board AlertStatus.ACTIVE)) = Some true
  /\ Alerts.verifiedFlag "a1"
       (Alerts.afterFeedback "a1" ([true; true; true] ++ [true; true])
          (Example.board AlertStatus.ACTIVE)) = Some true.
Proof.
  split; [vm_compute; reflexivity|].
  apply (isVerified_kept_by_accurate_feedback
           (Example.board AlertStatus.ACTIVE) "a1"
           (Example.alert1 AlertStatus.ACTIVE)).
  - reflexivity.
  - intros H. discriminate H.
  - vm_compute. reflexivity.
  - reflexivity.
Defined.

(** C4 as stated fails on the code: three accurate answers verify the
    alert, the fourth (inaccurate) answer leaves the mean at 3/4, and the
    fifth (inaccurate) brings it to 3/5 and the flag back to false. *)
Lemma isVerified_reverts_counterexample :
  let db := Example.board AlertStatus.ACTIVE in
  Alerts.verifiedFlag "a1" (Alerts.afterFeedback "a1" [true; true; true] db)
  = Some true
  /\ Alerts.verifiedFlag "a1"
       (Alerts.afterFeedback "a1" [true; true; true; false] db)
     = Some true
  /\ Alerts.verifiedFlag "a1"
       (Alerts.afterFeedback "a1" [true; true; true; false; false] db)
     = Some false.
Proof. vm_compute. repeat split. Qed.

(** ** Haversine distance *)

Lemma Math_atan2_0_1 : Math_atan2 0 1 = 0%R.
Proof.
  unfold Math_atan2. destruct (Rlt_dec 0 1) as [_ | H].
  - unfold Rdiv. rewrite Rmult_0_l. apply atan_0.
  - exfalso. apply H. lra.
Qed.

(** The distance between a point and itself is 0. *)
Lemma calculateDistance_self (p : LatLng) : calculateDistance p p = 0%R.
Proof.
  unfold calculateDistance.
  replace ((lat p - lat p) * PI / 180 / 2)%R with 0%R by (field; lra).
  replace ((lng p - lng p) * PI / 180 / 2)%R with 0%R by (field; lra).
  rewrite sin_0.
  replace (0 * 0 + cos (lat p * PI / 180) * cos (lat p * PI / 180) * 0 * 0)%R
    with 0%R by ring.
  rewrite Rminus_0_r, sqrt_0, sqrt_1, Math_atan2_0_1. ring.
Qed.

Lemma isNearby_lt (c : LatLng) (r : Report.t) :
  Reports.isNearby c r = true <->
  (calculateDistance c (extractCoordinates (Report.location r)) < 100)%R.
Proof.
  unfold Reports.isNearby.
  destruct (Rlt_dec _ 100); split; intros; try assumption; try reflexivity;
    try discriminate; contradiction.
Qed.

Lemma isNearby_same_place (c : LatLng) (r : Report.t) :
  extractCoordinates (Report.location r) = c -> Reports.isNearby c r = true.
Proof.
  intros <-. apply isNearby_lt. rewrite calculateDistance_self. lra.
Qed.

(** ** Report creation: the duplicate scan *)

Lemma scanNearby_spec (userId : Id) (c : LatLng) (l : list Report.t) :
  forall (count : Z) (dup : bool),
    Reports.scanNearby userId c l count dup
    = (count + Z.of_nat (List.length (filter (Reports.isNearby c) l)),
       dup || existsb (fun r => Reports.isNearby c r
                                && String.eqb (Report.userId r) userId) l).
Proof.
  induction l as [|r l IH]; intros count dup; simpl.
  - now rewrite Z.add_0_r, orb_false_r.
  - destruct (Reports.isNearby c r) eqn:En; simpl.
    + rewrite IH. f_equal; [lia|].
      destruct (String.eqb (Report.userId r) userId), dup; reflexivity.
    + apply IH.
Qed.

Lemma filter_filter {A} (f g : A -> bool) (l : list A) :
  filter g (filter f l) = filter (fun x => f x && g x) l.
Proof.
  induction l as [|x l IH]; simpl; [reflexivity|].
  destruct (f x); simpl; [destruct (g x); simpl; now rewrite IH | exact IH].
Qed.

(** The two results of the scan, in terms of the store. *)
Lemma scanNearby_store (user : AuthUser) (type : ReportType.t) (now : Z)
  (c : LatLng) (db : Db) :
  Reports.scanNearby (auth_id user) c (Reports.findRecentReports type now db)
    0 false
  = (Z.of_nat (List.length
                 (filter (Reports.corroborates type now c) (reports db))),
     existsb (fun r => Reports.corroborates type now c r
                       && String.eqb (Report.userId r) (auth_id user))
             (reports db)).
Proof.
  rewrite scanNearby_spec. unfold Reports.findRecentReports.
  rewrite filter_filter. cbn. f_equal.
  induction (reports db) as [|r l IH]; simpl; [reflexivity|].
  unfold Reports.corroborates at 1.
  destruct (Reports.isRecent type now r); simpl; [now rewrite IH | exact IH].
Qed.

Lemma inRangeR_true (lo hi x : R) :
  inRangeR lo hi x = true <-> (lo <= x <= hi)%R.
Proof.
  unfold inRangeR.
  destruct (Rle_dec lo x), (Rle_dec x hi); cbn; split; intros H;
    try discriminate; try reflexivity; try lra; tauto.
Qed.

Lemma geoPointSchema_true (point : GeoJSONPoint) :
  geoPointSchema point = true
  <-> (-180 <= fst (coordinates point) <= 180
       /\ -90 <= snd (coordinates point) <= 90)%R.
Proof.
  unfold geoPointSchema. rewrite andb_true_iff, !inRangeR_true. tauto.
Qed.

Lemma pipe_valid (type : ReportType.t) :
  Reports.createReportSchema (Reports.mkBody type Example.pipe) = true.
Proof.
  unfold Reports.createReportSchema. apply geoPointSchema_true.
  cbn. lra.
Qed.

(** A body the schema refuses is answered by [validate] before the store
    is read; no report is created. *)
Lemma createReport_invalid_body (db : Db) (user : AuthUser)
  (body : Reports.CreateReportBody) (newId : Id) (now : Z) :
  Reports.createReportSchema body = false ->
  Reports.createReport user body newId now db = (Err (validation []), db).
Proof.
  intros H. unfold Reports.createReport. run. rewrite H. reflexivity.
Qed.



(** ** Report creation: the upgrade loop *)

Lemma present_updateRows {Row} (key : Row -> Id) (id id' : Id)
  (f : Row -> Row) (t : list Row) :
  (forall r, key (f r) = key r) ->
  (exists r, findUnique key id t = Some r) ->
  exists r, findUnique key id (updateRows key id' f t) = Some r.
Proof.
  intros Hk [r Hr]. destruct (string_dec id' id) as [-> | Hne].
  - rewrite findUnique_updateRows_same by exact Hk. rewrite Hr. cbn. eauto.
  - rewrite findUnique_updateRows_other by assumption. eauto.
Qed.


Section Upgrade.
Variables (c : LatLng) (n : Z).

Local Abbreviation g := (Report.apply (Reports.verifiedData n)).
Local Abbreviation step :=
  (fun t r => if Reports.nearbyPending c r
              then updateRows Report.id (Report.id r) g t else t).

Lemma verified_twice (row : Report.t) : g (g row) = g row.
Proof. destruct row. reflexivity. Qed.

Lemma upgrade_fold_map (L : list Report.t) :
  forall t, fold_left step L t = map (Reports.upgradedRow c n L) t.
Proof.
  induction L as [|r L IH]; intros t; simpl.
  - unfold Reports.upgradedRow. simpl. now rewrite map_id.
  - rewrite IH. destruct (Reports.nearbyPending c r) eqn:Ec.
    + unfold updateRows. rewrite map_map. apply map_ext. intros row.
      unfold Reports.upgradedRow. simpl. rewrite Ec. simpl.
      rewrite (String.eqb_sym (Report.id r) (Report.id row)).
      destruct (String.eqb (Report.id row) (Report.id r)); simpl.
      * change (Report.id (g row)) with (Report.id row).
        destruct (existsb _ L); [apply verified_twice | reflexivity].
      * reflexivity.
    + apply map_ext. intros row. unfold Reports.upgradedRow. simpl.
      rewrite Ec. reflexivity.
Qed.

Lemma upgradeNearby_run (L : list Report.t) :
  forall db,
    (forall r, In r L ->
       exists r', findUnique Report.id (Report.id r) (reports db) = Some r') ->
    fst (Reports.upgradeNearby c n L db) = Ok tt
    /\ reports (snd (Reports.upgradeNearby c n L db))
       = fold_left step L (reports db)
    /\ users (snd (Reports.upgradeNearby c n L db)) = users db.
Proof.
  induction L as [|r L IH]; intros db Hpresent; simpl.
  - repeat split.
  - unfold bind at 1.
    assert (Hrest : forall db',
               reports db' = step (reports db) r ->
               forall r0, In r0 L ->
                 exists r', findUnique Report.id (Report.id r0) (reports db')
                            = Some r').
    { intros db' E r0 Hr0. rewrite E.
      destruct (Reports.nearbyPending c r).
      - apply present_updateRows; [reflexivity|].
        apply Hpresent. now right.
      - apply Hpresent. now right. }
    destruct (Reports.nearbyPending c r) eqn:Ec.
    + destruct (Hpresent r (or_introl eq_refl)) as [r' Hr'].
      unfold updateIn, bind, gets, modify, ret. rewrite Hr'. cbn.
      destruct (IH (set_reports (updateRows Report.id (Report.id r) g) db))
        as (H1 & H2 & H3).
      { apply Hrest. autorewrite with store. now rewrite Ec. }
      destruct (Reports.upgradeNearby c n L _) as [res db2] eqn:E.
      cbn in *. repeat split; assumption.
    + unfold ret at 1. cbn.
      destruct (IH db) as (H1 & H2 & H3).
      { apply Hrest. now rewrite Ec. }
      repeat split; assumption.
Qed.

End Upgrade.

(** ** Report creation: the handler *)

Lemma findUnique_none_eqb {Row} (key : Row -> Id) (id : Id) (t : list Row) :
  findUnique key id t = None ->
  forall r, In r t -> String.eqb (key r) id = false.
Proof.
  unfold findUnique. intros Hn r Hin. exact (find_none _ _ Hn r Hin).
Qed.

Lemma updateRows_fresh {Row} (key : Row -> Id) (id : Id) (f : Row -> Row)
  (t : list Row) :
  findUnique key id t = None -> updateRows key id f t = t.
Proof.
  intros Hn. unfold updateRows. rewrite <- (map_id t) at 2.
  apply map_ext_in. intros r Hin.
  now rewrite (findUnique_none_eqb key id t Hn r Hin).
Qed.

Lemma updateRows_app {Row} (key : Row -> Id) (id : Id) (f : Row -> Row)
  (t l : list Row) :
  updateRows key id f (t ++ l)
  = (updateRows key id f t ++ updateRows key id f l)%list.
Proof. unfold updateRows. apply map_app. Qed.

Lemma findUnique_app_found {Row} (key : Row -> Id) (id : Id)
  (t l : list Row) (r : Row) :
  findUnique key id t = Some r -> findUnique key id (t ++ l) = Some r.
Proof.
  unfold findUnique. induction t as [|x t IH]; simpl; [discriminate|].
  destruct (String.eqb (key x) id); [trivial | exact IH].
Qed.

Lemma createReport_run (db : Db) (user : AuthUser)
  (body : Reports.CreateReportBody) (newId : Id) (now : Z) (u : User.t) :
  let c := extractCoordinates (Reports.location body) in
  let n := Z.of_nat (List.length
                       (filter (Reports.corroborates (Reports.type body) now c)
                               (reports db))) in
  let recent := Reports.findRecentReports (Reports.type body) now db in
  let report :=
    Report.mk newId (auth_id user) (Reports.type body) (Reports.location body)
      ReportStatus.PENDING (n + 1) (Some (Reports.bountyFor (Reports.type body)))
      false None None None None now in
  Reports.createReportSchema body = true ->
  findUnique Report.id newId (reports db) = None ->
  findUnique User.id (auth_id user) (users db) = Some u ->
  existsb (fun r => Reports.corroborates (Reports.type body) now c r
                    && String.eqb (Report.userId r) (auth_id user))
          (reports db) = false ->
  exists db',
    Reports.createReport user body newId now db
    = (Ok (report, Reports.bountyFor (Reports.type body)), db')
    /\ reports db'
       = (if Z.leb 2 n then
            map (Reports.upgradedRow c n recent) (reports db)
            ++ [Report.apply Reports.statusVerified report]
          else reports db ++ [report])%list
    /\ users db'
       = updateRows User.id (auth_id user)
           (User.incrementReputation config.reputation_reportPoints)
           (users db).
Proof.
  intros c n recent report Hvalid Hfresh Huser Hnodup.
  unfold Reports.createReport. run. rewrite Hvalid. cbn.
  rewrite scanNearby_store. fold c. fold n. rewrite Hnodup.
  fold report. fold recent. cbn.
  set (db1 := set_reports (fun t => (t ++ [report])%list) db).
  assert (Hnew : findUnique Report.id newId (reports db1) = Some report).
  { apply findUnique_app_fresh; [exact Hfresh | reflexivity]. }
  destruct (Z.leb 2 n) eqn:En.
  - rewrite Hnew. cbn.
    set (db2 := set_reports
                  (updateRows Report.id newId
                     (Report.apply Reports.statusVerified)) db1).
    assert (Ht2 : reports db2
                  = (reports db
                     ++ [Report.apply Reports.statusVerified report])%list).
    { unfold db2, db1. autorewrite with store. rewrite updateRows_app.
      rewrite updateRows_fresh by exact Hfresh.
      unfold updateRows. simpl. now rewrite String.eqb_refl. }
    assert (Hrecent : forall r0, In r0 recent -> In r0 (reports db)).
    { intros r0 H. unfold recent, Reports.findRecentReports in H.
      now apply filter_In in H. }
    destruct (upgradeNearby_run c n recent db2) as (H1 & H2 & H3).
    { intros r0 Hr0. rewrite Ht2.
      destruct (In_findUnique Report.id (reports db) r0 (Hrecent r0 Hr0))
        as [r' Hr'].
      exists r'. now apply findUnique_app_found. }
    destruct (Reports.upgradeNearby c n recent db2) as [res db3] eqn:E3.
    cbn [fst snd] in H1, H2, H3. subst res.
    assert (Hu3 : findUnique User.id (auth_id user) (users db3) = Some u).
    { rewrite H3. exact Huser. }
    rewrite Hu3. cbn. eexists. split; [reflexivity|].
    autorewrite with store. split; [|now rewrite H3].
    rewrite H2, upgrade_fold_map, Ht2, map_app. f_equal.
    simpl. f_equal. unfold Reports.upgradedRow.
    assert (Hex : existsb
                    (fun r0 => Reports.nearbyPending c r0
                               && String.eqb (Report.id r0)
                                    (Report.id (Report.apply
                                                  Reports.statusVerified report)))
                    recent = false).
    { apply not_true_is_false. intros Hex.
      apply existsb_exists in Hex. destruct Hex as [r0 [Hr0 Hc]].
      apply andb_true_iff in Hc. destruct Hc as [_ Hc].
      change (Report.id (Report.apply Reports.statusVerified report))
        with newId in Hc.
      rewrite (findUnique_none_eqb Report.id newId (reports db) Hfresh r0
                 (Hrecent r0 Hr0)) in Hc. discriminate. }
    now rewrite Hex.
  - assert (Hu1 : findUnique User.id (auth_id user) (users db1) = Some u)
      by exact Huser.
    rewrite Hu1. cbn. eexists. split; [reflexivity|].
    split; reflexivity.
Qed.










(** ** Bounty amounts *)

Lemma createReport_bounty (db : Db) (user : AuthUser)
  (body : Reports.CreateReportBody) (newId : Id) (now : Z) (report : Report.t)
  (amount : Z) :
  fst (Reports.createReport user body newId now db) = Ok (report, amount) ->
  amount = Reports.bountyFor (Reports.type body)
  /\ Report.bountyAmount report = Some (Reports.bountyFor (Reports.type body)).
Proof.
  unfold Reports.createReport. run.
  destruct (Reports.createReportSchema body); cbn; [|discriminate].
  destruct (Reports.scanNearby _ _ _ 0 false) as [n dup].
  destruct dup; cbn; [discriminate|].
  destruct (Z.leb 2 n).
  - destruct (findUnique Report.id newId _); cbn; [|discriminate].
    destruct (Reports.upgradeNearby _ n _ _) as [[[]|e] db3]; cbn;
      [|discriminate].
    destruct (findUnique User.id (auth_id user) (users db3)); cbn;
      [|discriminate].
    intros [= <- <-]. split; reflexivity.
  - destruct (findUnique User.id (auth_id user) _); cbn; [|discriminate].
    intros [= <- <-]. split; reflexivity.
Qed.

(** C7 (the code at the failing inputs). The lookup key is the lower-cased
    enum name, so only LEAK, CONTAMINATION and FLOOD reach their entry;
    BURST_PIPE, BLOCKED_DRAIN and BROKEN_TAP miss the camel-cased properties
    and receive the fallback 5000, where the table has 30000, 15000 and
    10000. A BURST_PIPE report is created with a bounty of 5000. *)
Theorem bounty_lookup_misses_camel_case_keys :
  map Reports.bountyFor
    [ReportType.LEAK; ReportType.BURST_PIPE; ReportType.CONTAMINATION;
     ReportType.BLOCKED_DRAIN; ReportType.FLOOD; ReportType.BROKEN_TAP;
     ReportType.OTHER]
  = [20000; 5000; 25000; 5000; 20000; 5000; 5000]
  /\ map Spec.bountyTable
       [ReportType.LEAK; ReportType.BURST_PIPE; ReportType.CONTAMINATION;
        ReportType.BLOCKED_DRAIN; ReportType.FLOOD; ReportType.BROKEN_TAP;
        ReportType.OTHER]
     = [20000; 30000; 25000; 15000; 20000; 10000; 5000]
  /\ prop config.bounty (toLowerCase (ReportType.name ReportType.BURST_PIPE))
     = None
  /\ exists report db',
       Reports.createReport Example.customer
         (Reports.mkBody ReportType.BURST_PIPE Example.pipe) "r1" 1000
         (Example.street [])
       = (Ok (report, 5000), db')
       /\ Report.bountyAmount report = Some 5000.
Proof.
  split; [vm_compute; reflexivity|].
  split; [reflexivity|].
  split; [vm_compute; reflexivity|].
  destruct (createReport_run (Example.street []) Example.customer
              (Reports.mkBody ReportType.BURST_PIPE Example.pipe) "r1" 1000
              (User.mk "u-customer" CITIZEN 0))
    as (db' & E & _); try reflexivity; [apply pipe_valid|].
  eexists. exists db'. split; [exact E | reflexivity].
Qed.

(** ** Report resolution *)

Lemma resolve_run (db : Db) (user : AuthUser) (id : Id)
  (resolution : option string) (now : Z) (report : Report.t) (u : User.t) :
  auth_role user = ADMIN ->
  Reports.resolutionSchema resolution = true ->
  findUnique Report.id id (reports db) = Some report ->
  findUnique User.id (Report.userId report) (users db) = Some u ->
  Reports.updateReportStatus user id ReportStatus.RESOLVED resolution now db
  = let data :=
      Reports.resolvedData (auth_id user) resolution now
        (Reports.bountyDue report) in
    (Ok (Report.apply data report),
     set_reports (updateRows Report.id id (Report.apply data))
       (if Reports.bountyDue report then
          set_users
            (updateRows User.id (Report.userId report)
               (User.incrementReputation
                  config.reputation_verifiedReportBonus)) db
        else db)).
Proof.
  intros Hrole Hres Hr Hu. destruct user as [uid role]. cbn in Hrole.
  subst role. unfold Reports.updateReportStatus. run.
  change (rolesInclude [ADMIN] ADMIN) with true. cbn.
  rewrite Hres. cbn. rewrite Hr. cbn.
  destruct (Reports.bountyDue report); cbn.
  - rewrite Hu. cbn. rewrite Hr. reflexivity.
  - rewrite Hr. reflexivity.
Qed.

(** C9 (as the code has it). For a report of the store, whatever its
    current status (RESOLVED included), a resolution request by an
    administrator succeeds and stores status RESOLVED with [resolvedAt],
    [resolvedBy] and, when a text is given, [resolution]. If the bounty is
    not yet paid and the bounty amount is not zero, the report gets
    [bountyPaid = true] with [bountyPaidAt] stamped and the reporter gains
    the bonus of 15 reputation points; if the bounty is already paid, the
    flag and its timestamp are kept and no user is changed, so the bounty
    is marked and rewarded at most once. *)
Theorem resolve_report_any_status
  (db : Db) (user : AuthUser) (id : Id) (resolution : option string)
  (now : Z) (report : Report.t) (u : User.t)
  (Hadmin : auth_role user = ADMIN)
  (Hschema : Reports.resolutionSchema resolution = true)
  (Hreport : findUnique Report.id id (reports db) = Some report)
  (Hreporter : findUnique User.id (Report.userId report) (users db) = Some u) :
  let r := Reports.updateReportStatus user id ReportStatus.RESOLVED
             resolution now db in
  succeeds r
  /\ exists report',
       findUnique Report.id id (reports (snd r)) = Some report'
       /\ Report.status report' = ReportStatus.RESOLVED
       /\ Report.resolvedAt report' = Some now
       /\ Report.resolvedBy report' = Some (auth_id user)
       /\ (forall s, resolution = Some s -> Report.resolution report' = Some s)
       /\ (Report.bountyPaid report = false ->
           Reports.truthy (Report.bountyAmount report) = true ->
           Report.bountyPaid report' = true
           /\ Report.bountyPaidAt report' = Some now
           /\ findUnique User.id (Report.userId report) (users (snd r))
              = Some (User.incrementReputation 15 u))
       /\ (Report.bountyPaid report = true ->
           Report.bountyPaid report' = true
           /\ Report.bountyPaidAt report' = Report.bountyPaidAt report
           /\ users (snd r) = users db).
Proof.
  cbv zeta.
  rewrite (resolve_run db user id resolution now report u Hadmin Hschema
             Hreport Hreporter).
  cbv zeta. cbn [fst snd]. split; [eexists; reflexivity |].
  exists (Report.apply
            (Reports.resolvedData (auth_id user) resolution now
               (Reports.bountyDue report)) report).
  split.
  { autorewrite with store.
    rewrite findUnique_updateRows_same by reflexivity.
    destruct (Reports.bountyDue report); autorewrite with store;
      rewrite Hreport; reflexivity. }
  unfold Reports.bountyDue.
  split; [destruct (negb _ && _); reflexivity |].
  split; [destruct (negb _ && _); reflexivity |].
  split; [destruct (negb _ && _); reflexivity |].
  split; [intros s ->; destruct (negb _ && _); reflexivity |].
  split.
  - intros Hb Ht. rewrite Hb, Ht. cbn. repeat split.
    autorewrite with store.
    rewrite findUnique_updateRows_same by reflexivity.
    now rewrite Hreporter.
  - intros Hb. rewrite Hb. cbn. repeat split.
    unfold Reports.resolvedData. unfold Report.apply. cbn. exact Hb.
Qed.

Lemma resolve_report_any_status_witness :
  findUnique Report.id "r1"
    (reports (Example.street [Example.leakBy "r1" "u-customer" 1000]))
  = Some (Example.leakBy "r1" "u-customer" 1000)
  /\ succeeds
       (Reports.updateReportStatus Example.admin "r1" ReportStatus.RESOLVED
          (Some "pipe replaced") 9000
          (Example.street [Example.leakBy "r1" "u-customer" 1000])).
Proof.
  split; [reflexivity|].
  apply (resolve_report_any_status
           (Example.street [Example.leakBy "r1" "u-customer" 1000])
           Example.admin "r1" (Some "pipe replaced") 9000
           (Example.leakBy "r1" "u-customer" 1000)
           (User.mk "u-customer" CITIZEN 0));
    reflexivity.
Defined.

(** C9 as stated fails on the code: a report that is already RESOLVED is
    resolved a second time; the call succeeds and stamps [resolvedAt]
    again. The bounty, already paid, is not paid again. *)
Lemma resolve_twice_counterexample :
  let db := Example.street [Example.resolvedLeak "r1" "u-customer" 4000] in
  let r := Reports.updateReportStatus Example.admin "r1"
             ReportStatus.RESOLVED (Some "checked again") 9000 db in
  option_map Report.status (findUnique Report.id "r1" (reports db))
  = Some ReportStatus.RESOLVED
  /\ succeeds r
  /\ option_map (fun x => (Report.status x, Report.resolvedAt x,
                           Report.bountyPaidAt x))
       (findUnique Report.id "r1" (reports (snd r)))
     = Some (ReportStatus.RESOLVED, Some 9000, Some 4000)
  /\ users (snd r) = users db.
Proof.
  cbv zeta. split; [reflexivity|].
  split; [eexists; reflexivity|].
  split; reflexivity.
Qed.

(** ** Order creation *)

Lemma unique_key_row {Row} (key : Row -> Id) (t : list Row) (x y : Row) :
  NoDup (map key t) -> In x t -> In y t -> key x = key y -> x = y.
Proof.
  induction t as [|r t IH]; simpl; intros Hnd Hx Hy Hk; [contradiction|].
  inversion Hnd as [|? ? Hnotin Hnd']; subst.
  destruct Hx as [-> | Hx], Hy as [-> | Hy].
  - reflexivity.
  - exfalso. apply Hnotin. rewrite Hk. now apply in_map.
  - exfalso. apply Hnotin. rewrite <- Hk. now apply in_map.
  - now apply IH.
Qed.

Lemma findUnique_unique {Row} (key : Row -> Id) (t : list Row) (x : Row) :
  NoDup (map key t) -> In x t -> findUnique key (key x) t = Some x.
Proof.
  intros Hnd Hin. destruct (In_findUnique key t x Hin) as [y Hy].
  rewrite Hy. f_equal.
  apply (unique_key_row key t y x Hnd); [| exact Hin |].
  - eapply findUnique_In; eassumption.
  - eapply findUnique_key; eassumption.
Qed.

Lemma find_filter_pass {A} (f g : A -> bool) (t : list A) (x : A) :
  find f t = Some x -> g x = true -> find f (filter g t) = Some x.
Proof.
  induction t as [|y t IH]; simpl; [discriminate|].
  destruct (f y) eqn:Ef.
  - intros [= ->] Hg. rewrite Hg. simpl. now rewrite Ef.
  - intros Hx Hg. destruct (g y); simpl; [rewrite Ef|]; auto.
Qed.

Lemma NoDup_map_filter {A B} (key : A -> B) (f : A -> bool) (t : list A) :
  NoDup (map key t) -> NoDup (map key (filter f t)).
Proof.
  induction t as [|x t IH]; simpl; intros Hnd; [constructor|].
  inversion Hnd as [|? ? Hnotin Hnd']; subst.
  destruct (f x); simpl; [| now apply IH].
  constructor; [| now apply IH].
  intros Hin. apply Hnotin. apply in_map_iff in Hin.
  destruct Hin as [y [Hy Hin]]. apply filter_In in Hin.
  rewrite <- Hy. apply in_map. tauto.
Qed.

Section Catalog.
Variables (db : Db) (vendorId : Id) (items : list Orders.CreateOrderItem).

Hypothesis products_key : NoDup (map Product.id (products db)).
Hypothesis items_distinct : NoDup (map Orders.productId items).
Hypothesis items_in_catalog :
  forall item, In item items ->
    exists p, findUnique Product.id (Orders.productId item) (products db)
              = Some p
              /\ Product.vendorId p = vendorId
              /\ Product.isAvailable p = true.

Local Abbreviation productIds := (map Orders.productId items).
Local Abbreviation found := (Orders.findProducts productIds vendorId db).

Lemma found_spec (p : Product.t) :
  In p found <->
  In p (products db) /\ In (Product.id p) productIds
  /\ Product.vendorId p = vendorId.
Proof.
  unfold Orders.findProducts. rewrite filter_In, andb_true_iff.
  rewrite existsb_exists, String.eqb_eq. split.
  - intros [Hin [[x [Hx He]] Hv]]. apply String.eqb_eq in He. subst x.
    auto.
  - intros [Hin [Hid Hv]]. repeat split; try assumption.
    exists (Product.id p). split; [exact Hid | apply String.eqb_refl].
Qed.

Lemma found_all_available (p : Product.t) :
  In p found -> Product.isAvailable p = true.
Proof.
  intros Hp. apply found_spec in Hp. destruct Hp as [Hin [Hid _]].
  apply in_map_iff in Hid. destruct Hid as [item [He Hitem]].
  destruct (items_in_catalog item Hitem) as [q [Hq [_ Hav]]].
  rewrite He in Hq.
  rewrite (findUnique_unique Product.id _ p products_key Hin) in Hq.
  congruence.
Qed.

Lemma found_length : List.length found = List.length productIds.
Proof.
  apply Nat.le_antisymm.
  - rewrite <- (length_map Product.id found).
    apply NoDup_incl_length.
    + unfold Orders.findProducts.
      apply (NoDup_map_filter Product.id); exact products_key.
    + intros id Hid. apply in_map_iff in Hid.
      destruct Hid as [p [<- Hp]]. now apply found_spec in Hp.
  - rewrite <- (length_map Product.id found).
    apply NoDup_incl_length; [exact items_distinct|].
    intros id Hid. apply in_map_iff in Hid.
    destruct Hid as [item [<- Hitem]].
    destruct (items_in_catalog item Hitem) as [q [Hq [Hv _]]].
    apply in_map_iff. exists q. split.
    + eapply findUnique_key; eassumption.
    + apply found_spec. repeat split.
      * eapply findUnique_In; eassumption.
      * rewrite (findUnique_key _ _ _ _ Hq). now apply in_map.
      * exact Hv.
Qed.

End Catalog.

Lemma itemsTotal_cons (db : Db) (item : Orders.CreateOrderItem)
  (items : list Orders.CreateOrderItem) :
  itemsTotal db (item :: items) = lineTotal db item + itemsTotal db items.
Proof. reflexivity. Qed.

Lemma linesTotal_cons (l : OrderItem.t) (lines : list OrderItem.t) :
  linesTotal (l :: lines)
  = OrderItem.quantity l * OrderItem.unitPrice l + linesTotal lines.
Proof. reflexivity. Qed.

Lemma priceItems_total (db : Db) (vendorId : Id) (ids : list Id) :
  forall (items : list Orders.CreateOrderItem) (acc : Z),
    incl (map Orders.productId items) ids ->
    (forall item, In item items ->
       exists p, findUnique Product.id (Orders.productId item) (products db)
                 = Some p
                 /\ Product.vendorId p = vendorId
                 /\ Product.isAvailable p = true) ->
    exists lines,
      Orders.priceItems (Orders.findProducts ids vendorId db) items acc
      = Some (lines, acc + itemsTotal db items)
      /\ linesTotal lines = itemsTotal db items.
Proof.
  induction items as [|item items IH]; intros acc Hincl Hcat; simpl.
  - exists []. split; [| reflexivity].
    change (itemsTotal db []) with 0. now rewrite Z.add_0_r.
  - destruct (Hcat item (or_introl eq_refl)) as [p [Hp [Hv _]]].
    assert (Hfind :
      find (fun q => String.eqb (Product.id q) (Orders.productId item))
           (Orders.findProducts ids vendorId db) = Some p).
    { unfold Orders.findProducts. apply find_filter_pass; [exact Hp|].
      rewrite Hv, String.eqb_refl, andb_true_r.
      apply existsb_exists. exists (Orders.productId item). split.
      - apply Hincl. now left.
      - rewrite (findUnique_key _ _ _ _ Hp). apply String.eqb_refl. }
    rewrite Hfind.
    destruct (IH (acc + Product.price p * Orders.quantity item))
      as [lines [Hl Ht]].
    { intros x Hx. apply Hincl. now right. }
    { intros x Hx. apply Hcat. now right. }
    rewrite Hl. eexists. split.
    + f_equal. f_equal. rewrite itemsTotal_cons. unfold lineTotal.
      rewrite Hp. lia.
    + rewrite linesTotal_cons, itemsTotal_cons, Ht. unfold lineTotal.
      rewrite Hp. cbn. lia.
Qed.

(** Order creation for pairwise distinct product ids: the minimum-order
    error carrying [vendor.minOrder] when the sum of quantity times price is
    below it, and otherwise an order whose subtotal is that sum and whose
    total is subtotal plus delivery fee plus platform fee. *)
Lemma createOrder_pricing_distinct_items
  (db : Db) (user : AuthUser) (body : Orders.CreateOrderBody) (newId : Id)
  (vendor : Vendor.t) :
  Orders.createOrderSchema body = true ->
  findUnique Vendor.id (Orders.vendorId body) (vendors db) = Some vendor ->
  Vendor.isActive vendor = true -> Vendor.isVerified vendor = true ->
  NoDup (map Product.id (products db)) ->
  NoDup (map Orders.productId (Orders.items body)) ->
  (forall item, In item (Orders.items body) ->
     exists p, findUnique Product.id (Orders.productId item) (products db)
               = Some p
               /\ Product.vendorId p = Orders.vendorId body
               /\ Product.isAvailable p = true) ->
  let total := itemsTotal db (Orders.items body) in
  let r := Orders.createOrder user body newId db in
  (total < Vendor.minOrder vendor ->
   r = (Err (minOrderNotMet (Vendor.minOrder vendor)), db))
  /\ (Vendor.minOrder vendor <= total ->
      exists order,
        r = (Ok order, set_orders (fun t => (t ++ [order])%list) db)
        /\ Order.subtotal order = total
        /\ Order.subtotal order = linesTotal (Order.items order)
        /\ Order.deliveryFee order = Vendor.deliveryFee vendor
        /\ Order.platformFee order = calculatePlatformFee total
        /\ Order.totalAmount order
           = Order.subtotal order + Order.deliveryFee order
             + Order.platformFee order).
Proof.
  intros Hschema Hvendor Hact Hver Hkey Hdistinct Hcat total r.
  subst r. unfold Orders.createOrder. run.
  rewrite Hschema. cbn. rewrite Hvendor. cbn. rewrite Hact, Hver. cbn.
  rewrite (found_length db (Orders.vendorId body) (Orders.items body)
             Hkey Hdistinct Hcat).
  rewrite Nat.eqb_refl. cbn.
  assert (Hav : existsb (fun p => negb (Product.isAvailable p))
                  (Orders.findProducts
                     (map Orders.productId (Orders.items body))
                     (Orders.vendorId body) db) = false).
  { apply not_true_is_false. intros Hex. apply existsb_exists in Hex.
    destruct Hex as [p [Hp Hn]].
    rewrite (found_all_available db (Orders.vendorId body) (Orders.items body)
               Hkey Hcat p Hp) in Hn. discriminate. }
  rewrite Hav. cbn.
  destruct (priceItems_total db (Orders.vendorId body)
              (map Orders.productId (Orders.items body)) (Orders.items body) 0)
    as [lines [Hl Ht]]; [apply incl_refl | exact Hcat |].
  rewrite Hl. cbn. fold total in Ht |- *.
  split; intros Hmin.
  - apply Z.ltb_lt in Hmin. now rewrite Hmin.
  - apply Z.ltb_ge in Hmin. rewrite Hmin. cbn.
    eexists. split; [reflexivity|]. cbn. repeat split. now rewrite Ht.
Qed.

(** The end-to-end scenario of the specification: minimum order 10000,
    product price 5000; one unit is refused with the minimum as data, four
    units are priced 20000 + 2000 + 1000. *)
Example createOrder_minimum_order_scenario :
  let db := Example.shop OrderStatus.PENDING in
  let order n := Orders.mkBody "v1" [Orders.mkItem "p1" n]
                   "12 Wilkinson Road" in
  Orders.createOrder Example.customer (order 1) "o2" db
  = (Err (minOrderNotMet 10000), db)
  /\ fst (Orders.createOrder Example.customer (order 4) "o2" db)
     = Ok (Order.mk "o2" "u-customer" "v1" OrderStatus.PENDING
             "12 Wilkinson Road" 20000 2000 1000 23000
             [OrderItem.mk "p1" 4 5000 20000] None None None).
Proof. vm_compute. split; reflexivity. Qed.

(** C3 (the code at the failing input). The vendor is active and verified,
    both requested lines name the vendor's available product [p1], and the
    sum 2 * 5000 + 2 * 5000 reaches the minimum order of 10000; the route
    answers with the product-not-found error and creates no order, because
    the query returns one product for two requested ids. The same quantity
    in a single line creates the order with subtotal 20000, platform fee
    1000 and total 23000. *)
Theorem createOrder_repeated_product_rejected :
  let twice := Orders.mkBody "v1" [Orders.mkItem "p1" 2; Orders.mkItem "p1" 2]
                 "12 Wilkinson Road" in
  let once := Orders.mkBody "v1" [Orders.mkItem "p1" 4] "12 Wilkinson Road" in
  let db := Example.shop OrderStatus.PENDING in
  Vendor.minOrder Example.vendor1 <= itemsTotal db (Orders.items twice)
  /\ Orders.createOrder Example.customer twice "o2" db
     = (Err productNotFound, db)
  /\ option_map
       (fun o => (Order.subtotal o, Order.platformFee o, Order.totalAmount o))
       (match fst (Orders.createOrder Example.customer once "o2" db) with
        | Ok o => Some o
        | Err _ => None
        end)
     = Some (20000, 1000, 23000).
Proof. vm_compute. repeat split; discriminate. Qed.

(** ** Cross-checks at binary64 *)

(** The fee computed on doubles is the fee of the exact model on every
    integer subtotal from 0 to 20,100, on every multiple of 10 up to
    1,000,100 (every subtotal whose twentieth falls on a half is among
    them) and on every integer from 999,000 to 1,000,100 (the fee is at its
    maximum from 999,990 on). *)
Example binary64_platformFee_agrees :
  forallb
    (fun x => PrimFloat.eqb
                (Binary64.calculatePlatformFee (Binary64.ofInt x))
                (Binary64.ofInt (calculatePlatformFee x)))
    (Binary64.integersFrom (Z.to_nat 20101) 0
     ++ map (Z.mul 10) (Binary64.integersFrom (Z.to_nat 100011) 0)
     ++ Binary64.integersFrom (Z.to_nat 1101) 999000)%list
  = true.
Proof. vm_compute. reflexivity. Qed.

(** The feedback sequence of the counterexample, on doubles: verified after
    three accurate answers, still verified after one inaccurate answer,
    not verified after a second one. *)
Example binary64_isVerified_reverts :
  let start : Binary64.Feedback := (None, 0, false) in
  snd (fold_left Binary64.submitFeedback [true; true; true] start) = true
  /\ snd (fold_left Binary64.submitFeedback [true; true; true; false] start)
     = true
  /\ snd (fold_left Binary64.submitFeedback
            [true; true; true; false; false] start) = false.
Proof. vm_compute. repeat split. Qed.

(* ================================================================== *)
(** * Part II, continued: further properties of the code *)
(* ================================================================== *)

(** ** Haversine distance: symmetry *)

(** X1. The haversine distance is symmetric in its two points, and the
    distance between a point and itself is 0. *)
Theorem calculateDistance_symmetric (p q : LatLng) :
  calculateDistance p q = calculateDistance q p
  /\ calculateDistance p p = 0%R.
Proof.
  split; [| apply calculateDistance_self].
  unfold calculateDistance.
  replace ((lat q - lat p) * PI / 180 / 2)%R
    with (- ((lat p - lat q) * PI / 180 / 2))%R by field.
  replace ((lng q - lng p) * PI / 180 / 2)%R
    with (- ((lng p - lng q) * PI / 180 / 2))%R by field.
  rewrite !sin_neg.
  replace (- sin ((lat p - lat q) * PI / 180 / 2)
           * - sin ((lat p - lat q) * PI / 180 / 2)
           + cos (lat p * PI / 180) * cos (lat q * PI / 180)
             * - sin ((lng p - lng q) * PI / 180 / 2)
             * - sin ((lng p - lng q) * PI / 180 / 2))%R
    with (sin ((lat p - lat q) * PI / 180 / 2)
          * sin ((lat p - lat q) * PI / 180 / 2)
          + cos (lat q * PI / 180) * cos (lat p * PI / 180)
            * sin ((lng p - lng q) * PI / 180 / 2)
            * sin ((lng p - lng q) * PI / 180 / 2))%R by ring.
  reflexivity.
Qed.

(** ** Scout confidence *)

Lemma Math_round_thousandths (n : Z) (q : Q) :
  (q + (1 # 2) == n # 1000)%Q -> Math_round q = n / 1000.
Proof.
  intros H. unfold Math_round. rewrite H. reflexivity.
Qed.

Lemma calculateConfidence_cents (rep : Z) :
  calculateConfidence rep
  = (inject_Z ((50500 + 45 * Z.min rep 1000) / 1000) / inject_Z 100)%Q.
Proof.
  unfold calculateConfidence. f_equal. f_equal.
  apply Math_round_thousandths.
  unfold Math_min_Q.
  destruct (Qle_bool (inject_Z rep / inject_Z 1000) 1) eqn:E.
  - apply Qle_bool_iff in E. unfold Qle in E. cbn in E.
    rewrite Z.min_l by lia.
    rewrite (Qmake_Qdiv (50500 + 45 * rep) 1000), inject_Z_plus, inject_Z_mult.
    field.
  - assert (Hgt : ~ (inject_Z rep / inject_Z 1000 <= 1)%Q).
    { intros H. apply Qle_bool_iff in H. congruence. }
    unfold Qle in Hgt. cbn in Hgt.
    rewrite Z.min_r by lia. reflexivity.
Qed.

(** X3. For a reputation that is not negative the confidence lies between
    0.5 and 0.95; it is 0.5 at reputation 0 and 0.95 from reputation 1000
    on; and it never decreases when the reputation grows. *)
Theorem calculateConfidence_bounds_monotone (rep : Z) (Hrep : 0 <= rep) :
  ((1 # 2) <= calculateConfidence rep <= (95 # 100))%Q
  /\ (calculateConfidence 0 == (1 # 2))%Q
  /\ (1000 <= rep -> (calculateConfidence rep == (95 # 100))%Q)
  /\ (forall rep', rep <= rep' ->
        (calculateConfidence rep <= calculateConfidence rep')%Q).
Proof.
  rewrite !calculateConfidence_cents.
  assert (Hc : forall r, 0 <= r ->
             50 <= (50500 + 45 * Z.min r 1000) / 1000 <= 95).
  { intros r Hr. split.
    - apply Z.div_le_lower_bound; lia.
    - assert ((50500 + 45 * Z.min r 1000) / 1000 < 96)
        by (apply Z.div_lt_upper_bound; lia).
      lia. }
  assert (Hq : forall a b, a <= b ->
             (inject_Z a / inject_Z 100 <= inject_Z b / inject_Z 100)%Q).
  { intros a b Hab. unfold Qle, Qdiv, Qmult, Qinv, inject_Z. cbn. lia. }
  split; [split|split; [|split]].
  - apply (Qle_trans _ (inject_Z 50 / inject_Z 100));
      [unfold Qle; cbn; lia|].
    apply Hq. now apply Hc.
  - apply (Qle_trans _ (inject_Z 95 / inject_Z 100));
      [|unfold Qle; cbn; lia].
    apply Hq. now apply Hc.
  - vm_compute. reflexivity.
  - intros H. rewrite Z.min_r by lia. vm_compute. reflexivity.
  - intros rep' Hle. rewrite calculateConfidence_cents.
    apply Hq. apply Z.div_le_mono; lia.
Qed.

Lemma calculateConfidence_bounds_monotone_witness :
  0 <= 450
  /\ (calculateConfidence 450 == (70 # 100))%Q
  /\ (calculateConfidence 450 <= calculateConfidence 1000)%Q.
Proof.
  split; [lia|]. split; [vm_compute; reflexivity|].
  apply (calculateConfidence_bounds_monotone 450); lia.
Defined.

(** On every integer reputation from 0 to 1200 the confidence computed on
    doubles is the double nearest to the exact value. *)
Example binary64_calculateConfidence_agrees :
  forallb
    (fun rep =>
       PrimFloat.eqb
         (Binary64Confidence.calculateConfidence (Binary64.ofInt rep))
         (Binary64.ofInt
            (Qnum (Qred (calculateConfidence rep * inject_Z 100)))
          / 100)%float)
    (Binary64.integersFrom (Z.to_nat 1201) 0)
  = true.
Proof. vm_compute. reflexivity. Qed.


(** ** Pagination *)

Lemma firstn_plus {A} (n m : nat) (l : list A) :
  firstn (n + m) l = (firstn n l ++ firstn m (skipn n l))%list.
Proof.
  revert l. induction n as [|n IH]; intros l; simpl; [reflexivity|].
  destruct l as [|x l]; simpl.
  - now rewrite firstn_nil.
  - now rewrite IH.
Qed.

Lemma slice_window {A} (items : list A) (start finish : Z) :
  0 <= start <= finish ->
  slice items start finish
  = firstn (Z.to_nat (finish - start)) (skipn (Z.to_nat start) items).
Proof.
  intros H. unfold slice.
  destruct (Z.ltb_spec start 0); [lia|].
  destruct (Z.ltb_spec finish 0); [lia|].
  set (len := Z.of_nat (List.length items)).
  destruct (Z.le_gt_cases len start) as [Hbig | Hsmall].
  - rewrite (Z.min_r start len) by lia.
    rewrite (skipn_all2 items) by (unfold len; lia).
    rewrite (skipn_all2 items) by (unfold len in Hbig; lia).
    now rewrite !firstn_nil.
  - rewrite (Z.min_l start len) by lia.
    destruct (Z.le_gt_cases finish len) as [Hf | Hf].
    + now rewrite Z.min_l by lia.
    + rewrite Z.min_r by lia.
      rewrite !firstn_all2; try reflexivity; rewrite length_skipn;
        unfold len in *; lia.
Qed.

Lemma allPages_firstn {A} (items : list A) (limit : Z) (n : nat) :
  1 <= limit ->
  allPages items limit n = firstn (n * Z.to_nat limit) items.
Proof.
  intros Hl. unfold allPages.
  induction n as [|n IH].
  - reflexivity.
  - rewrite seq_S, flat_map_app, IH. cbn [flat_map]. rewrite app_nil_r.
    unfold paginate. cbn [Paginated.data].
    replace (Z.of_nat (1 + n) - 1) with (Z.of_nat n) by lia.
    assert (0 <= Z.of_nat n * limit) by nia.
    rewrite slice_window by lia.
    replace (Z.to_nat (Z.of_nat n * limit + limit - Z.of_nat n * limit))
      with (Z.to_nat limit) by lia.
    replace (Z.to_nat (Z.of_nat n * limit))
      with (n * Z.to_nat limit)%nat by nia.
    rewrite <- firstn_plus. f_equal. lia.
Qed.

(** X4. With a page size of at least 1: every page from 1 on holds at most
    [limit] items; the number of pages is the length divided by the page
    size, rounded up; the pages 1 to [totalPages], one after the other, are
    the list itself; and every later page is empty. *)
Theorem paginate_pages_partition {A} (items : list A) (limit : Z)
  (Hlimit : 1 <= limit) :
  let len := Z.of_nat (List.length items) in
  let pages := (len + limit - 1) / limit in
  (forall page, 1 <= page ->
     Z.of_nat (List.length (Paginated.data (paginate items page limit)))
     <= limit
     /\ Paginated.total (paginate items page limit) = len
     /\ Paginated.totalPages (paginate items page limit) = Finite pages)
  /\ allPages items limit (Z.to_nat pages) = items
  /\ (forall page, pages < page ->
        Paginated.data (paginate items page limit) = []).
Proof.
  intros len pages.
  assert (Hp : 0 <= pages /\ len <= pages * limit).
  { unfold pages.
    pose proof (Z.div_mod (len + limit - 1) limit ltac:(lia)) as Hdm.
    pose proof (Z.mod_pos_bound (len + limit - 1) limit ltac:(lia)) as Hm.
    assert (0 <= len) by (unfold len; lia).
    split; nia. }
  split; [|split].
  - intros page Hpage. unfold paginate. cbn. fold len.
    rewrite slice_window by nia. split; [|split].
    + rewrite length_firstn. lia.
    + reflexivity.
    + unfold ceilQuotient. destruct (Z.eqb_spec limit 0); [lia|].
      f_equal. unfold pages.
      pose proof (Z.div_mod (- len) limit ltac:(lia)) as Hdm.
      pose proof (Z.mod_pos_bound (- len) limit ltac:(lia)) as Hm.
      apply Z.div_unique_pos with (r := limit - 1 - (- len) mod limit);
        [lia | nia].
  - rewrite allPages_firstn by exact Hlimit.
    apply firstn_all2. fold len in Hp |- *.
    assert (Z.of_nat (List.length items) <= Z.of_nat (Z.to_nat pages * Z.to_nat limit))
      by (rewrite Nat2Z.inj_mul, !Z2Nat.id; lia).
    lia.
  - intros page Hpage. unfold paginate. cbn.
    rewrite slice_window by nia.
    rewrite skipn_all2; [now rewrite firstn_nil|].
    assert (len <= (page - 1) * limit) by nia.
    unfold len in *. lia.
Qed.

Lemma paginate_pages_partition_witness :
  1 <= 2
  /\ allPages [10; 20; 30; 40; 50] 2 3 = [10; 20; 30; 40; 50]
  /\ Paginated.data (paginate [10; 20; 30; 40; 50] 3 2) = [50].
Proof.
  split; [lia|]. split; [| reflexivity].
  apply (paginate_pages_partition [10; 20; 30; 40; 50] 2). lia.
Defined.


(** ** Phone numbers *)

Lemma keepChars_allChars (keep : ascii -> bool) (s : string) :
  allChars keep s = true -> keepChars keep s = s.
Proof.
  induction s as [|c s IH]; simpl; [reflexivity|].
  intros H. apply andb_true_iff in H. destruct H as [Hc Hs].
  rewrite Hc. now rewrite IH.
Qed.

Lemma allDigits_allChars (s : string) : allDigits s = allChars isDigit s.
Proof. induction s as [|c s IH]; simpl; [reflexivity | now rewrite IH]. Qed.

Lemma keepChars_digits (s : string) :
  allDigits (keepChars isDigit s) = true.
Proof.
  induction s as [|c s IH]; simpl; [reflexivity|].
  destruct (isDigit c) eqn:E; simpl; [now rewrite E | exact IH].
Qed.

Lemma dropLeadingZeros_nonzero (c : ascii) (s : string) :
  c <> "0"%char -> dropLeadingZeros (String c s) = String c s.
Proof.
  destruct c as [[] [] [] [] [] [] [] []]; try reflexivity.
  intros H. exfalso. apply H. reflexivity.
Qed.

Lemma dropLeadingZeros_digits (s : string) :
  allDigits s = true -> allDigits (dropLeadingZeros s) = true.
Proof.
  induction s as [|c s IH]; [reflexivity|].
  intros H. cbn [allDigits] in H.
  apply andb_true_iff in H. destruct H as [Hc Hs].
  destruct (Ascii.eqb_spec c "0"%char) as [-> | Hne].
  - change (dropLeadingZeros (String "0" s)) with (dropLeadingZeros s).
    now apply IH.
  - rewrite dropLeadingZeros_nonzero by exact Hne. cbn [allDigits].
    now rewrite Hc, Hs.
Qed.

Lemma allChars_weaken (f g : ascii -> bool) (s : string) :
  (forall c, f c = true -> g c = true) ->
  allChars f s = true -> allChars g s = true.
Proof.
  intros Hfg. induction s as [|c s IH]; simpl; [reflexivity|].
  intros H. apply andb_true_iff in H. destruct H as [Hc Hs].
  now rewrite (Hfg c Hc), IH.
Qed.

Lemma prefix_app (p d : string) : String.prefix p (p ++ d) = true.
Proof.
  induction p as [|a p IH]; simpl; [now destruct d|].
  destruct (ascii_dec a a); [exact IH | contradiction].
Qed.

Lemma prefix_split (p s : string) :
  String.prefix p s = true -> exists d, s = p ++ d.
Proof.
  revert s. induction p as [|a p IH]; intros s H.
  - exists s. reflexivity.
  - destruct s as [|b s]; simpl in H; [discriminate|].
    destruct (ascii_dec a b) as [<- |]; [|discriminate].
    destruct (IH s H) as [d ->]. exists d. reflexivity.
Qed.

(** The text that [normalizePhone] puts after the plus sign. *)
Lemma normalizePhone_shape (phone : string) :
  exists d, normalizePhone phone = "+232" ++ d /\ allDigits d = true.
Proof.
  unfold normalizePhone.
  set (c := dropLeadingZeros (keepChars isDigit phone)).
  assert (Hc : allDigits c = true)
    by (apply dropLeadingZeros_digits, keepChars_digits).
  destruct (String.prefix "232" c) eqn:E.
  - destruct (prefix_split _ _ E) as [d Hd]. rewrite Hd in Hc |- *.
    exists d. split; [reflexivity|]. simpl in Hc. exact Hc.
  - exists c. split; [reflexivity | exact Hc].
Qed.

(** X5. [normalizePhone] always answers a plus sign, the country code 232
    and then digits only; applied to its own result it changes nothing. *)
Theorem normalizePhone_idempotent (phone : string) :
  normalizePhone (normalizePhone phone) = normalizePhone phone
  /\ exists d, normalizePhone phone = "+232" ++ d /\ allDigits d = true.
Proof.
  split; [| apply normalizePhone_shape].
  destruct (normalizePhone_shape phone) as [d [-> Hd]].
  unfold normalizePhone. simpl keepChars.
  rewrite keepChars_allChars by (now rewrite <- allDigits_allChars).
  rewrite dropLeadingZeros_nonzero by discriminate.
  change (String "2" (String "3" (String "2" d))) with ("232" ++ d).
  now rewrite prefix_app.
Qed.

Lemma eightDigits_parts (d : string) :
  eightDigits d = true -> allDigits d = true /\ String.length d = 8%nat.
Proof.
  unfold eightDigits. intros H. apply andb_true_iff in H.
  destruct H as [Hl Hd]. apply Nat.eqb_eq in Hl. now split.
Qed.

(** X6. A local number of eight digits that begins neither with 0 nor with
    232 is accepted by [validatePhone] in each of the four formats, bare,
    with a leading 0, with 232 and with +232, and [normalizePhone] maps all
    four to the same international number. *)
Theorem normalizePhone_formats_agree (d : string)
  (Hdigits : eightDigits d = true)
  (Hzero : String.prefix "0" d = false)
  (Hcode : String.prefix "232" d = false) :
  Forall (fun s => validatePhone s = true
                   /\ normalizePhone s = "+232" ++ d)
         [d; "0" ++ d; "232" ++ d; "+232" ++ d].
Proof.
  destruct (eightDigits_parts d Hdigits) as [Hall Hlen].
  assert (Hkeep : keepChars isDigit d = d)
    by (apply keepChars_allChars; now rewrite <- allDigits_allChars).
  assert (Hkeep' : keepChars isDigitOrPlus d = d).
  { apply keepChars_allChars.
    apply (allChars_weaken isDigit); [| now rewrite <- allDigits_allChars].
    intros c Hc. unfold isDigitOrPlus. now rewrite Hc. }
  assert (Hdrop : dropLeadingZeros d = d).
  { destruct d as [|c d]; [reflexivity|]. simpl in Hzero |- *.
    destruct (Ascii.eqb_spec "0"%char c) as [<- | Hne].
    - destruct d; discriminate.
    - apply dropLeadingZeros_nonzero. congruence. }
  assert (Hv : forall lead,
             In lead ["+232"; "232"; "0"; ""] ->
             validatePhone (lead ++ d) = true).
  { intros lead Hin. unfold validatePhone. fold isDigitOrPlus.
    apply existsb_exists. exists lead. split; [exact Hin|].
    simpl in Hin.
    destruct Hin as [<- | [<- | [<- | [<- | []]]]]; simpl;
      rewrite Hkeep'; exact Hdigits. }
  repeat constructor.
  - apply (Hv ""). simpl. tauto.
  - unfold normalizePhone. now rewrite Hkeep, Hdrop, Hcode.
  - apply (Hv "0"). simpl. tauto.
  - unfold normalizePhone. simpl keepChars. rewrite Hkeep.
    simpl dropLeadingZeros. now rewrite Hdrop, Hcode.
  - apply (Hv "232"). simpl. tauto.
  - unfold normalizePhone. simpl keepChars. rewrite Hkeep.
    rewrite dropLeadingZeros_nonzero by discriminate.
    change (String "2" (String "3" (String "2" d))) with ("232" ++ d).
    now rewrite prefix_app.
  - apply (Hv "+232"). simpl. tauto.
  - unfold normalizePhone. simpl keepChars. rewrite Hkeep.
    rewrite dropLeadingZeros_nonzero by discriminate.
    change (String "2" (String "3" (String "2" d))) with ("232" ++ d).
    now rewrite prefix_app.
Qed.

Lemma normalizePhone_formats_agree_witness :
  Forall (fun s => validatePhone s = true
                   /\ normalizePhone s = "+23276123456")
         ["76123456"; "076123456"; "23276123456"; "+23276123456"].
Proof.
  apply (normalizePhone_formats_agree "76123456"); reflexivity.
Defined.

Lemma eightDigitsAfter_allChars (lead s : string) :
  allChars isDigitOrPlus lead = true ->
  eightDigitsAfter lead s = true -> allChars isDigitOrPlus s = true.
Proof.
  revert s. induction lead as [|a lead IH]; intros s Hlead H.
  - destruct s; simpl in H;
      (apply eightDigits_parts in H; destruct H as [H _];
       apply (allChars_weaken isDigit);
       [intros c Hc; unfold isDigitOrPlus; now rewrite Hc
       | now rewrite <- allDigits_allChars]).
  - destruct s as [|b s]; simpl in *; [discriminate|].
    apply andb_true_iff in H. destruct H as [Hab H].
    apply andb_true_iff in Hlead. destruct Hlead as [Ha Hlead].
    apply Ascii.eqb_eq in Hab. subst b. now rewrite Ha, (IH s).
Qed.

(** X7. A text that the request schema [phoneSchema] accepts is always
    accepted by [validatePhone]; the converse fails, since [validatePhone]
    ignores spaces and other separators. *)
Theorem phoneSchema_implies_validatePhone :
  (forall phone, phoneSchema phone = true -> validatePhone phone = true)
  /\ validatePhone "076 123 456" = true
  /\ phoneSchema "076 123 456" = false.
Proof.
  split; [| split; reflexivity].
  intros phone H. unfold validatePhone. fold isDigitOrPlus.
  rewrite keepChars_allChars; [exact H|].
  unfold phoneSchema in H. apply existsb_exists in H.
  destruct H as [lead [Hin H]].
  apply (eightDigitsAfter_allChars lead); [| exact H].
  simpl in Hin. destruct Hin as [<- | [<- | [<- | [<- | []]]]]; reflexivity.
Qed.

(** ** Orders: what a request can do to an order row *)

Arguments Lifecycle.mayNotCancel : simpl never.
Arguments Lifecycle.paymentCompleted : simpl never.
Arguments Lifecycle.cancellableStatuses : simpl never.
Arguments Orders.ofOrder : simpl never.

(** Unfolds the pre-handlers as well. *)
Ltac run2 := run; unfold throwIf, throw, ret in *; cbn in *.

(** Splits on the scrutinees of a handler until its outcome is explicit. *)
Ltac cases :=
  repeat match goal with
    | |- context [match ?x with _ => _ end] =>
        lazymatch x with
        | context [match _ with _ => _ end] => fail
        | _ => destruct x eqn:?; cbn
        end
    end.

(** Closes the branch in which the handler rewrote the row. *)
Ltac changed :=
  right; rewrite ?negb_false_iff in *; eexists;
  repeat split;
  first [reflexivity | eassumption | now apply OrderStatus_eqb_eq
        | congruence].

Lemma createOrder_orders (user : AuthUser) (body : Orders.CreateOrderBody)
  (newId : Id) (db : Db) :
  orders (snd (Orders.createOrder user body newId db)) = orders db
  \/ exists order,
       orders (snd (Orders.createOrder user body newId db))
       = (orders db ++ [order])%list.
Proof.
  unfold Orders.createOrder. run2. cases; eauto.
Qed.

Lemma updateStatus_orders (user : AuthUser) (id : Id)
  (status : OrderStatus.t) (now : Z) (db : Db) :
  orders (snd (Orders.updateStatus user id status now db)) = orders db
  \/ exists order,
       findUnique Order.id id (orders db) = Some order
       /\ Orders.updateStatusSchema status = true
       /\ OrderStatus.includes (Orders.validTransitions (Order.status order))
            status = true
       /\ orders (snd (Orders.updateStatus user id status now db))
          = updateRows Order.id id
              (Order.apply (Orders.updateData status now)) (orders db).
Proof.
  unfold Orders.updateStatus. run2. cases; auto; changed.
Qed.

Lemma confirmDelivery_orders (user : AuthUser) (id : Id) (now : Z)
  (db : Db) :
  orders (snd (Orders.confirmDelivery user id now db)) = orders db
  \/ exists order,
       findUnique Order.id id (orders db) = Some order
       /\ Order.status order = OrderStatus.DELIVERED
       /\ orders (snd (Orders.confirmDelivery user id now db))
          = updateRows Order.id id
              (Order.apply (Orders.completedData now)) (orders db).
Proof.
  unfold Orders.confirmDelivery. run2. cases; auto; changed.
Qed.

Lemma cancel_orders (user : AuthUser) (id : Id)
  (body : option (option string)) (db : Db) :
  orders (snd (Lifecycle.cancel user id body db)) = orders db
  \/ exists order,
       findUnique Order.id id (orders db) = Some order
       /\ OrderStatus.includes Lifecycle.cancellableStatuses
            (Order.status order) = true
       /\ orders (snd (Lifecycle.cancel user id body db))
          = updateRows Order.id id (Order.apply Lifecycle.cancelledData)
              (orders db).
Proof.
  unfold Lifecycle.cancel. run2. cases; auto; changed.
Qed.

Lemma initiatePayment_orders (user : AuthUser) (orderId : Id)
  (provider : PaymentProvider) (newId : Id) (now : Z) (db : Db) :
  orders (snd (Lifecycle.initiatePayment user orderId provider newId now db))
  = orders db.
Proof.
  unfold Lifecycle.initiatePayment. run2. cases; reflexivity.
Qed.

Lemma updated_row (id id0 : Id) (f : Order.t -> Order.t) (t : list Order.t)
  (o : Order.t) :
  (forall r, Order.id (f r) = Order.id r) ->
  findUnique Order.id id t = Some o ->
  findUnique Order.id id (updateRows Order.id id0 f t)
  = Some (if String.eqb id0 id then f o else o).
Proof.
  intros Hk Ho. destruct (String.eqb_spec id0 id) as [-> | Hne].
  - rewrite findUnique_updateRows_same by exact Hk. now rewrite Ho.
  - rewrite findUnique_updateRows_other by assumption. exact Ho.
Qed.

Lemma handle_step (r : Lifecycle.Request) (db : Db) (id : Id) (o : Order.t) :
  findUnique Order.id id (orders db) = Some o ->
  exists o',
    findUnique Order.id id (orders (Lifecycle.handle r db)) = Some o'
    /\ (o' = o \/ Lifecycle.orderStep o o').
Proof.
  intros Ho. destruct r as [u b n | u i s n | u i n | u i b | u i p n t];
    cbn [Lifecycle.handle].
  - destruct (createOrder_orders u b n db) as [-> | [order ->]].
    + eauto.
    + exists o. split; [now apply findUnique_app_found | now left].
  - destruct (updateStatus_orders u i s n db)
      as [-> | (order & Hf & Hs & Hi & ->)]; [eauto|].
    rewrite (updated_row id i _ _ o) by (reflexivity || assumption).
    destruct (String.eqb_spec i id) as [-> | _]; [| eauto].
    eexists. split; [reflexivity|]. right.
    assert (order = o) by congruence. subst order.
    now constructor.
  - destruct (confirmDelivery_orders u i n db)
      as [-> | (order & Hf & Hs & ->)]; [eauto|].
    rewrite (updated_row id i _ _ o) by (reflexivity || assumption).
    destruct (String.eqb_spec i id) as [-> | _]; [| eauto].
    eexists. split; [reflexivity|]. right.
    assert (order = o) by congruence. subst order.
    now constructor.
  - destruct (cancel_orders u i b db)
      as [-> | (order & Hf & Hs & ->)]; [eauto|].
    rewrite (updated_row id i _ _ o) by (reflexivity || assumption).
    destruct (String.eqb_spec i id) as [-> | _]; [| eauto].
    eexists. split; [reflexivity|]. right.
    assert (order = o) by congruence. subst order.
    now constructor.
  - rewrite initiatePayment_orders. eauto.
Qed.

Lemma handleAll_evolves (rs : list Lifecycle.Request) :
  forall (db : Db) (id : Id) (o : Order.t),
    findUnique Order.id id (orders db) = Some o ->
    exists o',
      findUnique Order.id id (orders (Lifecycle.handleAll rs db)) = Some o'
      /\ Lifecycle.evolves o o'.
Proof.
  unfold Lifecycle.handleAll.
  induction rs as [|r rs IH]; intros db id o Ho; simpl.
  - exists o. split; [exact Ho | constructor].
  - destruct (handle_step r db id o Ho) as [o1 [H1 Hs]].
    destruct (IH _ id o1 H1) as [o' [H' He]].
    exists o'. split; [exact H'|].
    destruct Hs as [-> | Hs]; [exact He | econstructor; eassumption].
Qed.

Lemma orderStep_core (o o' : Order.t) :
  Lifecycle.orderStep o o' -> Lifecycle.core o' = Lifecycle.core o.
Proof. intros []; reflexivity. Qed.

Lemma orderStep_status (o o' : Order.t) :
  Lifecycle.orderStep o o' ->
  match Order.status o with
  | OrderStatus.PENDING =>
      Order.status o' = OrderStatus.PAYMENT_PENDING
      \/ Order.status o' = OrderStatus.CANCELLED
  | OrderStatus.ACCEPTED | OrderStatus.PAID =>
      Order.status o' = OrderStatus.PREPARING
      \/ Order.status o' = OrderStatus.CANCELLED
  | OrderStatus.PAYMENT_PENDING => Order.status o' = OrderStatus.CANCELLED
  | OrderStatus.PREPARING =>
      Order.status o' = OrderStatus.OUT_FOR_DELIVERY
      \/ Order.status o' = OrderStatus.CANCELLED
  | OrderStatus.OUT_FOR_DELIVERY => Order.status o' = OrderStatus.DELIVERED
  | OrderStatus.DELIVERED => Order.status o' = OrderStatus.COMPLETED
  | OrderStatus.COMPLETED | OrderStatus.CANCELLED | OrderStatus.REFUNDED =>
      False
  end.
Proof.
  intros [status now Hs Hi | now Hd | Hc].
  - destruct (Order.status o) eqn:E, status; try discriminate;
      unfold Order.apply, Orders.updateData; cbn; auto.
  - rewrite Hd. reflexivity.
  - destruct (Order.status o) eqn:E; try discriminate;
      unfold Order.apply; cbn; auto.
Qed.

Lemma evolves_final (o o' : Order.t) :
  Lifecycle.evolves o o' ->
  In (Order.status o)
     [OrderStatus.COMPLETED; OrderStatus.CANCELLED; OrderStatus.REFUNDED] ->
  o' = o.
Proof.
  intros [o0 | o0 o1 o2 Hs _] Hfinal; [reflexivity|].
  apply orderStep_status in Hs. cbn in Hfinal.
  destruct Hfinal as [E | [E | [E | []]]]; rewrite <- E in Hs;
    contradiction.
Qed.

(** Uses what the agreement of timestamps and status says about a row. *)
Ltac stamps :=
  repeat match goal with
    | H : ?a <> None -> _ |- _ =>
        first [ specialize (H ltac:(discriminate)) | clear H ]
    end;
  repeat split; intros; intuition (try discriminate; try congruence).

Lemma orderStep_stamped (o o' : Order.t) :
  Lifecycle.orderStep o o' -> Lifecycle.stamped o ->
  Lifecycle.stamped o' /\ Lifecycle.keepsStamps o o'.
Proof.
  unfold Lifecycle.stamped, Lifecycle.keepsStamps.
  intros [status now Hs Hi | now Hd | Hc] (Ha & Hd' & Hc').
  - destruct (Order.status o) eqn:E, status; try discriminate;
      unfold Order.apply, Orders.updateData, Order.orKeep, Order.orElse;
      cbn;
      destruct (Order.acceptedAt o) eqn:A, (Order.deliveredAt o) eqn:D,
        (Order.completedAt o) eqn:C; stamps.
  - unfold Order.apply, Orders.completedData, Order.orKeep, Order.orElse;
      cbn. rewrite Hd in *.
    destruct (Order.completedAt o) eqn:C; stamps.
  - destruct (Order.status o) eqn:E; try discriminate;
      unfold Order.apply, Lifecycle.cancelledData, Order.orKeep,
        Order.orElse; cbn;
      destruct (Order.deliveredAt o) eqn:D, (Order.completedAt o) eqn:C;
      stamps.
Qed.

Lemma evolves_stamped (o o' : Order.t) :
  Lifecycle.evolves o o' -> Lifecycle.stamped o ->
  Lifecycle.stamped o' /\ Lifecycle.keepsStamps o o'.
Proof.
  induction 1 as [o | o o1 o2 Hs _ IH]; intros Hst.
  - split; [exact Hst|]. unfold Lifecycle.keepsStamps. auto.
  - destruct (orderStep_stamped _ _ Hs Hst) as [H1 (Ka & Kd & Kc)].
    destruct (IH H1) as [H2 (Ka' & Kd' & Kc')].
    split; [exact H2|]. unfold Lifecycle.keepsStamps. auto.
Qed.

(** X8. Whatever requests follow (order creation, status update, delivery
    confirmation, cancellation, payment initiation, answered or refused),
    an order of the store is still there afterwards, with the same id,
    customer, vendor, address, line items, subtotal, fees and total. *)
Theorem orders_keep_identity_and_pricing
  (rs : list Lifecycle.Request) (db : Db) (id : Id) (o : Order.t)
  (Horder : findUnique Order.id id (orders db) = Some o) :
  exists o',
    findUnique Order.id id (orders (Lifecycle.handleAll rs db)) = Some o'
    /\ Lifecycle.core o' = Lifecycle.core o.
Proof.
  destruct (handleAll_evolves rs db id o Horder) as [o' [H He]].
  exists o'. split; [exact H|].
  clear H Horder.
  induction He as [o | o o1 o2 Hs _ IH]; [reflexivity|].
  rewrite IH. now apply orderStep_core.
Qed.

Lemma orders_keep_identity_and_pricing_witness :
  findUnique Order.id "o1" (orders (Example.shop OrderStatus.PENDING))
  = Some (Example.order1 OrderStatus.PENDING)
  /\ exists o',
       findUnique Order.id "o1"
         (orders (Lifecycle.handleAll Lifecycle.sampleRequests
                    (Example.shop OrderStatus.PENDING))) = Some o'
       /\ Lifecycle.core o'
          = Lifecycle.core (Example.order1 OrderStatus.PENDING).
Proof.
  split; [reflexivity|].
  apply (orders_keep_identity_and_pricing Lifecycle.sampleRequests
           (Example.shop OrderStatus.PENDING) "o1").
  reflexivity.
Defined.

(** X9. One request changes the status of an order only along these
    edges: PENDING to PAYMENT_PENDING or CANCELLED; ACCEPTED or PAID to
    PREPARING or CANCELLED; PAYMENT_PENDING to CANCELLED; PREPARING to
    OUT_FOR_DELIVERY or CANCELLED; OUT_FOR_DELIVERY to DELIVERED; DELIVERED
    to COMPLETED. Otherwise the row is left exactly as it was. *)
Theorem request_moves_status_along_edges
  (r : Lifecycle.Request) (db : Db) (id : Id) (o : Order.t)
  (Horder : findUnique Order.id id (orders db) = Some o) :
  exists o',
    findUnique Order.id id (orders (Lifecycle.handle r db)) = Some o'
    /\ (o' = o
        \/ Lifecycle.edge (Order.status o) (Order.status o') = true).
Proof.
  destruct (handle_step r db id o Horder) as [o' [H Hs]].
  exists o'. split; [exact H|].
  destruct Hs as [-> | Hs]; [now left | right].
  apply orderStep_status in Hs.
  destruct (Order.status o); try contradiction;
    repeat (destruct Hs as [Hs | Hs]); rewrite Hs; reflexivity.
Qed.

Lemma request_moves_status_along_edges_witness :
  findUnique Order.id "o1" (orders (Example.shop OrderStatus.PREPARING))
  = Some (Example.order1 OrderStatus.PREPARING)
  /\ exists o',
       findUnique Order.id "o1"
         (orders (Lifecycle.handle
                    (Lifecycle.UpdateStatus Example.seller "o1"
                       OrderStatus.OUT_FOR_DELIVERY 1000)
                    (Example.shop OrderStatus.PREPARING))) = Some o'
       /\ (o' = Example.order1 OrderStatus.PREPARING
           \/ Lifecycle.edge OrderStatus.PREPARING (Order.status o') = true).
Proof.
  split; [reflexivity|].
  apply (request_moves_status_along_edges
           (Lifecycle.UpdateStatus Example.seller "o1"
              OrderStatus.OUT_FOR_DELIVERY 1000)
           (Example.shop OrderStatus.PREPARING) "o1"
           (Example.order1 OrderStatus.PREPARING)).
  reflexivity.
Defined.

(** X10. An order that is COMPLETED, CANCELLED or REFUNDED is final for the
    order routes and for payment initiation: after any sequence of order
    creations, status updates, delivery confirmations, cancellations and
    payment initiations its row is exactly what it was. (The payment
    webhook is not among these requests.) *)
Theorem final_orders_never_change
  (rs : list Lifecycle.Request) (db : Db) (id : Id) (o : Order.t)
  (Horder : findUnique Order.id id (orders db) = Some o)
  (Hfinal : In (Order.status o)
              [OrderStatus.COMPLETED; OrderStatus.CANCELLED;
               OrderStatus.REFUNDED]) :
  findUnique Order.id id (orders (Lifecycle.handleAll rs db)) = Some o.
Proof.
  destruct (handleAll_evolves rs db id o Horder) as [o' [H He]].
  rewrite H. f_equal. now apply evolves_final.
Qed.

Lemma final_orders_never_change_witness :
  findUnique Order.id "o1"
    (orders (Lifecycle.handleAll Lifecycle.sampleRequests
               (Example.shop OrderStatus.CANCELLED)))
  = Some (Example.order1 OrderStatus.CANCELLED).
Proof.
  apply (final_orders_never_change Lifecycle.sampleRequests
           (Example.shop OrderStatus.CANCELLED) "o1").
  - reflexivity.
  - right. left. reflexivity.
Defined.

(** X11. An order that waits for payment can only be cancelled by the order
    routes and payment initiation: after any sequence of order creations,
    status updates, delivery confirmations, cancellations and payment
    initiations it is either untouched or the same row with status
    CANCELLED. No status update by the vendor or an administrator moves it
    to PAID; only the payment webhook, which is not among these requests,
    does. *)
Theorem unpaid_order_only_cancellable
  (rs : list Lifecycle.Request) (db : Db) (id : Id) (o : Order.t)
  (Horder : findUnique Order.id id (orders db) = Some o)
  (Hunpaid : Order.status o = OrderStatus.PAYMENT_PENDING) :
  findUnique Order.id id (orders (Lifecycle.handleAll rs db)) = Some o
  \/ findUnique Order.id id (orders (Lifecycle.handleAll rs db))
     = Some (Order.apply Lifecycle.cancelledData o).
Proof.
  destruct (handleAll_evolves rs db id o Horder) as [o' [H He]].
  rewrite H.
  destruct He as [o | o o1 o2 Hs He]; [now left | right].
  assert (Ho1 : o1 = Order.apply Lifecycle.cancelledData o).
  { destruct Hs as [status now Hs Hi | now Hd | Hc].
    - rewrite Hunpaid in Hi. destruct status; discriminate.
    - congruence.
    - reflexivity. }
  subst o1. f_equal.
  apply evolves_final; [exact He|]. right. left. reflexivity.
Qed.

Lemma unpaid_order_only_cancellable_witness :
  findUnique Order.id "o1"
    (orders (Lifecycle.handleAll Lifecycle.sampleRequests
               (Example.shop OrderStatus.PAYMENT_PENDING)))
  = Some (Example.order1 OrderStatus.PAYMENT_PENDING)
  \/ findUnique Order.id "o1"
       (orders (Lifecycle.handleAll Lifecycle.sampleRequests
                  (Example.shop OrderStatus.PAYMENT_PENDING)))
     = Some (Order.apply Lifecycle.cancelledData
               (Example.order1 OrderStatus.PAYMENT_PENDING)).
Proof.
  apply (unpaid_order_only_cancellable Lifecycle.sampleRequests
           (Example.shop OrderStatus.PAYMENT_PENDING) "o1");
    reflexivity.
Defined.

(** X12. Timestamps follow the status and are written once. If an order's
    timestamps agree with its status (accepted orders are past PENDING,
    delivered ones are DELIVERED or COMPLETED, completed ones are
    COMPLETED), then after any sequence of order creations, status updates,
    delivery confirmations, cancellations and payment initiations they still
    agree, and every timestamp that was set has kept its value. *)
Theorem order_timestamps_written_once
  (rs : list Lifecycle.Request) (db : Db) (id : Id) (o : Order.t)
  (Horder : findUnique Order.id id (orders db) = Some o)
  (Hstamped : Lifecycle.stamped o) :
  exists o',
    findUnique Order.id id (orders (Lifecycle.handleAll rs db)) = Some o'
    /\ Lifecycle.stamped o' /\ Lifecycle.keepsStamps o o'.
Proof.
  destruct (handleAll_evolves rs db id o Horder) as [o' [H He]].
  exists o'. split; [exact H|]. now apply evolves_stamped.
Qed.

Lemma order_timestamps_written_once_witness :
  exists o',
    findUnique Order.id "o1"
      (orders (Lifecycle.handleAll Lifecycle.sampleRequests
                 (Example.shop OrderStatus.PENDING))) = Some o'
    /\ Lifecycle.stamped o'
    /\ Lifecycle.keepsStamps (Example.order1 OrderStatus.PENDING) o'.
Proof.
  apply (order_timestamps_written_once Lifecycle.sampleRequests
           (Example.shop OrderStatus.PENDING) "o1").
  - reflexivity.
  - unfold Lifecycle.stamped. cbn.
    repeat split; intros H; exfalso; apply H; reflexivity.
Defined.

(** ** Orders: cancellation *)

Lemma cancel_order_run (db : Db) (user : AuthUser) (id : Id)
  (reason : option string) (order : Order.t) (vendor : Vendor.t) :
  findUnique Order.id id (orders db) = Some order ->
  findUnique Vendor.id (Order.vendorId order) (vendors db) = Some vendor ->
  Lifecycle.cancel user id (Some reason) db =
    if Lifecycle.mayNotCancel user order vendor then
      (Err (forbidden "Access denied"), db)
    else if negb (OrderStatus.includes Lifecycle.cancellableStatuses
                    (Order.status order))
    then (Err (orderInvalidStatus (OrderStatus.name (Order.status order))
                                  "cancellable"), db)
    else
      (Ok tt,
       let db1 :=
         set_orders (updateRows Order.id id
                       (Order.apply Lifecycle.cancelledData)) db in
       match find (Orders.ofOrder order) (transactions db) with
       | Some x =>
           if Lifecycle.paymentCompleted (Some x) then
             set_transactions
               (updateRows Transaction.id (Transaction.id x)
                  Lifecycle.refunded) db1
           else db1
       | None => db1
       end).
Proof.
  intros Ho Hv. unfold Lifecycle.cancel. run. rewrite Ho. cbn.
  rewrite Hv. cbn.
  destruct (Lifecycle.mayNotCancel user order vendor); cbn; [reflexivity|].
  destruct (negb (OrderStatus.includes Lifecycle.cancellableStatuses
                    (Order.status order))); cbn; [reflexivity|].
  rewrite Ho. cbn.
  destruct (find (Orders.ofOrder order) (transactions db)) as [x|] eqn:Ex;
    [|reflexivity].
  destruct (Lifecycle.paymentCompleted (Some x)); [|reflexivity].
  apply find_some in Ex. destruct Ex as [Hin _].
  destruct (In_findUnique Transaction.id _ _ Hin) as [x' Hx'].
  cbn. autorewrite with store. rewrite Hx'. reflexivity.
Qed.

Lemma mayNotCancel_false (user : AuthUser) (order : Order.t)
  (vendor : Vendor.t) :
  Lifecycle.mayNotCancel user order vendor = false
  <-> (Order.customerId order = auth_id user
       \/ Vendor.userId vendor = auth_id user
       \/ auth_role user = ADMIN).
Proof.
  unfold Lifecycle.mayNotCancel.
  destruct (String.eqb_spec (Order.customerId order) (auth_id user));
    [cbn; tauto|].
  destruct (String.eqb_spec (Vendor.userId vendor) (auth_id user));
    [cbn; tauto|].
  destruct (auth_role user); cbn; split; intros H;
    try discriminate; try tauto;
    destruct H as [H | [H | H]]; congruence.
Qed.


(** X13. Cancelling an order. For a request with a body, on an order of the
    store whose vendor exists: the call succeeds exactly when the caller is
    the order's customer, the user of its vendor or an administrator, and
    the order is PENDING, ACCEPTED, PAYMENT_PENDING, PAID or PREPARING. A
    stranger is refused with Forbidden whatever the status; a permitted
    caller on a later status is refused with the invalid-status error. On
    success the order is the same row with status CANCELLED, and a second
    cancellation by the same caller is refused; a refused call leaves the
    store as it was. *)
Theorem cancel_order_permitted_and_early
  (db : Db) (user : AuthUser) (id : Id) (reason : option string)
  (order : Order.t) (vendor : Vendor.t)
  (Horder : findUnique Order.id id (orders db) = Some order)
  (Hvendor : findUnique Vendor.id (Order.vendorId order) (vendors db)
             = Some vendor) :
  let permitted :=
    Order.customerId order = auth_id user
    \/ Vendor.userId vendor = auth_id user
    \/ auth_role user = ADMIN in
  let early := In (Order.status order) Lifecycle.cancellableStatuses in
  let r := Lifecycle.cancel user id (Some reason) db in
  (succeeds r <-> permitted /\ early)
  /\ (~ permitted -> failsWith (forbidden "Access denied") r)
  /\ (permitted -> ~ early ->
      failsWith (orderInvalidStatus (OrderStatus.name (Order.status order))
                                    "cancellable") r)
  /\ (~ succeeds r -> snd r = db)
  /\ (succeeds r ->
      findUnique Order.id id (orders (snd r))
      = Some (Order.apply Lifecycle.cancelledData order)
      /\ failsWith (orderInvalidStatus "CANCELLED" "cancellable")
           (Lifecycle.cancel user id (Some reason) (snd r))).
Proof.
  intros permitted early r.
  assert (Hr := cancel_order_run db user id reason order vendor Horder Hvendor).
  fold r in Hr. clearbody r.
  pose proof (mayNotCancel_false user order vendor) as Hp.
  fold permitted in Hp.
  pose proof (enum_includes_In Lifecycle.cancellableStatuses
                (Order.status order)) as He.
  fold early in He.
  destruct (Lifecycle.mayNotCancel user order vendor) eqn:Em.
  { assert (Hn : ~ permitted) by (intros H; apply Hp in H; discriminate).
    assert (Hf : ~ succeeds r) by (rewrite Hr; intros [a Ha]; discriminate).
    repeat split; try tauto; intros; rewrite Hr; reflexivity. }
  assert (Hy : permitted) by now apply Hp.
  destruct (OrderStatus.includes Lifecycle.cancellableStatuses
              (Order.status order)) eqn:Ei; cbn in Hr.
  2:{ assert (Hn : ~ early) by (intros H; apply He in H; discriminate).
      assert (Hf : ~ succeeds r)
        by (rewrite Hr; intros [a Ha]; discriminate).
      repeat split; try tauto; intros; rewrite Hr; reflexivity. }
  assert (Hy' : early) by now apply He.
  assert (Hs : succeeds r) by (rewrite Hr; exists tt; reflexivity).
  assert (Ho' : findUnique Order.id id (orders (snd r))
                = Some (Order.apply Lifecycle.cancelledData order)).
  { rewrite Hr. cbn.
    destruct (find (Orders.ofOrder order) (transactions db)) as [x|];
      [destruct (Lifecycle.paymentCompleted (Some x))|];
      cbn; autorewrite with store;
      rewrite findUnique_updateRows_same by reflexivity;
      now rewrite Horder. }
  repeat split; try tauto.
  assert (Hv' : findUnique Vendor.id
                  (Order.vendorId (Order.apply Lifecycle.cancelledData
                                     order))
                  (vendors (snd r)) = Some vendor).
  { rewrite Hr. cbn.
    destruct (find (Orders.ofOrder order) (transactions db)) as [x|];
      [destruct (Lifecycle.paymentCompleted (Some x))|];
      exact Hvendor. }
  unfold failsWith.
  rewrite (cancel_order_run (snd r) user id reason _ vendor Ho' Hv').
  assert (Hm : Lifecycle.mayNotCancel user
                 (Order.apply Lifecycle.cancelledData order) vendor
               = false) by exact Em.
  rewrite Hm. reflexivity.
Qed.

Lemma cancel_order_permitted_and_early_witness :
  let r := Lifecycle.cancel Example.customer "o1" (Some None)
             (Example.shop OrderStatus.PAID) in
  succeeds r
  /\ findUnique Order.id "o1" (orders (snd r))
     = Some (Order.apply Lifecycle.cancelledData
               (Example.order1 OrderStatus.PAID))
  /\ transactions (snd r) = [Lifecycle.refunded Example.payment1].
Proof.
  pose proof (cancel_order_permitted_and_early
                (Example.shop OrderStatus.PAID) Example.customer "o1" None
                (Example.order1 OrderStatus.PAID) Example.vendor1
                eq_refl eq_refl) as (Hiff & _ & _ & _ & Hok).
  assert (Hs : succeeds (Lifecycle.cancel Example.customer "o1" (Some None)
                           (Example.shop OrderStatus.PAID))).
  { apply Hiff. split; [left; reflexivity|].
    right. right. right. left. reflexivity. }
  cbv zeta. split; [exact Hs|]. split; [exact (proj1 (Hok Hs))|].
  reflexivity.
Defined.




(** ** Payments: initiation *)

Lemma initiatePayment_run (db : Db) (user : AuthUser) (orderId : Id)
  (provider : PaymentProvider) (newId : Id) (now : Z) (order : Order.t) :
  findUnique Order.id orderId (orders db) = Some order ->
  Lifecycle.initiatePayment user orderId provider newId now db =
    if negb (String.eqb (Order.customerId order) (auth_id user)) then
      (Err (forbidden "Only the customer can pay for the order"), db)
    else if negb (OrderStatus.eqb (Order.status order)
                    OrderStatus.PAYMENT_PENDING)
    then (Err (orderInvalidStatus (OrderStatus.name (Order.status order))
                                  "PAYMENT_PENDING"), db)
    else
      match find (Orders.ofOrder order) (transactions db) with
      | Some _ =>
          (Err (validation [("orderId", "Payment already initiated")]), db)
      | None =>
          (Ok (Lifecycle.mkStarted newId provider (Order.totalAmount order)
                 (Lifecycle.instructionsFor provider) (now + 15 * 60 * 1000)),
           set_transactions
             (fun t => (t ++ [Transaction.mk newId orderId
                                TransactionStatus.PENDING EscrowStatus.NONE
                                None])%list) db)
      end.
Proof.
  intros Ho. unfold Lifecycle.initiatePayment. run. rewrite Ho. cbn.
  destruct (negb (String.eqb (Order.customerId order) (auth_id user)));
    cbn; [reflexivity|].
  destruct (negb (OrderStatus.eqb (Order.status order)
                    OrderStatus.PAYMENT_PENDING)); cbn; [reflexivity|].
  destruct (find (Orders.ofOrder order) (transactions db)); reflexivity.
Qed.

Lemma find_app_fresh {A} (f : A -> bool) (t : list A) (x : A) :
  find f t = None -> f x = true -> find f (t ++ [x]) = Some x.
Proof.
  intros Hn Hx. induction t as [|y t IH]; simpl in *.
  - now rewrite Hx.
  - destruct (f y); [discriminate | auto].
Qed.

(** X15. Initiating a payment. On an order of the store the call succeeds
    exactly when the caller is the order's customer, the order is
    PAYMENT_PENDING and it has no payment yet. It then quotes the order's
    total amount with the provider's instructions and an expiry 15 minutes
    ahead, adds one payment (PENDING, escrow NONE) for the order and leaves
    the orders alone; any further initiation for the order, with whatever
    provider, is refused with the already-initiated validation error. A
    refused call leaves the store as it was. *)
Theorem initiatePayment_once_for_total
  (db : Db) (user : AuthUser) (orderId : Id) (provider : PaymentProvider)
  (newId : Id) (now : Z) (order : Order.t)
  (Horder : findUnique Order.id orderId (orders db) = Some order) :
  let r := Lifecycle.initiatePayment user orderId provider newId now db in
  (succeeds r <->
   Order.customerId order = auth_id user
   /\ Order.status order = OrderStatus.PAYMENT_PENDING
   /\ find (Orders.ofOrder order) (transactions db) = None)
  /\ (~ succeeds r -> snd r = db)
  /\ (succeeds r ->
      fst r = Ok (Lifecycle.mkStarted newId provider
                    (Order.totalAmount order)
                    (Lifecycle.instructionsFor provider) (now + 900000))
      /\ orders (snd r) = orders db
      /\ transactions (snd r)
         = (transactions db
            ++ [Transaction.mk newId orderId TransactionStatus.PENDING
                  EscrowStatus.NONE None])%list
      /\ forall provider' newId' now',
           failsWith (validation [("orderId", "Payment already initiated")])
             (Lifecycle.initiatePayment user orderId provider' newId' now'
                (snd r))).
Proof.
  intros r.
  assert (Hr := initiatePayment_run db user orderId provider newId now order
                  Horder).
  fold r in Hr. clearbody r.
  destruct (String.eqb_spec (Order.customerId order) (auth_id user))
    as [Hc | Hc]; cbn in Hr.
  2:{ assert (Hf : ~ succeeds r)
        by (rewrite Hr; intros [a Ha]; discriminate).
      repeat split; try tauto; intros; rewrite Hr; reflexivity. }
  destruct (OrderStatus.eqb (Order.status order) OrderStatus.PAYMENT_PENDING)
    eqn:Es; cbn in Hr.
  2:{ assert (Hn : Order.status order <> OrderStatus.PAYMENT_PENDING)
        by (intros H; apply OrderStatus_eqb_eq in H; congruence).
      assert (Hf : ~ succeeds r)
        by (rewrite Hr; intros [a Ha]; discriminate).
      repeat split; try tauto; intros; rewrite Hr; reflexivity. }
  apply OrderStatus_eqb_eq in Es.
  destruct (find (Orders.ofOrder order) (transactions db)) as [x|] eqn:Ex.
  { assert (Hf : ~ succeeds r)
      by (rewrite Hr; intros [a Ha]; discriminate).
    repeat split; try tauto; intros; try (rewrite Hr; reflexivity).
    destruct H as (_ & _ & H). discriminate. }
  assert (Hs : succeeds r) by (rewrite Hr; eexists; reflexivity).
  repeat split; try tauto; try (rewrite Hr; reflexivity).
  intros provider' newId' now'. unfold failsWith.
  assert (Ho' : findUnique Order.id orderId (orders (snd r)) = Some order)
    by (rewrite Hr; exact Horder).
  rewrite (initiatePayment_run _ user orderId provider' newId' now' order Ho').
  rewrite <- Hc, String.eqb_refl, Es. cbn.
  rewrite Hr. cbn. erewrite find_app_fresh; [reflexivity | exact Ex |].
  unfold Orders.ofOrder. cbn. apply String.eqb_eq. symmetry.
  now apply (findUnique_key Order.id orderId (orders db)).
Qed.

Lemma initiatePayment_once_for_total_witness :
  let db := mkDb Example.people [Example.vendor1] [Example.product1]
              [Example.order1 OrderStatus.PAYMENT_PENDING] [] [] [] in
  let r := Lifecycle.initiatePayment Example.customer "o1" AFRICELL_MONEY
             "t9" 1000 db in
  fst r = Ok (Lifecycle.mkStarted "t9" AFRICELL_MONEY 23000
                "Dial *134# to approve payment" 901000)
  /\ failsWith (validation [("orderId", "Payment already initiated")])
       (Lifecycle.initiatePayment Example.customer "o1" CASH "t10" 2000
          (snd r)).
Proof.
  cbv zeta.
  pose proof (initiatePayment_once_for_total
                (mkDb Example.people [Example.vendor1] [Example.product1]
                   [Example.order1 OrderStatus.PAYMENT_PENDING] [] [] [])
                Example.customer "o1" AFRICELL_MONEY "t9" 1000
                (Example.order1 OrderStatus.PAYMENT_PENDING) eq_refl)
    as (Hiff & _ & Hok).
  cbv zeta in Hok.
  destruct Hok as (Ha & _ & _ & Hb).
  { apply Hiff. repeat split. }
  split; [exact Ha | apply Hb].
Defined.

(** ** Payments: the Orange Money webhook *)

(** X16. The webhook marks an order PAID whatever its status. When the
    webhook reports SUCCESS for a payment of the store whose order exists,
    it answers "received", the order is the same row with status PAID (also
    when it was CANCELLED, COMPLETED or PENDING before: the webhook reads no
    order status), and the payment is COMPLETED with escrow HELD. Any other
    reported status leaves every order as it was. *)
Theorem webhook_success_marks_order_paid
  (matches : Transaction.t -> bool) (db : Db) (x : Transaction.t)
  (o : Order.t)
  (Hpayment : find matches (transactions db) = Some x)
  (Horder : findUnique Order.id (Transaction.orderId x) (orders db)
            = Some o) :
  let r := Lifecycle.webhookOrange matches (Some true) db in
  fst r = Lifecycle.Received
  /\ findUnique Order.id (Transaction.orderId x) (orders (snd r))
     = Some (Order.apply Lifecycle.paidData o)
  /\ Order.status (Order.apply Lifecycle.paidData o) = OrderStatus.PAID
  /\ (exists x',
        findUnique Transaction.id (Transaction.id x) (transactions (snd r))
        = Some x'
        /\ Transaction.status x' = TransactionStatus.COMPLETED
        /\ Transaction.escrowStatus x' = EscrowStatus.HELD)
  /\ orders (snd (Lifecycle.webhookOrange matches (Some false) db))
     = orders db.
Proof.
  cbv zeta. unfold Lifecycle.webhookOrange. rewrite Hpayment, Horder. cbn.
  split; [reflexivity|]. split.
  { rewrite findUnique_updateRows_same by reflexivity.
    now rewrite Horder. }
  split; [reflexivity|]. split; [|reflexivity].
  apply find_some in Hpayment. destruct Hpayment as [Hin _].
  destruct (In_findUnique Transaction.id _ _ Hin) as [y Hy].
  exists (Lifecycle.held y).
  rewrite findUnique_updateRows_same by reflexivity.
  rewrite Hy. repeat split.
Qed.

Lemma webhook_success_marks_order_paid_witness :
  let r := Lifecycle.webhookOrange
             (fun x => String.eqb (Transaction.orderId x) "o1") (Some true)
             (Example.shop OrderStatus.CANCELLED) in
  fst r = Lifecycle.Received
  /\ findUnique Order.id "o1" (orders (snd r))
     = Some (Example.order1 OrderStatus.PAID).
Proof.
  pose proof (webhook_success_marks_order_paid
                (fun x => String.eqb (Transaction.orderId x) "o1")
                (Example.shop OrderStatus.CANCELLED) Example.payment1
                (Example.order1 OrderStatus.CANCELLED) eq_refl eq_refl)
    as (Ha & Hb & _).
  split; [exact Ha | exact Hb].
Defined.


(** ** Alert feedback: counted answers, unanimous answers and the scout's
    reward *)

Lemma accurateCount_app (answers : list bool) (b : bool) :
  accurateCount (answers ++ [b])
  = accurateCount answers + (if b then 1 else 0).
Proof.
  unfold accurateCount. rewrite filter_app, length_app.
  destruct b; cbn; lia.
Qed.

Lemma rowAfterFeedback_total (alert : Alert.t) (accurate : bool) :
  0 <= Alert.feedbackCount alert ->
  (feedbackTotal (Alerts.rowAfterFeedback alert accurate)
   == feedbackTotal alert + inject_Z (if accurate then 1 else 0))%Q.
Proof.
  intros Hc. unfold feedbackTotal, Alerts.rowAfterFeedback. cbn.
  unfold Alerts.newScore, Alerts.newFeedbackCount.
  set (s := Alerts.scoreOrZero (Alert.feedbackScore alert)).
  set (n := Alert.feedbackCount alert) in *.
  assert (Hn : ~ (inject_Z (n + 1) == 0)%Q).
  { unfold Qeq. cbn. lia. }
  destruct accurate; cbn; field; exact Hn.
Qed.

Lemma Qle_bool_morph (a b c d : Q) :
  (a == c)%Q -> (b == d)%Q -> Qle_bool a b = Qle_bool c d.
Proof.
  intros H1 H2. apply eq_true_iff_eq. rewrite !Qle_bool_iff.
  now rewrite H1, H2.
Qed.

Lemma rowAfterFeedback_verified (alert : Alert.t) (accurate : bool) :
  0 <= Alert.feedbackCount alert ->
  Alert.isVerified (Alerts.rowAfterFeedback alert accurate)
  = Qle_bool ((7 # 10) * inject_Z (Alert.feedbackCount alert + 1))
             (feedbackTotal alert + inject_Z (if accurate then 1 else 0))
    && Z.leb 3 (Alert.feedbackCount alert + 1).
Proof.
  intros Hc. unfold Alerts.rowAfterFeedback. cbn.
  unfold Alerts.newVerified, Alerts.newFeedbackCount. f_equal.
  apply eq_true_iff_eq. rewrite !Qle_bool_iff.
  unfold Alerts.newScore, Alerts.newFeedbackCount, feedbackTotal.
  set (s := Alerts.scoreOrZero (Alert.feedbackScore alert)).
  set (n := Alert.feedbackCount alert) in *.
  assert (Hn : (0 < inject_Z (n + 1))%Q).
  { change 0%Q with (inject_Z 0). rewrite <- Zlt_Qlt. lia. }
  replace (inject_Z (if accurate then 1 else 0))
    with (if accurate then 1%Q else 0%Q) by (destruct accurate; reflexivity).
  split; intros H.
  - apply (Qmult_le_r _ _ _ Hn) in H.
    setoid_replace ((s * inject_Z n + (if accurate then 1 else 0))
                    / inject_Z (n + 1) * inject_Z (n + 1))%Q
      with (s * inject_Z n + (if accurate then 1 else 0))%Q in H
      by (field; intros E; rewrite E in Hn; now apply Qlt_irrefl in Hn).
    exact H.
  - apply Qle_shift_div_l; assumption.
Qed.

(** The exact mean after a sequence of answers; it is used below at
    unanimous answers only, where the doubles are exact as well. *)
Lemma fold_rowAfterFeedback_mean (answers : list bool) (alert : Alert.t) :
  0 <= Alert.feedbackCount alert ->
  let alert' := fold_left Alerts.rowAfterFeedback answers alert in
  (Alert.id alert', Alert.scoutId alert', Alert.status alert')
  = (Alert.id alert, Alert.scoutId alert, Alert.status alert)
  /\ Alert.feedbackCount alert'
     = Alert.feedbackCount alert + Z.of_nat (List.length answers)
  /\ (feedbackTotal alert'
      == feedbackTotal alert + inject_Z (accurateCount answers))%Q
  /\ (answers <> [] ->
      Alert.isVerified alert'
      = Qle_bool ((7 # 10) * inject_Z (Alert.feedbackCount alert'))
                 (feedbackTotal alert + inject_Z (accurateCount answers))
        && Z.leb 3 (Alert.feedbackCount alert')).
Proof.
  intros Hc. cbv zeta.
  induction answers as [|b answers IH] using rev_ind.
  - cbn. repeat split; [lia | | congruence].
    unfold accurateCount. cbn. change (inject_Z 0) with 0%Q. ring.
  - destruct IH as (Hid & Hn & Ht & _).
    rewrite fold_left_app. cbn [fold_left].
    set (a := fold_left Alerts.rowAfterFeedback answers alert) in *.
    assert (Ha : 0 <= Alert.feedbackCount a) by lia.
    assert (Hn' : Alert.feedbackCount (Alerts.rowAfterFeedback a b)
                  = Alert.feedbackCount alert
                    + Z.of_nat (List.length (answers ++ [b]))).
    { unfold Alerts.rowAfterFeedback, Alerts.newFeedbackCount. cbn.
      rewrite length_app. cbn. lia. }
    assert (Ht' : (feedbackTotal (Alerts.rowAfterFeedback a b)
                   == feedbackTotal alert
                      + inject_Z (accurateCount (answers ++ [b])))%Q).
    { rewrite rowAfterFeedback_total by exact Ha.
      rewrite Ht, accurateCount_app, inject_Z_plus. ring. }
    repeat split; [exact Hid | exact Hn' | exact Ht' |].
    intros _. rewrite rowAfterFeedback_verified by exact Ha.
    f_equal. apply Qle_bool_morph.
    + reflexivity.
    + rewrite Ht, accurateCount_app, inject_Z_plus. ring.
Qed.

Lemma fold_rowAfterFeedback_columns (answers : list bool) :
  forall alert,
    let alert' := fold_left Alerts.rowAfterFeedback answers alert in
    (Alert.id alert', Alert.scoutId alert', Alert.status alert')
    = (Alert.id alert, Alert.scoutId alert, Alert.status alert)
    /\ Alert.feedbackCount alert'
       = Alert.feedbackCount alert + Z.of_nat (List.length answers).
Proof.
  induction answers as [|b answers IH]; intros alert; cbv zeta.
  - cbn. split; [reflexivity | lia].
  - cbn [fold_left]. destruct (IH (Alerts.rowAfterFeedback alert b))
      as [Hid Hn].
    split; [exact Hid|]. rewrite Hn.
    unfold Alerts.rowAfterFeedback, Alerts.newFeedbackCount.
    cbn [Alert.feedbackCount Alert.setFeedback List.length].
    rewrite Nat2Z.inj_succ. lia.
Qed.

Lemma fold_rowAfterFeedback_three (answers : list bool) (alert : Alert.t) :
  answers <> [] ->
  Alert.isVerified (fold_left Alerts.rowAfterFeedback answers alert) = true ->
  3 <= Alert.feedbackCount (fold_left Alerts.rowAfterFeedback answers alert).
Proof.
  intros Hne. destruct (exists_last Hne) as (l & b & ->).
  rewrite fold_left_app. cbn [fold_left].
  unfold Alerts.rowAfterFeedback at 1 2. cbn [Alert.isVerified
    Alert.feedbackCount Alert.setFeedback].
  unfold Alerts.newVerified. intros H.
  apply andb_true_iff in H. destruct H as [_ H]. now apply Z.leb_le.
Qed.

Lemma accurateCount_all (answers : list bool) :
  forallb (fun b => b) answers = true ->
  accurateCount answers = Z.of_nat (List.length answers).
Proof.
  intros H. unfold accurateCount. f_equal. f_equal.
  induction answers as [|b answers IH]; [reflexivity|].
  cbn in H. apply andb_true_iff in H. destruct H as [-> H].
  cbn. f_equal. now apply IH.
Qed.

Lemma accurateCount_none (answers : list bool) :
  forallb negb answers = true -> accurateCount answers = 0.
Proof.
  intros H. unfold accurateCount.
  induction answers as [|b answers IH]; [reflexivity|].
  cbn in H. apply andb_true_iff in H. destruct H as [Hb H].
  apply negb_true_iff in Hb. subst b. cbn. now apply IH.
Qed.

(** X17. Feedback counts every answer and needs three to verify. After any
    sequence of feedback requests on an alert of the store, the alert keeps
    its id, scout and status (feedback is accepted in every status and
    changes none); its count has grown by the number of answers; and, when
    there was an answer, it is flagged verified only if its count is at
    least 3. On an alert without feedback, answers that are all accurate
    leave the score at 1 and the flag set exactly from the third answer on,
    and answers that are all inaccurate leave the score at 0 and the flag
    unset. *)
Theorem feedback_counts_answers_needs_three
  (db : Db) (id : Id) (alert : Alert.t) (answers : list bool)
  (Halert : findUnique Alert.id id (alerts db) = Some alert) :
  exists alert',
    findUnique Alert.id id (alerts (Alerts.afterFeedback id answers db))
    = Some alert'
    /\ (Alert.id alert', Alert.scoutId alert', Alert.status alert')
       = (Alert.id alert, Alert.scoutId alert, Alert.status alert)
    /\ Alert.feedbackCount alert'
       = Alert.feedbackCount alert + Z.of_nat (List.length answers)
    /\ (answers <> [] -> Alert.isVerified alert' = true ->
        3 <= Alert.feedbackCount alert')
    /\ (answers <> [] -> Alert.feedbackCount alert = 0 ->
        forallb (fun accurate => accurate) answers = true ->
        (Alerts.scoreOrZero (Alert.feedbackScore alert') == 1)%Q
        /\ Alert.isVerified alert' = Z.leb 3 (Z.of_nat (List.length answers)))
    /\ (answers <> [] -> Alert.feedbackCount alert = 0 ->
        forallb negb answers = true ->
        (Alerts.scoreOrZero (Alert.feedbackScore alert') == 0)%Q
        /\ Alert.isVerified alert' = false).
Proof.
  exists (fold_left Alerts.rowAfterFeedback answers alert).
  split; [now apply afterFeedback_row|].
  destruct (fold_rowAfterFeedback_columns answers alert) as [Hid Hn].
  split; [exact Hid|]. split; [exact Hn|].
  split; [now apply fold_rowAfterFeedback_three|].
  set (alert' := fold_left Alerts.rowAfterFeedback answers alert) in *.
  assert (Hlen : answers <> [] -> 0 < Z.of_nat (List.length answers)).
  { destruct answers; [congruence | cbn; lia]. }
  assert (Hunanimous : answers <> [] -> Alert.feedbackCount alert = 0 ->
            (feedbackTotal alert'
             == inject_Z (accurateCount answers))%Q
            /\ Alert.isVerified alert'
               = Qle_bool ((7 # 10) * inject_Z (Z.of_nat (List.length answers)))
                          (inject_Z (accurateCount answers))
                 && Z.leb 3 (Z.of_nat (List.length answers))).
  { intros Hne H0.
    destruct (fold_rowAfterFeedback_mean answers alert) as (_ & _ & Ht & Hv);
      [lia|].
    fold alert' in Ht, Hv. specialize (Hv Hne).
    assert (Hz : (feedbackTotal alert == 0)%Q).
    { unfold feedbackTotal. rewrite H0. change (inject_Z 0) with 0%Q. ring. }
    rewrite Hn, H0, Z.add_0_l in Hv.
    split; [rewrite Ht, Hz; ring|].
    rewrite Hv. f_equal. apply Qle_bool_morph; [reflexivity|].
    rewrite Hz. ring. }
  assert (Hscore : forall k : Z, answers <> [] ->
            Alert.feedbackCount alert = 0 ->
            (feedbackTotal alert'
             == inject_Z k * inject_Z (Z.of_nat (List.length answers)))%Q ->
            (Alerts.scoreOrZero (Alert.feedbackScore alert') == inject_Z k)%Q).
  { intros k Hne H0 Ht. unfold feedbackTotal in Ht.
    rewrite Hn, H0, Z.add_0_l in Ht.
    apply Qmult_inj_r in Ht; [exact Ht|].
    specialize (Hlen Hne). unfold Qeq. cbn. lia. }
  split.
  - intros Hne H0 Hall. destruct (Hunanimous Hne H0) as [Ht Hv].
    rewrite (accurateCount_all answers Hall) in Ht, Hv. split.
    + apply (Hscore 1 Hne H0). rewrite Ht. change (inject_Z 1) with 1%Q.
      ring.
    + rewrite Hv.
      assert (Hq : Qle_bool
                     ((7 # 10) * inject_Z (Z.of_nat (List.length answers)))
                     (inject_Z (Z.of_nat (List.length answers))) = true).
      { apply Qle_bool_iff. specialize (Hlen Hne).
        assert (Hp : (0 <= inject_Z (Z.of_nat (List.length answers)))%Q).
        { change 0%Q with (inject_Z 0). rewrite <- Zle_Qle. lia. }
        set (m := inject_Z (Z.of_nat (List.length answers))) in *.
        clearbody m. Lqa.lra. }
      now rewrite Hq.
  - intros Hne H0 Hall. destruct (Hunanimous Hne H0) as [Ht Hv].
    rewrite (accurateCount_none answers Hall) in Ht, Hv. split.
    + apply (Hscore 0 Hne H0). rewrite Ht. change (inject_Z 0) with 0%Q.
      ring.
    + rewrite Hv.
      assert (Hq : Qle_bool
                     ((7 # 10) * inject_Z (Z.of_nat (List.length answers)))
                     (inject_Z 0) = false).
      { apply not_true_is_false. intros H. apply Qle_bool_iff in H.
        specialize (Hlen Hne).
        assert (Hp : (0 < inject_Z (Z.of_nat (List.length answers)))%Q).
        { change 0%Q with (inject_Z 0). rewrite <- Zlt_Qlt. lia. }
        change (inject_Z 0) with 0%Q in H.
        set (m := inject_Z (Z.of_nat (List.length answers))) in *.
        clearbody m. Lqa.lra. }
      now rewrite Hq.
Qed.

Lemma feedback_counts_answers_needs_three_witness :
  exists alert',
    findUnique Alert.id "a1"
      (alerts (Alerts.afterFeedback "a1" [true; true; true; true]
                 (Example.board AlertStatus.CANCELLED)))
    = Some alert'
    /\ Alert.status alert' = AlertStatus.CANCELLED
    /\ Alert.feedbackCount alert' = 4
    /\ (Alerts.scoreOrZero (Alert.feedbackScore alert') == 1)%Q
    /\ Alert.isVerified alert' = true.
Proof.
  destruct (feedback_counts_answers_needs_three
              (Example.board AlertStatus.CANCELLED) "a1"
              (Example.alert1 AlertStatus.CANCELLED) [true; true; true; true]
              eq_refl)
    as (alert' & Hf & Hid & Hc & _ & Hall & _).
  destruct Hall as [Hs Hv]; [discriminate | reflexivity | reflexivity|].
  exists alert'. split; [exact Hf|].
  split; [injection Hid as _ _ Hst; exact Hst|]. split; [exact Hc|].
  split; [exact Hs | exact Hv].
Defined.

(** On doubles, as the route computes: unanimous answers keep the score at
    exactly 1 or 0 and the flag as stated, over 20000 answers each. *)
Example binary64_unanimous_feedback_agrees :
  unanimousOnDoubles true (Z.to_nat 20000) (None, 0, false) = true
  /\ unanimousOnDoubles false (Z.to_nat 20000) (None, 0, false) = true.
Proof. split; vm_compute; reflexivity. Qed.

Lemma submitFeedback_users (db : Db) (id : Id) (accurate : bool)
  (alert : Alert.t) (scout : User.t) :
  findUnique Alert.id id (alerts db) = Some alert ->
  findUnique User.id (Alert.scoutId alert) (users db) = Some scout ->
  users (snd (Alerts.submitFeedback id accurate db))
  = if accurate
    then updateRows User.id (Alert.scoutId alert)
           (User.incrementReputation 2) (users db)
    else users db.
Proof.
  intros Ha Hu. unfold Alerts.submitFeedback. run. rewrite Ha. cbn.
  rewrite Ha. cbn.
  destruct accurate; cbn; [|reflexivity].
  rewrite Hu. reflexivity.
Qed.

Lemma accurateCount_cons (b : bool) (answers : list bool) :
  accurateCount (b :: answers)
  = (if b then 1 else 0) + accurateCount answers.
Proof.
  unfold accurateCount. destruct b; simpl filter; simpl List.length;
    rewrite ?Nat2Z.inj_succ; lia.
Qed.

(** X18. The scout earns 2 reputation points per accurate answer. On an
    alert of the store whose scout is a user of the store, after any
    sequence of feedback requests the scout's reputation has grown by twice
    the number of accurate answers, inaccurate answers cost nothing, and
    every other user is as before. *)
Theorem feedback_rewards_scout_two_points
  (db : Db) (id : Id) (alert : Alert.t) (scout : User.t)
  (answers : list bool)
  (Halert : findUnique Alert.id id (alerts db) = Some alert)
  (Hscout : findUnique User.id (Alert.scoutId alert) (users db)
            = Some scout) :
  findUnique User.id (Alert.scoutId alert)
    (users (Alerts.afterFeedback id answers db))
  = Some (User.incrementReputation (2 * accurateCount answers) scout)
  /\ forall other, other <> Alert.scoutId alert ->
       findUnique User.id other (users (Alerts.afterFeedback id answers db))
       = findUnique User.id other (users db).
Proof.
  revert db alert scout Halert Hscout. unfold Alerts.afterFeedback.
  induction answers as [|b answers IH]; intros db alert scout Ha Hu.
  - cbn. split; [|reflexivity]. rewrite Hu. f_equal.
    destruct scout. unfold User.incrementReputation, accurateCount.
    cbn. f_equal. lia.
  - cbn [fold_left].
    pose proof (submitFeedback_row db id b alert Ha) as Ha1.
    pose proof (submitFeedback_users db id b alert scout Ha Hu) as Hu1.
    set (db1 := snd (Alerts.submitFeedback id b db)) in *.
    assert (Hs1 : findUnique User.id (Alert.scoutId alert) (users db1)
                  = Some (if b then User.incrementReputation 2 scout
                          else scout)).
    { rewrite Hu1. destruct b; [|exact Hu].
      rewrite findUnique_updateRows_same by reflexivity. now rewrite Hu. }
    destruct (IH db1 (Alerts.rowAfterFeedback alert b) _ Ha1 Hs1)
      as [Hscout Hothers].
    split.
    + change (Alert.scoutId (Alerts.rowAfterFeedback alert b))
        with (Alert.scoutId alert) in Hscout.
      rewrite Hscout, accurateCount_cons. f_equal.
      destruct scout, b; unfold User.incrementReputation;
        cbn [User.id User.role User.reputation]; f_equal; lia.
    + intros other Hne.
      rewrite (Hothers other Hne), Hu1.
      destruct b; [|reflexivity].
      now apply findUnique_updateRows_other.
Qed.

Lemma feedback_rewards_scout_two_points_witness :
  findUnique User.id "u-scout"
    (users (Alerts.afterFeedback "a1" sampleAnswers
              (Example.board AlertStatus.ACTIVE)))
  = Some (User.mk "u-scout" SCOUT 106).
Proof.
  apply (feedback_rewards_scout_two_points
           (Example.board AlertStatus.ACTIVE) "a1"
           (Example.alert1 AlertStatus.ACTIVE) (User.mk "u-scout" SCOUT 100)
           sampleAnswers eq_refl eq_refl).
Defined.

(** ** Reports: creation below the threshold *)



(** ** Reports: the status route on other statuses *)

Lemma updateReportStatus_forbidden (db : Db) (user : AuthUser) (id : Id)
  (status : ReportStatus.t) (resolution : option string) (now : Z) :
  auth_role user <> ADMIN ->
  Reports.updateReportStatus user id status resolution now db
  = (Err (forbidden "This action requires one of these roles: ADMIN"), db).
Proof.
  intros Hrole. unfold Reports.updateReportStatus. run.
  assert (H : rolesInclude [ADMIN] (auth_role user) = false).
  { unfold rolesInclude. cbn. destruct (auth_role user);
      try reflexivity. congruence. }
  rewrite H. reflexivity.
Qed.

Lemma updateReportStatus_other_run (db : Db) (user : AuthUser) (id : Id)
  (status : ReportStatus.t) (resolution : option string) (now : Z)
  (report : Report.t) :
  auth_role user = ADMIN ->
  Reports.resolutionSchema resolution = true ->
  status <> ReportStatus.RESOLVED ->
  findUnique Report.id id (reports db) = Some report ->
  Reports.updateReportStatus user id status resolution now db
  = (Ok (Report.apply (statusOnly status) report),
     set_reports (updateRows Report.id id (Report.apply (statusOnly status)))
       db).
Proof.
  intros Hrole Hres Hs Hr. destruct user as [uid role]. cbn in Hrole.
  subst role. unfold Reports.updateReportStatus. run.
  change (rolesInclude [ADMIN] ADMIN) with true. cbn.
  rewrite Hres. cbn. rewrite Hr. cbn.
  assert (E : ReportStatus.eqb status ReportStatus.RESOLVED = false)
    by (destruct status; try reflexivity; congruence).
  rewrite E. cbn. rewrite Hr. reflexivity.
Qed.

(** X20. The status route on a status other than RESOLVED. For a report of
    the store and a valid body: the call succeeds exactly when the caller
    is an administrator; anyone else is refused with Forbidden and the
    store is left as it was. For an administrator the report becomes the
    same row with the requested status, whatever its current status: a
    RESOLVED report is reopened with its resolution, its resolver and its
    bounty columns kept; no user is changed. *)
Theorem updateReportStatus_other_status_only
  (db : Db) (user : AuthUser) (id : Id) (status : ReportStatus.t)
  (resolution : option string) (now : Z) (report : Report.t)
  (Hschema : Reports.resolutionSchema resolution = true)
  (Hstatus : status <> ReportStatus.RESOLVED)
  (Hreport : findUnique Report.id id (reports db) = Some report) :
  let r := Reports.updateReportStatus user id status resolution now db in
  (succeeds r <-> auth_role user = ADMIN)
  /\ (auth_role user <> ADMIN ->
      failsWith (forbidden "This action requires one of these roles: ADMIN")
        r
      /\ snd r = db)
  /\ (auth_role user = ADMIN ->
      exists report',
        findUnique Report.id id (reports (snd r)) = Some report'
        /\ Report.status report' = status
        /\ bountyColumns report' = bountyColumns report
        /\ (Report.resolvedAt report', Report.resolvedBy report',
            Report.resolution report', Report.verifiedCount report')
           = (Report.resolvedAt report, Report.resolvedBy report,
              Report.resolution report, Report.verifiedCount report)
        /\ users (snd r) = users db).
Proof.
  intros r. destruct (UserRole_eqb (auth_role user) ADMIN) eqn:Er.
  - apply UserRole_eqb_eq in Er.
    assert (Hr := updateReportStatus_other_run db user id status resolution
                    now report Er Hschema Hstatus Hreport).
    fold r in Hr. clearbody r. rewrite Hr. cbn [fst snd].
    split; [split; [intros _; exact Er | intros _; eexists; reflexivity]|].
    split; [intros H; contradiction|]. intros _.
    exists (Report.apply (statusOnly status) report).
    autorewrite with store.
    rewrite findUnique_updateRows_same by reflexivity. rewrite Hreport.
    repeat split.
  - assert (Hn : auth_role user <> ADMIN).
    { intros H. apply UserRole_eqb_eq in H. congruence. }
    assert (Hr := updateReportStatus_forbidden db user id status resolution
                    now Hn).
    fold r in Hr. clearbody r. rewrite Hr.
    split; [split; [intros [a Ha]; discriminate | contradiction]|].
    split; [intros _; split; reflexivity | contradiction].
Qed.

Lemma updateReportStatus_other_status_only_witness :
  let r := Reports.updateReportStatus Example.admin "r1"
             ReportStatus.IN_PROGRESS None 9000
             (Example.street [Example.resolvedLeak "r1" "u-customer" 5000]) in
  exists report',
    findUnique Report.id "r1" (reports (snd r)) = Some report'
    /\ Report.status report' = ReportStatus.IN_PROGRESS
    /\ bountyColumns report' = ("r1", Some 20000, true, Some 5000)
    /\ Report.resolvedBy report' = Some "u-admin".
Proof.
  cbv zeta.
  destruct (updateReportStatus_other_status_only
              (Example.street [Example.resolvedLeak "r1" "u-customer" 5000])
              Example.admin "r1" ReportStatus.IN_PROGRESS None 9000
              (Example.resolvedLeak "r1" "u-customer" 5000)
              eq_refl ltac:(discriminate) eq_refl)
    as (_ & _ & H).
  destruct (H eq_refl) as (report' & Hf & Hs & Hb & Hk & _).
  exists report'. split; [exact Hf|]. split; [exact Hs|].
  split; [exact Hb|]. injection Hk as _ Hby _ _. exact Hby.
Defined.

(** ** Reports: bounties over sequences of status requests *)

Lemma apply_keeps_bounty (d : Report.Data) (r : Report.t) :
  Report.d_bountyPaid d = None -> Report.d_bountyPaidAt d = None ->
  bountyColumns (Report.apply d r) = bountyColumns r.
Proof.
  intros H1 H2. unfold bountyColumns, Report.apply. cbn.
  now rewrite H1, H2.
Qed.

Lemma bountyDue_columns (r r' : Report.t) :
  bountyColumns r' = bountyColumns r ->
  Reports.bountyDue r' = Reports.bountyDue r.
Proof.
  unfold bountyColumns, Reports.bountyDue. intros [= _ -> -> _].
  reflexivity.
Qed.

Lemma handleStatus_settled (q : StatusRequest) (db : Db) :
  Forall (fun r => Reports.bountyDue r = false) (reports db) ->
  users (handleStatus q db) = users db
  /\ map bountyColumns (reports (handleStatus q db))
     = map bountyColumns (reports db).
Proof.
  intros Hall. unfold handleStatus.
  destruct q as [user id status resolution now]. cbn.
  unfold Reports.updateReportStatus. run.
  destruct (negb (rolesInclude [ADMIN] (auth_role user)));
    cbn; [auto|].
  destruct (negb (Reports.resolutionSchema resolution)); cbn; [auto|].
  destruct (findUnique Report.id id (reports db)) as [report|] eqn:Hr;
    cbn; [|auto].
  assert (Hdue : Reports.bountyDue report = false).
  { rewrite Forall_forall in Hall. apply Hall.
    now apply (findUnique_In Report.id id). }
  assert (Hmap : forall d,
             Report.d_bountyPaid d = None -> Report.d_bountyPaidAt d = None ->
             map bountyColumns
               (updateRows Report.id id (Report.apply d) (reports db))
             = map bountyColumns (reports db)).
  { intros d H1 H2. unfold updateRows. rewrite map_map.
    apply map_ext. intros x.
    destruct (String.eqb (Report.id x) id); [|reflexivity].
    now apply apply_keeps_bounty. }
  destruct (ReportStatus.eqb status ReportStatus.RESOLVED); cbn.
  - rewrite Hdue. cbn. rewrite Hr. cbn.
    split; [reflexivity|]. now apply Hmap.
  - rewrite Hr. cbn. split; [reflexivity|]. now apply Hmap.
Qed.

Lemma settled_columns (t t' : list Report.t) :
  map bountyColumns t' = map bountyColumns t ->
  Forall (fun r => Reports.bountyDue r = false) t ->
  Forall (fun r => Reports.bountyDue r = false) t'.
Proof.
  revert t'. induction t as [|x t IH]; intros [|x' t'] H Hall;
    try discriminate; [constructor|].
  cbn [map] in H.
  assert (Hx : bountyColumns x' = bountyColumns x) by congruence.
  assert (Ht : map bountyColumns t' = map bountyColumns t) by congruence.
  inversion Hall as [|? ? Hd Hrest]; subst.
  constructor; [|now apply IH].
  rewrite (bountyDue_columns x x' Hx). exact Hd.
Qed.

(** X21. No bounty is paid twice. In a store in which no report has a
    bounty due (each bounty is paid, or is nothing), no sequence of status
    requests, by whatever callers, on whatever reports, reopening and
    resolving them again, changes any user or any report's bounty amount,
    paid flag or payment time. *)
Theorem settled_bounties_stay_settled
  (qs : list StatusRequest) (db : Db)
  (Hsettled : Forall (fun r => Reports.bountyDue r = false) (reports db)) :
  users (handleStatusAll qs db) = users db
  /\ map bountyColumns (reports (handleStatusAll qs db))
     = map bountyColumns (reports db).
Proof.
  unfold handleStatusAll. revert db Hsettled.
  induction qs as [|q qs IH]; intros db Hsettled; cbn [fold_left];
    [split; reflexivity|].
  destruct (handleStatus_settled q db Hsettled) as [Hu Hc].
  destruct (IH (handleStatus q db)) as [Hu' Hc'].
  { eapply settled_columns; eassumption. }
  split; congruence.
Qed.

Lemma settled_bounties_stay_settled_witness :
  let db := Example.street [Example.resolvedLeak "r1" "u-customer" 5000;
                            Example.resolvedLeak "r2" "u-scout" 6000] in
  users (handleStatusAll sampleStatusRequests db) = Example.people
  /\ map bountyColumns (reports (handleStatusAll sampleStatusRequests db))
     = [ ("r1", Some 20000, true, Some 5000);
         ("r2", Some 20000, true, Some 6000) ].
Proof.
  apply (settled_bounties_stay_settled sampleStatusRequests
           (Example.street [Example.resolvedLeak "r1" "u-customer" 5000;
                            Example.resolvedLeak "r2" "u-scout" 6000])).
  repeat constructor.
Defined.


(** ** One-time codes *)

Lemma filter_none {A} (f : A -> bool) (t : list A) :
  (forall x, In x t -> f x = false) -> filter f t = [].
Proof.
  induction t as [|x t IH]; intros H; simpl; [reflexivity|].
  rewrite (H x (or_introl eq_refl)). apply IH. intros y Hy.
  apply H. now right.
Qed.

Lemma filter_all {A} (f : A -> bool) (t : list A) :
  (forall x, In x t -> f x = true) -> filter f t = t.
Proof.
  induction t as [|x t IH]; intros H; simpl; [reflexivity|].
  rewrite (H x (or_introl eq_refl)). f_equal. apply IH. intros y Hy.
  apply H. now right.
Qed.

Lemma find_no_match {A} (f : A -> bool) (t : list A) :
  (forall x, In x t -> f x = false) -> find f t = None.
Proof.
  intros H. destruct (find f t) as [x|] eqn:E; [|reflexivity].
  apply find_some in E. destruct E as [Hin Hx].
  rewrite (H x Hin) in Hx. discriminate.
Qed.

Lemma find_filter_same {A} (f g : A -> bool) (t : list A) :
  (forall x, f x = true -> g x = true) ->
  find f (filter g t) = find f t.
Proof.
  intros H. induction t as [|x t IH]; simpl; [reflexivity|].
  destruct (f x) eqn:Ef.
  - rewrite (H x Ef). simpl. now rewrite Ef.
  - destruct (g x); simpl; [rewrite Ef|]; exact IH.
Qed.

Lemma requestOtp_codes (otp_expiresIn : Z) (phone code : string) (newId : Id) (now : Z)
  (s : AuthDb) :
  AuthService.requestOtp otp_expiresIn phone code newId now s
  = (otp_expiresIn,
     mkAuthDb
       (filter (fun o => negb (AuthService.ofPhone (normalizePhone phone) o))
               (otpCodes s)
        ++ [OtpCode.mk newId (normalizePhone phone) code
              (now + otp_expiresIn * 1000) false 0])
       (accounts s) (refreshTokens s)).
Proof. reflexivity. Qed.

Lemma otpMatches_ofPhone (np code : string) (o : OtpCode.t) :
  AuthService.otpMatches np code o = true ->
  AuthService.ofPhone np o = true /\ OtpCode.code o = code.
Proof.
  unfold AuthService.otpMatches, AuthService.ofPhone. intros H.
  apply andb_true_iff in H. destruct H as [H _].
  apply andb_true_iff in H. destruct H as [Hp Hc].
  split; [exact Hp | now apply String.eqb_eq].
Qed.

Lemma find_issued (np code : string) (t : list OtpCode.t) (o : OtpCode.t) :
  (forall x, In x t -> AuthService.ofPhone np x = false) ->
  AuthService.otpMatches np code o = true ->
  find (AuthService.otpMatches np code) (t ++ [o]) = Some o.
Proof.
  intros Hnone Ho. apply find_app_fresh; [|exact Ho].
  apply find_no_match. intros x Hx.
  destruct (AuthService.otpMatches np code x) eqn:E; [|reflexivity].
  apply otpMatches_ofPhone in E. destruct E as [E _].
  rewrite (Hnone x Hx) in E. discriminate.
Qed.

Lemma others_not_ofPhone (np : string) (t : list OtpCode.t) :
  forall x, In x (filter (fun o => negb (AuthService.ofPhone np o)) t) ->
            AuthService.ofPhone np x = false.
Proof.
  intros x Hx. apply filter_In in Hx. destruct Hx as [_ Hx].
  now apply negb_true_iff in Hx.
Qed.

(** X22. Requesting a code replaces the codes of the phone. After
    [requestOtp] the phone, in its normalized form, has exactly one stored
    code, the new one, unverified, with no attempts and expiring
    [otp_expiresIn] seconds later; the codes of other phones, the accounts
    and the refresh tokens are untouched; and a verification for the phone
    with any other code, an earlier one included, is refused as invalid and
    leaves the store as it is. *)
Theorem requestOtp_replaces_codes_of_phone
  (otp_expiresIn : Z) (phone code : string) (newId : Id) (now : Z) (s : AuthDb) :
  let np := normalizePhone phone in
  let r := AuthService.requestOtp otp_expiresIn phone code newId now s in
  fst r = otp_expiresIn
  /\ filter (AuthService.ofPhone np) (otpCodes (snd r))
     = [OtpCode.mk newId np code (now + otp_expiresIn * 1000) false 0]
  /\ filter (fun o => negb (AuthService.ofPhone np o)) (otpCodes (snd r))
     = filter (fun o => negb (AuthService.ofPhone np o)) (otpCodes s)
  /\ accounts (snd r) = accounts s
  /\ refreshTokens (snd r) = refreshTokens s
  /\ forall phone' code' now' newUserId newTokenId signed,
       normalizePhone phone' = np -> code' <> code ->
       AuthService.verifyOtp phone' code' now' newUserId newTokenId signed
         (snd r)
       = (inl invalidOtp, snd r).
Proof.
  intros np r. unfold r. rewrite requestOtp_codes. cbn [fst snd otpCodes
    accounts refreshTokens]. fold np.
  set (others := filter (fun o => negb (AuthService.ofPhone np o))
                        (otpCodes s)).
  assert (Hnew : AuthService.ofPhone np
                   (OtpCode.mk newId np code (now + otp_expiresIn * 1000)
                      false 0) = true)
    by (unfold AuthService.ofPhone; cbn; apply String.eqb_refl).
  split; [reflexivity|]. split.
  { rewrite filter_app. cbn [filter]. rewrite Hnew.
    rewrite filter_none; [reflexivity|]. apply others_not_ofPhone. }
  split.
  { rewrite filter_app. cbn [filter]. rewrite Hnew. cbn.
    rewrite app_nil_r. apply filter_all. intros x Hx.
    apply negb_true_iff. now apply (others_not_ofPhone np (otpCodes s)). }
  split; [reflexivity|]. split; [reflexivity|].
  intros phone' code' now' newUserId newTokenId signed Hp Hc.
  unfold AuthService.verifyOtp. rewrite Hp. cbn [otpCodes].
  rewrite find_no_match; [reflexivity|].
  intros x Hx. apply in_app_or in Hx. destruct Hx as [Hx | [<- | []]].
  - destruct (AuthService.otpMatches np code' x) eqn:E; [|reflexivity].
    apply otpMatches_ofPhone in E. destruct E as [E _].
    rewrite (others_not_ofPhone np (otpCodes s) x Hx) in E. discriminate.
  - unfold AuthService.otpMatches. cbn.
    destruct (String.eqb_spec code code') as [E | _]; [congruence|].
    now rewrite andb_false_r.
Qed.

Lemma filter_updateRows_others (id : Id) (f : OtpCode.t -> OtpCode.t)
  (t : list OtpCode.t) :
  (forall o, OtpCode.id (f o) = OtpCode.id o) ->
  filter (fun o => negb (String.eqb (OtpCode.id o) id))
         (updateRows OtpCode.id id f t)
  = filter (fun o => negb (String.eqb (OtpCode.id o) id)) t.
Proof.
  intros Hk. unfold updateRows.
  induction t as [|x t IH]; simpl; [reflexivity|].
  destruct (String.eqb (OtpCode.id x) id) eqn:E.
  - rewrite Hk, E. simpl. exact IH.
  - rewrite E. simpl. now rewrite IH.
Qed.

(** The outcome of [verifyOtp] on a store in which the code is found. *)
Lemma verifyOtp_found (phone code : string) (now : Z)
  (newUserId newTokenId : Id) (signed : string * string) (s : AuthDb)
  (o : OtpCode.t) :
  find (AuthService.otpMatches (normalizePhone phone) code) (otpCodes s)
  = Some o ->
  let np := normalizePhone phone in
  let s2 := AuthService.deleteOtp (OtpCode.id o) s in
  let found := find (AuthService.hasPhone np) (accounts s) in
  let created := Account.mk newUserId np None CITIZEN true in
  let user := match found with Some u => u | None => created end in
  AuthService.verifyOtp phone code now newUserId newTokenId signed s
  = if Z.ltb (OtpCode.expiresAt o) now then (inl otpExpired, s2)
    else if Z.leb AuthService.otp_maxAttempts (OtpCode.attempts o)
    then (inl otpMaxAttempts, s2)
    else
      (inr (mkAuthResult (mkTokenPair (fst signed) (snd signed) 86400)
              (Account.id user) (Account.phone user) (Account.name user)
              (Account.role user)
              (match found with Some _ => false | None => true end)),
       mkAuthDb (otpCodes s2)
         (match found with
          | Some _ => accounts s
          | None => accounts s ++ [created]
          end)
         (refreshTokens s
          ++ [RefreshToken.mk newTokenId (Account.id user) (snd signed)
                (now + 30 * 24 * 60 * 60 * 1000)])).
Proof.
  intros Hf. cbv zeta.
  unfold AuthService.verifyOtp. cbv zeta. rewrite Hf.
  destruct (Z.ltb (OtpCode.expiresAt o) now); [reflexivity|].
  destruct (Z.leb AuthService.otp_maxAttempts (OtpCode.attempts o));
    [reflexivity|].
  apply find_some in Hf. destruct Hf as [_ Hm].
  apply otpMatches_ofPhone in Hm. destruct Hm as [_ Hc].
  rewrite Hc, String.eqb_refl. cbn [negb].
  unfold AuthService.generateTokens, AuthService.deleteOtp, set_otpCodes,
    set_accounts, set_refreshTokens.
  cbn [otpCodes accounts refreshTokens fst snd].
  rewrite filter_updateRows_others by reflexivity.
  destruct (find (AuthService.hasPhone (normalizePhone phone)) (accounts s));
    reflexivity.
Qed.

(** X23. A code is good for one verification. After [requestOtp] for a
    phone, a verification with that code, for the phone in any format that
    normalizes to the same number: within the expiry it succeeds, answers
    the signed tokens and the account of the phone (creating a CITIZEN
    account when there is none; an account that is not active also signs
    in) and stores the refresh token; after the expiry it is refused as
    expired. Either way the phone has no stored code left, and every
    further verification with the code is refused as invalid. *)
Theorem otp_is_single_use
  (otp_expiresIn : Z) (phone phone' code : string) (newId : Id) (now now' : Z)
  (newUserId newTokenId : Id) (signed : string * string) (s : AuthDb)
  (Hphone : normalizePhone phone' = normalizePhone phone) :
  let np := normalizePhone phone in
  let s1 := snd (AuthService.requestOtp otp_expiresIn phone code newId now s) in
  let r := AuthService.verifyOtp phone' code now' newUserId newTokenId signed
             s1 in
  let found := find (AuthService.hasPhone np) (accounts s) in
  (now' <= now + otp_expiresIn * 1000 ->
   exists result,
     fst r = inr result
     /\ tokens result = mkTokenPair (fst signed) (snd signed) 86400
     /\ user_phone result = np
     /\ isNewUser result
        = match found with Some _ => false | None => true end
     /\ accounts (snd r)
        = match found with
          | Some _ => accounts s
          | None =>
              (accounts s ++ [Account.mk newUserId np None CITIZEN true])%list
          end
     /\ refreshTokens (snd r)
        = (refreshTokens s
           ++ [RefreshToken.mk newTokenId (user_id result) (snd signed)
                 (now' + 30 * 24 * 60 * 60 * 1000)])%list)
  /\ (now + otp_expiresIn * 1000 < now' ->
      fst r = inl otpExpired
      /\ accounts (snd r) = accounts s
      /\ refreshTokens (snd r) = refreshTokens s)
  /\ filter (AuthService.ofPhone np) (otpCodes (snd r)) = []
  /\ forall now'' newUserId' newTokenId' signed',
       AuthService.verifyOtp phone' code now'' newUserId' newTokenId' signed'
         (snd r)
       = (inl invalidOtp, snd r).
Proof.
  intros np s1 r found.
  set (issued := OtpCode.mk newId np code (now + otp_expiresIn * 1000)
                   false 0).
  set (others := filter (fun o => negb (AuthService.ofPhone np o))
                        (otpCodes s)).
  assert (Hs1 : s1 = mkAuthDb (others ++ [issued]) (accounts s)
                       (refreshTokens s)) by reflexivity.
  assert (Hm : AuthService.otpMatches np code issued = true).
  { unfold AuthService.otpMatches, issued. cbn.
    now rewrite !String.eqb_refl. }
  assert (Hf : find (AuthService.otpMatches (normalizePhone phone') code)
                    (otpCodes s1) = Some issued).
  { rewrite Hphone, Hs1. cbn [otpCodes]. fold np.
    apply find_issued; [apply others_not_ofPhone | exact Hm]. }
  assert (Hleft : forall x,
             In x (otpCodes (AuthService.deleteOtp (OtpCode.id issued) s1)) ->
             AuthService.ofPhone np x = false).
  { intros x Hx. unfold AuthService.deleteOtp, set_otpCodes in Hx.
    cbn [otpCodes] in Hx. apply filter_In in Hx. destruct Hx as [Hx Hid].
    rewrite Hs1 in Hx. cbn [otpCodes] in Hx.
    apply in_app_or in Hx. destruct Hx as [Hx | [<- | []]].
    - now apply (others_not_ofPhone np (otpCodes s)).
    - cbn in Hid. now rewrite String.eqb_refl in Hid. }
  assert (Hr := verifyOtp_found phone' code now' newUserId newTokenId signed
                  s1 issued Hf).
  cbv zeta in Hr. rewrite Hphone in Hr. fold np in Hr. fold r in Hr.
  change (accounts s1) with (accounts s) in Hr.
  change (refreshTokens s1) with (refreshTokens s) in Hr.
  fold found in Hr.
  change (OtpCode.expiresAt issued) with (now + otp_expiresIn * 1000) in Hr.
  change (OtpCode.attempts issued) with 0 in Hr.
  change (Z.leb AuthService.otp_maxAttempts 0) with false in Hr.
  clearbody r.
  assert (Hgone : filter (AuthService.ofPhone np) (otpCodes (snd r)) = []).
  { apply filter_none. intros x Hx. apply Hleft.
    rewrite Hr in Hx.
    destruct (Z.ltb (now + otp_expiresIn * 1000) now'); exact Hx. }
  split; [|split; [|split; [exact Hgone|]]].
  - intros Ht. apply Z.ltb_ge in Ht. rewrite Ht in Hr. rewrite Hr.
    eexists. split; [reflexivity|]. cbn.
    split; [reflexivity|]. split.
    { destruct found as [u|] eqn:Eu; [|reflexivity].
      apply find_some in Eu. destruct Eu as [_ Eu].
      now apply String.eqb_eq in Eu. }
    repeat split.
  - intros Ht. apply Z.ltb_lt in Ht. rewrite Ht in Hr. rewrite Hr.
    repeat split.
  - intros now'' newUserId' newTokenId' signed'.
    unfold AuthService.verifyOtp. rewrite Hphone. fold np.
    rewrite find_no_match; [reflexivity|].
    intros x Hx.
    destruct (AuthService.otpMatches np code x) eqn:E; [|reflexivity].
    apply otpMatches_ofPhone in E. destruct E as [E _].
    assert (Hin : In x (filter (AuthService.ofPhone np) (otpCodes (snd r))))
      by (apply filter_In; split; assumption).
    rewrite Hgone in Hin. destruct Hin.
Qed.

Lemma otp_is_single_use_witness :
  let s1 := snd (AuthService.requestOtp 300 "076123456" "246810" "c1" 1000
                   authStore) in
  let r := AuthService.verifyOtp "+232 76 123 456" "246810" 301000 "u2" "k1"
             ("access", "refresh") s1 in
  exists result,
    fst r = inr result
    /\ user_phone result = "+23276123456"
    /\ isNewUser result = false.
Proof.
  cbv zeta.
  destruct (otp_is_single_use 300 "076123456" "+232 76 123 456" "246810" "c1"
              1000 301000 "u2" "k1" ("access", "refresh") authStore
              eq_refl) as (Hok & _).
  destruct Hok as (result & Hr & _ & Hp & Hn & _); [lia|].
  exists result. split; [exact Hr|]. split; [exact Hp | exact Hn].
Defined.

Lemma handle_wrong_guess (otp_expiresIn : Z) (np code : string) (t : list OtpCode.t)
  (o : OtpCode.t) (a : list Account.t) (k : list RefreshToken.t)
  (r : AuthService.Request) :
  (forall x, In x t -> AuthService.ofPhone np x = false) ->
  OtpCode.code o = code ->
  AuthService.wrongGuess np code r = true ->
  AuthService.handle otp_expiresIn r (mkAuthDb (t ++ [o]) a k)
  = (Some invalidOtp, mkAuthDb (t ++ [o]) a k).
Proof.
  intros Hnone Hcode Hw. destruct r as [| phone' code' now' u k' sg];
    [discriminate|].
  unfold AuthService.wrongGuess in Hw.
  apply andb_true_iff in Hw. destruct Hw as [Hp Hc].
  apply String.eqb_eq in Hp. apply negb_true_iff in Hc.
  unfold AuthService.handle, AuthService.verifyOtp. rewrite Hp.
  cbn [otpCodes].
  rewrite find_no_match; [reflexivity|].
  intros x Hx. apply in_app_or in Hx. destruct Hx as [Hx | [<- | []]].
  - destruct (AuthService.otpMatches np code' x) eqn:E; [|reflexivity].
    apply otpMatches_ofPhone in E. destruct E as [E _].
    rewrite (Hnone x Hx) in E. discriminate.
  - unfold AuthService.otpMatches. rewrite Hcode.
    rewrite (String.eqb_sym code code'), Hc. now rewrite andb_false_r.
Qed.

(** X24. Wrong guesses are not counted. After [requestOtp] for a phone, any
    number of verifications for that phone with other codes are each
    refused as invalid and leave the store exactly as it was: the attempts
    of the stored code stay at 0, and the right code still verifies
    afterwards. *)
Theorem wrong_guesses_change_nothing
  (otp_expiresIn : Z) (phone code : string) (newId : Id) (now : Z) (s : AuthDb)
  (guesses : list AuthService.Request)
  (Hwrong : forallb (AuthService.wrongGuess (normalizePhone phone) code)
              guesses = true) :
  let s1 := snd (AuthService.requestOtp otp_expiresIn phone code newId now s) in
  AuthService.handleAll otp_expiresIn guesses s1
  = (map (fun _ => Some invalidOtp) guesses, s1).
Proof.
  cbv zeta. rewrite requestOtp_codes. cbn [snd].
  induction guesses as [|g guesses IH]; [reflexivity|].
  cbn [forallb] in Hwrong. apply andb_true_iff in Hwrong.
  destruct Hwrong as [Hg Hrest].
  cbn [AuthService.handleAll map].
  rewrite (handle_wrong_guess otp_expiresIn (normalizePhone phone) code);
    [| apply others_not_ofPhone | reflexivity | exact Hg].
  now rewrite (IH Hrest).
Qed.

Lemma wrong_guesses_change_nothing_witness :
  let s1 := snd (AuthService.requestOtp 300 "076123456" "246810" "c1" 1000
                   authStore) in
  AuthService.handleAll 300
    [ AuthService.VerifyOtp "076123456" "000000" 2000 "u2" "k1" ("a", "b");
      AuthService.VerifyOtp "76123456" "000001" 2100 "u2" "k1" ("a", "b");
      AuthService.VerifyOtp "+23276123456" "000002" 2200 "u2" "k1" ("a", "b");
      AuthService.VerifyOtp "23276123456" "000003" 2300 "u2" "k1" ("a", "b") ]
    s1
  = ([Some invalidOtp; Some invalidOtp; Some invalidOtp; Some invalidOtp],
     s1).
Proof.
  apply (wrong_guesses_change_nothing 300 "076123456" "246810" "c1" 1000
           authStore).
  reflexivity.
Defined.

Lemma verifyOtp_codes (phone code : string) (now : Z)
  (newUserId newTokenId : Id) (signed : string * string) (s : AuthDb) :
  Forall (fun o => OtpCode.attempts o < AuthService.otp_maxAttempts)
         (otpCodes s) ->
  fst (AuthService.verifyOtp phone code now newUserId newTokenId signed s)
  <> inl otpMaxAttempts
  /\ forall x,
       In x (otpCodes (snd (AuthService.verifyOtp phone code now newUserId
                              newTokenId signed s))) ->
       In x (otpCodes s).
Proof.
  intros Hall.
  destruct (find (AuthService.otpMatches (normalizePhone phone) code)
                 (otpCodes s)) as [o|] eqn:Hf.
  - rewrite (verifyOtp_found phone code now newUserId newTokenId signed s o
               Hf).
    assert (Ho : OtpCode.attempts o < AuthService.otp_maxAttempts).
    { rewrite Forall_forall in Hall. apply Hall.
      apply find_some in Hf. tauto. }
    apply Z.leb_gt in Ho. rewrite Ho.
    assert (Hdel : forall x,
               In x (otpCodes (AuthService.deleteOtp (OtpCode.id o) s)) ->
               In x (otpCodes s)).
    { intros x Hx. unfold AuthService.deleteOtp, set_otpCodes in Hx.
      cbn [otpCodes] in Hx. now apply filter_In in Hx. }
    destruct (Z.ltb (OtpCode.expiresAt o) now); cbn [fst snd otpCodes];
      (split; [discriminate | exact Hdel]).
  - unfold AuthService.verifyOtp. rewrite Hf. cbn [fst snd].
    split; [discriminate | auto].
Qed.

Lemma handle_codes (otp_expiresIn : Z) (r : AuthService.Request)
  (s : AuthDb) :
  Forall (fun o => OtpCode.attempts o < AuthService.otp_maxAttempts)
         (otpCodes s) ->
  fst (AuthService.handle otp_expiresIn r s) <> Some otpMaxAttempts
  /\ Forall (fun o => OtpCode.attempts o < AuthService.otp_maxAttempts)
            (otpCodes (snd (AuthService.handle otp_expiresIn r s))).
Proof.
  intros Hall. destruct r as [phone code newId now
                             | phone code now u k sg].
  - cbn [AuthService.handle fst snd]. split; [discriminate|].
    rewrite requestOtp_codes. cbn [snd otpCodes].
    apply Forall_app. split.
    + rewrite Forall_forall in *. intros x Hx. apply Hall.
      now apply filter_In in Hx.
    + constructor; [reflexivity | constructor].
  - cbn [AuthService.handle].
    destruct (verifyOtp_codes phone code now u k sg s Hall) as [Hne Hin].
    destruct (AuthService.verifyOtp phone code now u k sg s) as [[e|res] s'];
      cbn [fst snd] in *.
    + split; [congruence|].
      rewrite Forall_forall in *. intros x Hx. apply Hall. now apply Hin.
    + split; [discriminate|].
      rewrite Forall_forall in *. intros x Hx. apply Hall. now apply Hin.
Qed.

(** X25. The attempts limit is never reached. From a store in which every
    stored code has fewer than 3 attempts (an empty store, for one), no
    sequence of code requests and verifications is ever answered with the
    maximum-attempts error, and every stored code still has fewer than 3
    attempts afterwards: a verification increments the attempts only of a
    code it then deletes. *)
Theorem otpMaxAttempts_never_answered
  (otp_expiresIn : Z) (rs : list AuthService.Request) (s : AuthDb)
  (Hbelow : Forall (fun o => OtpCode.attempts o < AuthService.otp_maxAttempts)
              (otpCodes s)) :
  ~ In (Some otpMaxAttempts)
       (fst (AuthService.handleAll otp_expiresIn rs s))
  /\ Forall (fun o => OtpCode.attempts o < AuthService.otp_maxAttempts)
       (otpCodes (snd (AuthService.handleAll otp_expiresIn rs s))).
Proof.
  revert s Hbelow. induction rs as [|r rs IH]; intros s Hbelow.
  - cbn. split; [tauto | exact Hbelow].
  - cbn [AuthService.handleAll].
    destruct (handle_codes otp_expiresIn r s Hbelow) as [Hne H1].
    destruct (AuthService.handle otp_expiresIn r s) as [e s1].
    cbn [fst snd] in Hne, H1.
    destruct (IH s1 H1) as [Hno H2].
    destruct (AuthService.handleAll otp_expiresIn rs s1) as [es s2].
    cbn [fst snd] in *. split; [|exact H2].
    intros [E | Hin]; [congruence | contradiction].
Qed.

Lemma otpMaxAttempts_never_answered_witness :
  ~ In (Some otpMaxAttempts)
       (fst (AuthService.handleAll 300 sampleAuthRequests authStore))
  /\ Forall (fun o => OtpCode.attempts o < AuthService.otp_maxAttempts)
       (otpCodes (snd (AuthService.handleAll 300 sampleAuthRequests
                         authStore))).
Proof.
  apply (otpMaxAttempts_never_answered 300 sampleAuthRequests authStore).
  constructor.
Defined.

(** ** Refresh tokens *)

(** X26. Logging out revokes the refresh token. After [logout] of a token,
    [refreshToken] with it is refused as an invalid token at any time, the
    other tokens are found as before, and logging out again changes
    nothing. A refresh that succeeds answers the signed access token with
    its lifetime of one day and leaves the store as it was: the refresh
    token is kept, not replaced. *)
Theorem logout_revokes_refresh_token
  (token : string) (now : Z) (signed : string) (s : AuthDb) :
  AuthService.refreshToken token now signed (AuthService.logout token s)
  = (inl invalidToken, AuthService.logout token s)
  /\ AuthService.logout token (AuthService.logout token s)
     = AuthService.logout token s
  /\ (forall other, other <> token ->
        find (AuthService.hasToken other)
             (refreshTokens (AuthService.logout token s))
        = find (AuthService.hasToken other) (refreshTokens s))
  /\ (forall result,
        fst (AuthService.refreshToken token now signed s) = inr result ->
        result = (signed, 86400)
        /\ snd (AuthService.refreshToken token now signed s) = s).
Proof.
  assert (Hgone : forall x,
             In x (refreshTokens (AuthService.logout token s)) ->
             AuthService.hasToken token x = false).
  { intros x Hx. unfold AuthService.logout, set_refreshTokens in Hx.
    cbn [refreshTokens] in Hx. apply filter_In in Hx.
    destruct Hx as [_ Hx]. now apply negb_true_iff in Hx. }
  split; [|split; [|split]].
  - unfold AuthService.refreshToken.
    now rewrite (find_no_match _ _ Hgone).
  - unfold AuthService.logout at 1. unfold set_refreshTokens.
    rewrite filter_all.
    + destruct (AuthService.logout token s); reflexivity.
    + intros x Hx. apply negb_true_iff. now apply Hgone.
  - intros other Hne. unfold AuthService.logout, set_refreshTokens.
    cbn [refreshTokens]. apply find_filter_same.
    intros x Hx. apply negb_true_iff. unfold AuthService.hasToken in *.
    apply String.eqb_eq in Hx. apply String.eqb_neq. congruence.
  - intros result. unfold AuthService.refreshToken.
    destruct (find (AuthService.hasToken token) (refreshTokens s))
      as [t|]; [|discriminate].
    destruct (Z.ltb (RefreshToken.expiresAt t) now); [discriminate|].
    destruct (findUnique Account.id (RefreshToken.userId t) (accounts s))
      as [u|]; [|discriminate].
    destruct (Account.isActive u); [|discriminate].
    cbn. intros [= <-]. split; reflexivity.
Qed.


(** ** Order creation: every outcome *)

Lemma priceItems_lines (found : list Product.t) :
  forall (items : list Orders.CreateOrderItem) (acc : Z)
         (lines : list OrderItem.t) (total : Z),
    Orders.priceItems found items acc = Some (lines, total) ->
    total = acc + linesTotal lines
    /\ map lineOf lines = map itemOf items
    /\ Forall (fun l =>
                 OrderItem.totalPrice l
                 = OrderItem.unitPrice l * OrderItem.quantity l
                 /\ exists p, In p found
                              /\ Product.id p = OrderItem.productId l
                              /\ Product.price p = OrderItem.unitPrice l)
              lines.
Proof.
  induction items as [|item items IH]; intros acc lines total H.
  - cbn in H. injection H as <- <-. unfold linesTotal. cbn.
    repeat split; [lia | constructor].
  - cbn [Orders.priceItems] in H.
    destruct (find (fun p => String.eqb (Product.id p)
                               (Orders.productId item)) found)
      as [p|] eqn:Ep; [|discriminate].
    destruct (Orders.priceItems found items
                (acc + Product.price p * Orders.quantity item))
      as [[rest total']|] eqn:Er; [|discriminate].
    injection H as <- <-.
    destruct (IH _ _ _ Er) as (Ht & Hm & Hl).
    apply find_some in Ep. destruct Ep as [Hin Hid].
    apply String.eqb_eq in Hid.
    split; [|split].
    + rewrite Ht. unfold linesTotal. cbn. fold (linesTotal rest). lia.
    + cbn [map]. rewrite Hm. reflexivity.
    + constructor; [|exact Hl]. cbn. split; [reflexivity|].
      exists p. repeat split; assumption.
Qed.

(** X27. Every outcome of an order creation. Whatever the caller, the body
    and the store: a refused request leaves the store as it was; an accepted
    one adds exactly one order at the end of the orders and changes nothing
    else (no product and no vendor is touched). The new order is PENDING,
    without timestamps, for the caller and the vendor of the body, a vendor
    of the store that is active and verified; its lines are the body's
    items in their order, each priced from an available product of that
    vendor with [totalPrice = unitPrice * quantity]; its subtotal is the sum
    of the lines and reaches the vendor's minimum; and its total is the
    subtotal plus the vendor's delivery fee plus the platform fee of the
    subtotal. *)
Theorem createOrder_outcome
  (user : AuthUser) (body : Orders.CreateOrderBody) (newId : Id) (db : Db) :
  let r := Orders.createOrder user body newId db in
  match fst r with
  | Err _ => snd r = db
  | Ok order =>
      snd r = set_orders (fun t => (t ++ [order])%list) db
      /\ Orders.createOrderSchema body = true
      /\ (Order.id order, Order.customerId order, Order.vendorId order,
          Order.deliveryAddress order)
         = (newId, auth_id user, Orders.vendorId body,
            Orders.deliveryAddress body)
      /\ (Order.status order, Order.acceptedAt order,
          Order.deliveredAt order, Order.completedAt order)
         = (OrderStatus.PENDING, None, None, None)
      /\ (exists vendor,
            findUnique Vendor.id (Orders.vendorId body) (vendors db)
            = Some vendor
            /\ Vendor.isActive vendor = true
            /\ Vendor.isVerified vendor = true
            /\ Vendor.minOrder vendor <= Order.subtotal order
            /\ Order.deliveryFee order = Vendor.deliveryFee vendor)
      /\ map lineOf (Order.items order) = map itemOf (Orders.items body)
      /\ Forall (pricedFrom db (Orders.vendorId body)) (Order.items order)
      /\ Order.subtotal order = linesTotal (Order.items order)
      /\ Order.platformFee order = calculatePlatformFee (Order.subtotal order)
      /\ Order.totalAmount order
         = Order.subtotal order + Order.deliveryFee order
           + Order.platformFee order
  end.
Proof.
  cbv zeta. unfold Orders.createOrder. run2. cases; try reflexivity.
  repeat match goal with
    | H : negb (Orders.createOrderSchema body) = false |- _ =>
        apply negb_false_iff in H
    | H : _ || _ = false |- _ =>
        apply orb_false_iff in H; destruct H as [? ?]
    | H : negb (Vendor.isActive _) = false |- _ => apply negb_false_iff in H
    | H : negb (Vendor.isVerified _) = false |- _ =>
        apply negb_false_iff in H
    | H : Z.ltb _ _ = false |- _ => apply Z.ltb_ge in H
    | H : Orders.priceItems _ _ _ = Some _ |- _ =>
        apply priceItems_lines in H; destruct H as (? & ? & ?)
    end.
  split; [reflexivity|]. split; [assumption|].
  split; [reflexivity|]. split; [reflexivity|].
  split; [eexists; repeat split; first [eassumption | reflexivity]|].
  split; [assumption|].
  split; [|split; [lia|split; reflexivity]].
  match goal with
  | H : Forall _ ?lines |- Forall _ ?lines =>
      revert H; apply Forall_impl
  end.
  intros line (Hprice & product & Hfound & Hid & Hp).
  split; [exact Hprice|]. exists product.
  assert (Ha : Product.isAvailable product = true).
  { destruct (Product.isAvailable product) eqn:Ea; [reflexivity|].
    match goal with
    | H : existsb _ ?found = false |- _ =>
        assert (Hex : existsb (fun x => negb (Product.isAvailable x)) found
                      = true);
        [| rewrite Hex in H; discriminate]
    end.
    apply existsb_exists. exists product.
    split; [exact Hfound | now rewrite Ea]. }
  unfold Orders.findProducts in Hfound. apply filter_In in Hfound.
  destruct Hfound as [Hin Hf]. apply andb_true_iff in Hf.
  destruct Hf as [_ Hv]. apply String.eqb_eq in Hv.
  repeat split; assumption.
Qed.


(** ** Orders: refused requests *)

Lemma createOrder_refused (user : AuthUser) (body : Orders.CreateOrderBody)
  (newId : Id) (db : Db) (e : AppError) :
  fst (Orders.createOrder user body newId db) = Err e ->
  snd (Orders.createOrder user body newId db) = db.
Proof.
  unfold Orders.createOrder. run2. cases; try reflexivity; discriminate.
Qed.

(** X28. A refused request writes nothing. Whenever an order creation, a
    status update, a delivery confirmation, a cancellation or a payment
    initiation is answered with an error, the store is exactly as it was:
    although the handlers run their queries one by one, outside a database
    transaction, every check comes before the first write and no write can
    fail after another has been made. *)
Theorem refused_request_writes_nothing
  (r : Lifecycle.Request) (db : Db) (e : AppError)
  (Hrefused : refusal r db = Some e) :
  Lifecycle.handle r db = db.
Proof.
  destruct r as [u b n | u i s n | u i n | u i b | u i p n t];
    unfold refusal, errorOf in Hrefused; cbn [Lifecycle.handle].
  - destruct (fst (Orders.createOrder u b n db)) as [a|e'] eqn:E;
      [discriminate|].
    now apply (createOrder_refused u b n db e').
  - revert Hrefused. unfold Orders.updateStatus. run2. cases;
      try reflexivity; discriminate.
  - revert Hrefused. unfold Orders.confirmDelivery. run2.
    destruct (findUnique Order.id i (orders db)) as [o|] eqn:Ho; cbn;
      [|reflexivity].
    destruct (negb (String.eqb (Order.customerId o) (auth_id u))); cbn;
      [reflexivity|].
    destruct (negb (OrderStatus.eqb (Order.status o) OrderStatus.DELIVERED));
      cbn; [reflexivity|].
    rewrite Ho. cbn.
    destruct (find (Orders.ofOrder o) (transactions db)) as [x|] eqn:Ex;
      cbn; [|discriminate].
    apply find_some in Ex. destruct Ex as [Hin _].
    destruct (In_findUnique Transaction.id _ _ Hin) as [y Hy].
    autorewrite with store. rewrite Hy. cbn. discriminate.
  - revert Hrefused.
    destruct b as [reason|]; [|reflexivity].
    destruct (findUnique Order.id i (orders db)) as [o|] eqn:Ho.
    2:{ unfold Lifecycle.cancel. run2. rewrite Ho. reflexivity. }
    destruct (findUnique Vendor.id (Order.vendorId o) (vendors db))
      as [v|] eqn:Hv.
    2:{ unfold Lifecycle.cancel. run2. rewrite Ho. cbn. rewrite Hv.
        reflexivity. }
    rewrite (cancel_order_run db u i reason o v Ho Hv).
    destruct (Lifecycle.mayNotCancel u o v); [reflexivity|].
    destruct (negb (OrderStatus.includes Lifecycle.cancellableStatuses
                      (Order.status o))); [reflexivity|].
    discriminate.
  - revert Hrefused.
    destruct (findUnique Order.id i (orders db)) as [o|] eqn:Ho.
    2:{ unfold Lifecycle.initiatePayment. run2. rewrite Ho. reflexivity. }
    rewrite (initiatePayment_run db u i p n t o Ho).
    destruct (negb (String.eqb (Order.customerId o) (auth_id u)));
      [reflexivity|].
    destruct (negb (OrderStatus.eqb (Order.status o)
                      OrderStatus.PAYMENT_PENDING)); [reflexivity|].
    destruct (find (Orders.ofOrder o) (transactions db));
      [reflexivity | discriminate].
Qed.

Lemma refused_request_writes_nothing_witness :
  Lifecycle.handle
    (Lifecycle.ConfirmDelivery Example.customer "o1" 3000)
    (Example.shop OrderStatus.PREPARING)
  = Example.shop OrderStatus.PREPARING.
Proof.
  apply (refused_request_writes_nothing
           (Lifecycle.ConfirmDelivery Example.customer "o1" 3000)
           (Example.shop OrderStatus.PREPARING)
           (orderInvalidStatus "PREPARING" "DELIVERED")).
  reflexivity.
Defined.

(** X29. Who may not update an order's status. A caller whose role is
    neither VENDOR nor ADMIN is refused with Forbidden before the order is
    even looked up, whether it exists or not. A VENDOR who is not the user
    of the order's vendor is refused with Forbidden for every status the
    schema admits, whether the transition would be valid or not. In both
    cases the store is left as it was. *)
Theorem updateStatus_refuses_strangers
  (db : Db) (user : AuthUser) (id : Id) (status : OrderStatus.t) (now : Z) :
  (auth_role user <> VENDOR -> auth_role user <> ADMIN ->
   Orders.updateStatus user id status now db
   = (Err (forbidden
             "This action requires one of these roles: VENDOR, ADMIN"), db))
  /\ (forall order vendor,
        auth_role user = VENDOR ->
        Orders.updateStatusSchema status = true ->
        findUnique Order.id id (orders db) = Some order ->
        findUnique Vendor.id (Order.vendorId order) (vendors db)
        = Some vendor ->
        Vendor.userId vendor <> auth_id user ->
        Orders.updateStatus user id status now db
        = (Err (forbidden "Only the vendor can update order status"), db)).
Proof.
  split.
  - intros Hv Ha. unfold Orders.updateStatus. run.
    assert (H : rolesInclude [VENDOR; ADMIN] (auth_role user) = false).
    { unfold rolesInclude. cbn.
      destruct (auth_role user); try reflexivity; congruence. }
    rewrite H. reflexivity.
  - intros order vendor Hrole Hschema Ho Hv Hne.
    unfold Orders.updateStatus. run. rewrite Hrole.
    change (rolesInclude [VENDOR; ADMIN] VENDOR) with true. cbn.
    rewrite Hschema. cbn. rewrite Ho. cbn. rewrite Hv. cbn.
    apply String.eqb_neq in Hne. rewrite Hne. reflexivity.
Qed.

Lemma updateStatus_refuses_strangers_witness :
  Orders.updateStatus Example.customer "no-such-order" OrderStatus.ACCEPTED
    1000 (Example.shop OrderStatus.PENDING)
  = (Err (forbidden "This action requires one of these roles: VENDOR, ADMIN"),
     Example.shop OrderStatus.PENDING)
  /\ Orders.updateStatus (mkAuth "u-other" VENDOR) "o1"
       OrderStatus.DELIVERED 1000 (Example.shop OrderStatus.PENDING)
     = (Err (forbidden "Only the vendor can update order status"),
        Example.shop OrderStatus.PENDING).
Proof.
  split.
  - apply (proj1 (updateStatus_refuses_strangers
                    (Example.shop OrderStatus.PENDING) Example.customer
                    "no-such-order" OrderStatus.ACCEPTED 1000));
      discriminate.
  - apply (proj2 (updateStatus_refuses_strangers
                    (Example.shop OrderStatus.PENDING)
                    (mkAuth "u-other" VENDOR) "o1" OrderStatus.DELIVERED
                    1000)
             (Example.order1 OrderStatus.PENDING) Example.vendor1);
      try reflexivity. discriminate.
Defined.


(** ** Slugs *)

(** Decides a property of one character by going through all of them. *)
Ltac by_char c :=
  destruct c as [[] [] [] [] [] [] [] []]; vm_compute;
  first [reflexivity | intros; congruence].

Lemma lowered_source (c : ascii) :
  isSlugSource (lowerAscii c) = true ->
  isLowerAlnum (lowerAscii c) || isSeparator (lowerAscii c) = true.
Proof. by_char c. Qed.

Lemma separator_not_alnum (c : ascii) :
  isSeparator c = true -> isLowerAlnum c = false.
Proof. by_char c. Qed.

Lemma hyphen_separator (c : ascii) :
  isHyphen c = true -> isSeparator c = true.
Proof. by_char c. Qed.

Lemma alnum_not_hyphen (c : ascii) :
  isLowerAlnum c = true -> isHyphen c = false.
Proof. by_char c. Qed.

Lemma alnum_source (c : ascii) :
  isLowerAlnum c = true -> isSlugSource c = true.
Proof. by_char c. Qed.

Lemma hyphen_source (c : ascii) :
  isHyphen c = true -> isSlugSource c = true.
Proof. by_char c. Qed.

Lemma alnum_lowered (c : ascii) :
  isLowerAlnum c = true -> lowerAscii c = c.
Proof. by_char c. Qed.

Lemma hyphen_lowered (c : ascii) :
  isHyphen c = true -> lowerAscii c = c.
Proof. by_char c. Qed.

Lemma hyphen_eq (c : ascii) : isHyphen c = true -> c = "-"%char.
Proof. unfold isHyphen. apply Ascii.eqb_eq. Qed.

Lemma kept_lowered (text : string) :
  allChars (fun c => isLowerAlnum c || isSeparator c)
           (keepChars isSlugSource (toLowerCase text)) = true.
Proof.
  induction text as [|c text IH]; [reflexivity|].
  cbn [toLowerCase keepChars].
  destruct (isSlugSource (lowerAscii c)) eqn:E; [|exact IH].
  cbn [allChars]. now rewrite (lowered_source c E), IH.
Qed.

Lemma replaceRuns_apart (s : string) :
  allChars (fun c => isLowerAlnum c || isSeparator c) s = true ->
  forall inRun, hyphensApart inRun (replaceRuns inRun s) = true.
Proof.
  induction s as [|c s IH]; intros Hall inRun; [reflexivity|].
  cbn [allChars] in Hall. apply andb_true_iff in Hall.
  destruct Hall as [Hc Hs]. cbn [replaceRuns].
  destruct (isSeparator c) eqn:Es.
  - destruct inRun; [now apply IH|].
    cbn [hyphensApart]. change (isHyphen "-") with true. cbn.
    now apply IH.
  - rewrite orb_false_r in Hc. cbn [hyphensApart].
    rewrite (alnum_not_hyphen c Hc), Hc. cbn. now apply IH.
Qed.

Lemma hyphensApart_weaken (s : string) (p : bool) :
  hyphensApart p s = true -> hyphensApart false s = true.
Proof.
  destruct s as [|c s]; [reflexivity|]. cbn [hyphensApart].
  destruct (isHyphen c); [|trivial].
  intros H. apply andb_true_iff in H. now destruct H as [_ ->].
Qed.

Lemma dropLeadingHyphens_apart (s : string) (p : bool) :
  hyphensApart p s = true ->
  hyphensApart true (dropLeadingHyphens s) = true.
Proof.
  revert p. induction s as [|c s IH]; intros p H; [reflexivity|].
  cbn [dropLeadingHyphens]. cbn [hyphensApart] in H.
  destruct (isHyphen c) eqn:Eh.
  - apply andb_true_iff in H. destruct H as [_ H]. now apply (IH true).
  - cbn [hyphensApart]. now rewrite Eh.
Qed.

Lemma hyphensApart_cons (p : bool) (c : ascii) (s : string) :
  hyphensApart p (String c s)
  = if isHyphen c then negb p && hyphensApart true s
    else isLowerAlnum c && hyphensApart false s.
Proof. reflexivity. Qed.

Lemma dropTrailingHyphens_apart (s : string) :
  forall p, hyphensApart p s = true ->
    hyphensApart p (dropTrailingHyphens s) = true
    /\ endsWithHyphen (dropTrailingHyphens s) = false.
Proof.
  induction s as [|c s IH]; intros p H; [split; reflexivity|].
  cbn [dropTrailingHyphens]. rewrite hyphensApart_cons in H.
  destruct (isHyphen c) eqn:Eh.
  - apply andb_true_iff in H. destruct H as [Hp H].
    destruct (IH true H) as [Ha He].
    destruct (dropTrailingHyphens s) as [|d r] eqn:Er;
      [split; reflexivity|].
    split; [|exact He].
    now rewrite hyphensApart_cons, Eh, Hp, Ha.
  - apply andb_true_iff in H. destruct H as [Hc H].
    destruct (IH false H) as [Ha He].
    destruct (dropTrailingHyphens s) as [|d r] eqn:Er.
    + split; [now rewrite hyphensApart_cons, Eh, Hc | exact Eh].
    + split; [now rewrite hyphensApart_cons, Eh, Hc, Ha | exact He].
Qed.

Lemma slug_lowered (s : string) (p : bool) :
  hyphensApart p s = true -> toLowerCase s = s.
Proof.
  revert p. induction s as [|c s IH]; intros p H; [reflexivity|].
  cbn [hyphensApart] in H. cbn [toLowerCase].
  destruct (isHyphen c) eqn:Eh; apply andb_true_iff in H;
    destruct H as [Hc H].
  - now rewrite (hyphen_lowered c Eh), (IH true H).
  - now rewrite (alnum_lowered c Hc), (IH false H).
Qed.

Lemma slug_kept (s : string) (p : bool) :
  hyphensApart p s = true -> keepChars isSlugSource s = s.
Proof.
  revert p. induction s as [|c s IH]; intros p H; [reflexivity|].
  cbn [hyphensApart] in H. cbn [keepChars].
  destruct (isHyphen c) eqn:Eh; apply andb_true_iff in H;
    destruct H as [Hc H].
  - now rewrite (hyphen_source c Eh), (IH true H).
  - now rewrite (alnum_source c Hc), (IH false H).
Qed.

Lemma slug_runs (s : string) (p : bool) :
  hyphensApart p s = true -> replaceRuns p s = s.
Proof.
  revert p. induction s as [|c s IH]; intros p H; [reflexivity|].
  cbn [hyphensApart] in H. cbn [replaceRuns].
  destruct (isHyphen c) eqn:Eh; apply andb_true_iff in H;
    destruct H as [Hc H].
  - rewrite (hyphen_separator c Eh). apply negb_true_iff in Hc. subst p.
    now rewrite (IH true H), (hyphen_eq c Eh).
  - destruct (isSeparator c) eqn:Es.
    + rewrite (separator_not_alnum c Es) in Hc. discriminate.
    + now rewrite (IH false H).
Qed.

Lemma slug_leading (s : string) :
  hyphensApart true s = true -> dropLeadingHyphens s = s.
Proof.
  destruct s as [|c s]; [reflexivity|]. cbn [hyphensApart dropLeadingHyphens].
  destruct (isHyphen c); [discriminate | reflexivity].
Qed.

Lemma slug_trailing (s : string) :
  endsWithHyphen s = false -> dropTrailingHyphens s = s.
Proof.
  induction s as [|c s IH]; intros H; [reflexivity|].
  cbn [dropTrailingHyphens]. destruct s as [|d s].
  - cbn in *. now rewrite H.
  - rewrite IH by exact H. reflexivity.
Qed.

(** X30. A slug is made of words of lower-case letters and digits, joined
    by single hyphens, with no hyphen at either end; and [slugify] leaves
    every such text as it is, so slugifying twice is slugifying once. (For
    ASCII text.) *)
Theorem slugify_is_slug_and_idempotent (text : string)
  (Hascii : allChars isAscii text = true) :
  isSlug (slugify text) = true
  /\ slugify (slugify text) = slugify text
  /\ forall s, isSlug s = true -> slugify s = s.
Proof.
  assert (Hfix : forall s, isSlug s = true -> slugify s = s).
  { intros s H. unfold isSlug in H. apply andb_true_iff in H.
    destruct H as [Ha He]. apply negb_true_iff in He.
    unfold slugify.
    rewrite (slug_lowered s true Ha), (slug_kept s true Ha).
    rewrite (slug_runs s false (hyphensApart_weaken s true Ha)).
    now rewrite (slug_leading s Ha), (slug_trailing s He). }
  assert (Hslug : isSlug (slugify text) = true).
  { unfold isSlug, slugify.
    pose proof (replaceRuns_apart _ (kept_lowered text) false) as H1.
    apply dropLeadingHyphens_apart in H1.
    apply dropTrailingHyphens_apart in H1. destruct H1 as [H1 H2].
    now rewrite H1, H2. }
  split; [exact Hslug|]. split; [now apply Hfix | exact Hfix].
Qed.

Lemma slugify_is_slug_and_idempotent_witness :
  slugify "  Kissy_Road -- Water Tap #3! " = "kissy-road-water-tap-3"
  /\ isSlug (slugify "  Kissy_Road -- Water Tap #3! ") = true
  /\ slugify (slugify "  Kissy_Road -- Water Tap #3! ")
     = slugify "  Kissy_Road -- Water Tap #3! ".
Proof.
  split; [reflexivity|].
  destruct (slugify_is_slug_and_idempotent "  Kissy_Road -- Water Tap #3! "
              eq_refl) as (H1 & H2 & _).
  split; [exact H1 | exact H2].
Defined.
